(** * JoystickGremlin: input devices and shared utilities

    A shallow embedding of [gremlin/input_devices.py] and [gremlin/util.py],
    followed by the properties established about them.

    Conventions of the embedding:
    - Python integers are [Z]; bit operations are [Z.land] and [Z.testbit].
    - A [bytes] value is a [list byte].
    - Python dictionaries are stdpp finite maps ([gmap]).
    - Code that raises returns an [Outcome]; code that mutates module level
      state is a function from the state to an outcome and the new state.
    - Python floats are binary64 values (Rocq's primitive floats); numeric
      code is written once over the interface [PyNumber] and read both in
      binary64 and in exact rational arithmetic. *)

From Stdlib Require Import ZArith QArith Qabs Qminmax Lia Lqa Floats Uint63 Ascii.
From Stdlib.Strings Require Import Byte.
From stdpp Require Import gmap strings list sorting.

(** ** Python values, exceptions and effects *)

Module Py.

(** The values that reach the code of this layer as dictionary keys and as
    call arguments.  [VFloat] carries the exact value of a finite float;
    [VObject] is any other object, compared by identity. *)
Inductive Value : Type :=
| VNone
| VBool (b : bool)
| VInt (n : Z)
| VFloat (q : Q)
| VStr (s : string)
| VVJoyProxy
| VJoystickProxy
| VKeyboard
| VObject (oid : nat).

(** The exceptions this layer raises or lets through. *)
Inductive Exception : Type :=
| TypeError (msg : string)
| GremlinError (msg : string)
| KeyError (key : Value)
| StructError (msg : string)
| IndexError (msg : string)
| ZeroDivisionError (msg : string).

Inductive Outcome (A : Type) : Type :=
| Return (a : A)
| Raise (e : Exception).
Arguments Return {A} a.
Arguments Raise {A} e.

(** [isinstance(key, int)]: [bool] is a subclass of [int]. *)
Definition isinstance_int (v : Value) : bool :=
  match v with
  | VInt _ | VBool _ => true
  | _ => false
  end.

(** [type(key) == int]: the exact type, which leaves [bool] out. *)
Definition type_is_int (v : Value) : bool :=
  match v with
  | VInt _ => true
  | _ => false
  end.

(** The integer a value is equal to (and hashes like) as a dictionary key:
    [1 == True == 1.0] in Python, and no string, [None] or plain
    object equals an integer. *)
Definition int_key (v : Value) : option Z :=
  match v with
  | VInt n => Some n
  | VBool b => Some (if b then 1 else 0)%Z
  | VFloat q => if (Zpos (Qden (Qred q)) =? 1)%Z then Some (Qnum (Qred q)) else None
  | _ => None
  end.

(** The value of an integer typed key in comparisons such as [key > n]. *)
Definition int_value (v : Value) : Z :=
  match v with
  | VInt n => n
  | VBool b => (if b then 1 else 0)%Z
  | _ => 0%Z
  end.

(** Stateful, fallible code: a function of the state that returns an
    outcome together with the state it leaves behind. *)
Definition M (S A : Type) : Type := S -> Outcome A * S.

Definition ret {S A : Type} (a : A) : M S A := fun s => (Return a, s).

Definition raise {S A : Type} (e : Exception) : M S A := fun s => (Raise e, s).

Definition bind {S A B : Type} (m : M S A) (k : A -> M S B) : M S B :=
  fun s =>
    match m s with
    | (Return a, s') => k a s'
    | (Raise e, s') => (Raise e, s')
    end.

Definition get {S : Type} : M S S := fun s => (Return s, s).

Definition modify {S : Type} (f : S -> S) : M S unit := fun s => (Return tt, f s).

(** [for x in xs: body(x)] *)
Fixpoint for_each {S A : Type} (xs : list A) (body : A -> M S unit) : M S unit :=
  match xs with
  | [] => ret tt
  | x :: rest => bind (body x) (fun _ => for_each rest body)
  end.

End Py.

Import Py.

Declare Scope py_scope.
Delimit Scope py_scope with py.
Notation "'let*' x ':=' m 'in' k" := (Py.bind m (fun x => k))
  (at level 10, x name, m at level 100, k at level 200) : py_scope.

(** Fallible code without state: sequencing on outcomes. *)
Definition and_then {A B : Type} (o : Outcome A) (k : A -> Outcome B) : Outcome B :=
  match o with
  | Return a => k a
  | Raise e => Raise e
  end.

(** ** The numeric interface of the signal code

    [deadzone] and [JoystickWrapper.axis] use subtraction, true division,
    [abs], comparisons, [min] and [max] on whatever numbers they are given.
    The embedding is written once over this interface. *)

Class PyNumber (N : Type) : Type := {
  of_int : Z -> N;
  num_sub : N -> N -> N;
  num_div : N -> N -> N;
  num_abs : N -> N;
  num_lt : N -> N -> bool;
  num_ge : N -> N -> bool;
  num_is_zero : N -> bool
}.

Module Num.

(** Exact rational arithmetic. *)
#[export] Instance Q_number : PyNumber Q := {|
  of_int := inject_Z;
  num_sub := Qminus;
  num_div := Qdiv;
  num_abs := Qabs;
  num_lt := fun a b => negb (Qle_bool b a);
  num_ge := fun a b => Qle_bool b a;
  num_is_zero := fun a => Qeq_bool a 0
|}.

(** [float(n)] for an integer below 2^63 in absolute value (exact below
    2^53, rounded to nearest above, as in Python). *)
Definition float_of_Z (z : Z) : float :=
  if (z <? 0)%Z then PrimFloat.opp (PrimFloat.of_uint63 (Uint63.of_Z (- z)))
  else PrimFloat.of_uint63 (Uint63.of_Z z).

(** IEEE 754 binary64 arithmetic, the arithmetic of Python's [float]. *)
#[export] Instance float_number : PyNumber float := {|
  of_int := float_of_Z;
  num_sub := PrimFloat.sub;
  num_div := PrimFloat.div;
  num_abs := PrimFloat.abs;
  num_lt := PrimFloat.ltb;
  num_ge := fun a b => PrimFloat.leb b a;
  num_is_zero := fun a => PrimFloat.eqb a PrimFloat.zero
|}.

(** The exact rational value of a binary64 number ([None] for infinities
    and NaN). *)
Definition float_to_Q (f : float) : option Q :=
  match Prim2SF f with
  | S754_zero _ => Some 0%Q
  | S754_finite s m e =>
      let mant := if s then Zneg m else Zpos m in
      Some (match e with
            | Z0 => inject_Z mant
            | Zpos p => inject_Z (mant * 2 ^ Zpos p)
            | Zneg p => Qmake mant (2 ^ p)%positive
            end)
  | _ => None
  end.

Section Builtins.
Context {N : Type} `{PyNumber N}.

(** [a / b]: raises [ZeroDivisionError] on a zero divisor. *)
Definition truediv (a b : N) : Outcome N :=
  if num_is_zero b then Raise (ZeroDivisionError "division by zero")
  else Return (num_div a b).

(** [min(a, b)] keeps its first argument unless the second is smaller. *)
Definition py_min (a b : N) : N := if num_lt b a then b else a.

(** [max(a, b)] keeps its first argument unless the second is greater. *)
Definition py_max (a b : N) : N := if num_lt a b then b else a.

End Builtins.

End Num.

Import Num.

(** ** gremlin/util.py *)

(** The hat bit masks of the SDL2 headers, reached as [sdl2.SDL_HAT_*]. *)
Module sdl2.
Definition SDL_HAT_CENTERED : Z := 0.
Definition SDL_HAT_UP : Z := 1.
Definition SDL_HAT_RIGHT : Z := 2.
Definition SDL_HAT_DOWN : Z := 4.
Definition SDL_HAT_LEFT : Z := 8.
End sdl2.

Module util.

(** Truth value of an integer in a condition. *)
Definition truthy (n : Z) : bool := negb (n =? 0)%Z.

(** [convert_sdl_hat(value)]: [direction] is the two element list the
    code updates by index; the returned tuple keeps its two items. *)
Definition convert_sdl_hat (value : Z) : list Z :=
  let direction := [0; 0]%Z in
  let direction :=
    if truthy (Z.land value sdl2.SDL_HAT_UP) then <[1%nat := 1%Z]> direction
    else if truthy (Z.land value sdl2.SDL_HAT_DOWN) then <[1%nat := (-1)%Z]> direction
    else direction in
  let direction :=
    if truthy (Z.land value sdl2.SDL_HAT_RIGHT) then <[0%nat := 1%Z]> direction
    else if truthy (Z.land value sdl2.SDL_HAT_LEFT) then <[0%nat := (-1)%Z]> direction
    else direction in
  direction.

(** One big-endian unsigned integer read from its bytes. *)
Definition unpack_uint_be (bs : list byte) : Z :=
  fold_left (fun acc b => (acc * 256 + Z.of_N (Byte.to_N b))%Z) bs 0%Z.

(** [count] consecutive 4 byte words of a buffer. *)
Fixpoint unpack_words (count : nat) (buffer : list byte) : list Z :=
  match count with
  | O => []
  | S c => unpack_uint_be (take 4 buffer) :: unpack_words c (drop 4 buffer)
  end.

(** [struct.unpack(">4I", buffer)]: four big-endian unsigned 32 bit
    integers; the buffer must hold exactly 16 bytes. *)
Definition struct_unpack_4I (buffer : list byte) : Outcome (list Z) :=
  if (length buffer =? 16)%nat then Return (unpack_words 4 buffer)
  else Raise (StructError "unpack requires a buffer of 16 bytes").

(** [t[i]] on a tuple. *)
Definition tuple_item (t : list Z) (i : nat) : Outcome Z :=
  match t !! i with
  | Some x => Return x
  | None => Raise (IndexError "tuple index out of range")
  end.

(** [guid_to_number(guid)] *)
Definition guid_to_number (guid : list byte) : Outcome Z :=
  and_then (struct_unpack_4I guid) (fun words => tuple_item words 0).

End util.

(** ** gremlin/input_devices.py *)

(** *** Callbacks

    A callback is a Python function: it has a declared name and, called
    with positional and keyword arguments, runs in the state of the process
    ([World]), returning a value or raising. *)
Record Callback (World : Type) : Type := mkCallback {
  __name__ : string;
  call : list Value -> gmap string Value -> M World Value
}.
Arguments mkCallback {World} __name__ call.
Arguments __name__ {World} c.
Arguments call {World} c args kwargs.

(** [functools.wraps(wrapped)(wrapper)]: the wrapper, carrying the name of
    the function it wraps. *)
Definition wraps {World : Type} (wrapped wrapper : Callback World) : Callback World :=
  {| __name__ := __name__ wrapped; call := call wrapper |}.

(** [inspect.Signature]: the declared parameter names, in order. *)
Record Signature : Type := { parameters : list string }.

(** Modelled from the spec: the input kinds of [event_handler.InputType],
    which is not part of these sources. *)
Inductive InputType : Type :=
| JoystickAxis
| JoystickButton
| JoystickHat
| Keyboard.

(** *** CallbackRegistry *)

Module CallbackRegistry.
Section Registry.
(** [Event] stands for [event_handler.Event] up to its own equality and
    hash, [DeviceId] for what [util.device_id] returns; neither is part of
    these sources. *)
Context {World Event DeviceId : Type}.
Context `{Countable Event} `{Countable DeviceId}.
Variable device_id : Event -> DeviceId.

(** [_registry]: device id, then mode, then event, then function name. *)
Definition Bucket : Type := gmap string (Callback World * bool).
Definition Registry : Type := gmap DeviceId (gmap string (gmap Event Bucket)).

(** The registry object, and the warnings handed to [logging]. *)
Record State : Type := mkState {
  _registry : Registry;
  warnings : list string
}.

Definition at_device (r : Registry) (d : DeviceId) : gmap string (gmap Event Bucket) :=
  default ∅ (r !! d).
Definition at_mode (r : Registry) (d : DeviceId) (m : string) : gmap Event Bucket :=
  default ∅ (at_device r d !! m).
Definition at_event (r : Registry) (d : DeviceId) (m : string) (e : Event) : Bucket :=
  default ∅ (at_mode r d m !! e).

(** [r[d][m] = x], [r[d][m][e] = x] and [r[d][m][e][n] = x]. *)
Definition set_mode (r : Registry) (d : DeviceId) (m : string) (x : gmap Event Bucket) : Registry :=
  <[d := <[m := x]> (at_device r d)]> r.
Definition set_event (r : Registry) (d : DeviceId) (m : string) (e : Event) (x : Bucket) : Registry :=
  set_mode r d m (<[e := x]> (at_mode r d m)).
Definition set_entry (r : Registry) (d : DeviceId) (m : string) (e : Event)
    (n : string) (x : Callback World * bool) : Registry :=
  set_event r d m e (<[n := x]> (at_event r d m e)).

(** ["Function with name {} exists multiple times".format(function_name)] *)
Definition duplicate_warning (function_name : string) : string :=
  ("Function with name " ++ function_name ++ " exists multiple times")%string.

(** [if device_id not in self._registry: self._registry[device_id] = {}] *)
Definition ensure_device (r : Registry) (d : DeviceId) : Registry :=
  match r !! d with
  | None => <[d := ∅]> r
  | Some _ => r
  end.

(** [if mode not in self._registry[device_id]: ...[mode] = {}] *)
Definition ensure_mode (r : Registry) (d : DeviceId) (m : string) : Registry :=
  match at_device r d !! m with
  | None => set_mode r d m ∅
  | Some _ => r
  end.

(** [if event not in self._registry[device_id][mode]: ...[event] = {}] *)
Definition ensure_event (r : Registry) (d : DeviceId) (m : string) (e : Event) : Registry :=
  match at_mode r d m !! e with
  | None => set_event r d m e ∅
  | Some _ => r
  end.

(** [CallbackRegistry.add(callback, event, mode, always_execute)] *)
Definition add (callback : Callback World) (event : Event) (mode : string)
    (always_execute : bool) : M State unit :=
  fun self =>
    let device_id := device_id event in
    let function_name := __name__ callback in
    let r := ensure_device (_registry self) device_id in
    let r := ensure_mode r device_id mode in
    let r := ensure_event r device_id mode event in
    match at_event r device_id mode event !! function_name with
    | None =>
        (Return tt,
         {| _registry := set_entry r device_id mode event function_name
                           (callback, always_execute);
            warnings := warnings self |})
    | Some _ =>
        (Return tt,
         {| _registry := r;
            warnings := warnings self ++ [duplicate_warning function_name] |})
    end.

(** The [registry] property and [clear()]. *)
Definition registry (self : State) : Registry := _registry self.
Definition clear : M State unit :=
  modify (fun self => {| _registry := ∅; warnings := warnings self |}).

(** The entry a dispatcher finds under a full key, if any. *)
Definition entry (r : Registry) (d : DeviceId) (m : string) (e : Event) (n : string)
    : option (Callback World * bool) :=
  at_event r d m e !! n.

(** One call of [add], as data, and a run of such calls in order. *)
Record Registration : Type := mkRegistration {
  reg_callback : Callback World;
  reg_event : Event;
  reg_mode : string;
  reg_always_execute : bool
}.

Definition add_all (calls : list Registration) : M State unit :=
  for_each calls
    (fun c => add (reg_callback c) (reg_event c) (reg_mode c) (reg_always_execute c)).

(** The first call in a run that registers under a given full key. *)
Definition registers_at (d : DeviceId) (m : string) (e : Event) (n : string)
    (c : Registration) : bool :=
  bool_decide (device_id (reg_event c) = d /\ reg_mode c = m
               /\ reg_event c = e /\ __name__ (reg_callback c) = n).

Definition first_registered (calls : list Registration) (d : DeviceId) (m : string)
    (e : Event) (n : string) : option (Callback World * bool) :=
  match find (registers_at d m e n) calls with
  | Some c => Some (reg_callback c, reg_always_execute c)
  | None => None
  end.

End Registry.
End CallbackRegistry.

(** *** Proxy caches

    Both caches only ever hold integer keys.  A lookup with any key finds
    the entry whose key is equal to it in Python's sense ([int_key]). *)
Definition dict_get {A : Type} (d : gmap Z A) (key : Value) : option A :=
  match int_key key with
  | Some n => d !! n
  | None => None
  end.

Definition dict_set {A : Type} (d : gmap Z A) (key : Value) (x : A) : gmap Z A :=
  match int_key key with
  | Some n => <[n := x]> d
  | None => d
  end.

(** *** VJoyProxy *)

Module VJoyProxy.

(** Modelled from the spec: the virtual device handle [vjoy.vjoy.VJoy],
    which is not part of these sources.  A handle is constructed from an
    id; every construction yields a new object ([vjoy_oid]). *)
Record VJoy : Type := mkVJoy {
  vjoy_id : Value;
  vjoy_oid : nat
}.

(** The class attribute [vjoy_devices], and the handles constructed so
    far, oldest first. *)
Record State : Type := mkState {
  vjoy_devices : gmap Z VJoy;
  constructed : list VJoy
}.

Definition initial : State := {| vjoy_devices := ∅; constructed := [] |}.

(** [VJoy(key)] *)
Definition VJoy_new (key : Value) : M State VJoy :=
  fun st =>
    let device := {| vjoy_id := key; vjoy_oid := length (constructed st) |} in
    (Return device,
     {| vjoy_devices := vjoy_devices st; constructed := constructed st ++ [device] |}).

(** [VJoyProxy.__getitem__(key)] *)
Definition __getitem__ (key : Value) : M State VJoy :=
  fun st =>
    match dict_get (vjoy_devices st) key with
    | Some device => (Return device, st)
    | None =>
        if negb (isinstance_int key) then (Raise (TypeError "Integer ID expected"), st)
        else
          (let* device := VJoy_new key in
           let* _ := modify (fun st => {| vjoy_devices := dict_set (vjoy_devices st) key device;
                                          constructed := constructed st |}) in
           ret device)%py st
    end.

End VJoyProxy.

(** *** The joystick API of SDL2, as this layer uses it

    The state of the platform at the time of a call: how many joysticks
    are connected, the instance id of the joystick at each open index, and
    the raw value of each axis.  A joystick handle is represented by the
    index it was opened from. *)
Record SDL : Type := mkSDL {
  SDL_NumJoysticks : Z;
  SDL_JoystickInstanceID : Z -> Z;
  SDL_JoystickGetAxis : Z -> Z -> Z;
  SDL_JoystickGetHat : Z -> Z -> Z
}.

(** *** JoystickWrapper *)

Module JoystickWrapper.

Record JoystickWrapper : Type := mkJoystickWrapper {
  _joystick : Z;
  wrapper_oid : nat
}.

(** The calls of [SDL_JoystickOpen] made so far, oldest first; each call
    of the constructor yields a new wrapper object. *)
Record Opened : Type := mkOpened {
  opened : list Z
}.

(** [JoystickWrapper.__init__(jid)] *)
Definition __init__ (sdl : SDL) (jid : Z) : M Opened JoystickWrapper :=
  fun st =>
    if (jid >? SDL_NumJoysticks sdl)%Z
    then (Raise (GremlinError "No device with the provided ID exist"), st)
    else (Return {| _joystick := jid; wrapper_oid := length (opened st) |},
          {| opened := opened st ++ [jid] |}).

(** [windows_id()] *)
Definition windows_id (sdl : SDL) (self : JoystickWrapper) : Z :=
  SDL_JoystickInstanceID sdl (_joystick self).

(** [axis(index)]: [SDL_JoystickGetAxis(...) / float(32768)] *)
Definition axis {N : Type} `{PyNumber N} (sdl : SDL) (self : JoystickWrapper) (index : Z) : Outcome N :=
  truediv (of_int (SDL_JoystickGetAxis sdl (_joystick self) (index - 1))) (of_int 32768).

(** [hat(index)] *)
Definition hat (sdl : SDL) (self : JoystickWrapper) (index : Z) : list Z :=
  util.convert_sdl_hat (SDL_JoystickGetHat sdl (_joystick self) (index - 1)).

End JoystickWrapper.

(** *** JoystickProxy *)

Module JoystickProxy.
Import JoystickWrapper.

(** The class attribute [joystick_devices], with the record of the
    devices opened so far. *)
Record State : Type := mkState {
  joystick_devices : gmap Z JoystickWrapper;
  sdl_opened : Opened
}.

Definition initial : State := {| joystick_devices := ∅; sdl_opened := {| opened := [] |} |}.

(** Running the wrapper's constructor inside the proxy's state. *)
Definition construct (sdl : SDL) (jid : Z) : M State JoystickWrapper :=
  fun st =>
    match JoystickWrapper.__init__ sdl jid (sdl_opened st) with
    | (out, o) => (out, {| joystick_devices := joystick_devices st; sdl_opened := o |})
    end.

(** The body of the loop: [joy = JoystickWrapper(i)] and
    [joystick_devices[joy.windows_id()] = joy]. *)
Definition open_and_store (sdl : SDL) (i : Z) : M State unit :=
  (let* joy := construct sdl i in
   modify (fun st => {| joystick_devices := <[windows_id sdl joy := joy]> (joystick_devices st);
                        sdl_opened := sdl_opened st |}))%py.

(** [JoystickProxy.__getitem__(key)] *)
Definition __getitem__ (sdl : SDL) (key : Value) : M State JoystickWrapper :=
  fun st =>
    match dict_get (joystick_devices st) key with
    | Some joy => (Return joy, st)
    | None =>
        if negb (type_is_int key) then (Raise (TypeError "Integer ID expected"), st)
        else if (int_value key >? SDL_NumJoysticks sdl)%Z
        then (Raise (GremlinError "No device with the provided ID exist"), st)
        else
          (let* _ := for_each (seqZ 0 (SDL_NumJoysticks sdl)) (open_and_store sdl) in
           let* st' := get in
           match dict_get (joystick_devices st') key with
           | Some joy => ret joy
           | None => raise (KeyError key)
           end)%py st
    end.

End JoystickProxy.

(** *** Plugins

    [install(callback, signature)] of the three plugins.  The class
    attributes [VJoyPlugin.vjoy], [JoystickPlugin.joystick] and
    [KeyboardPlugin.keyboard] are the three single objects [VVJoyProxy],
    [VJoystickProxy] and [VKeyboard]. *)

Module VJoyPlugin.
Definition keyword : string := "vjoy".
Definition vjoy : Value := VVJoyProxy.

Definition wrapper {World : Type} (callback : Callback World) : Callback World :=
  {| __name__ := "wrapper";
     call := fun args kwargs =>
       let kwargs := <[keyword := vjoy]> kwargs in
       (let* _ := call callback args kwargs in
        ret VNone)%py |}.

Definition install {World : Type} (callback : Callback World) (signature : Signature)
    : Callback World :=
  if negb (bool_decide (keyword ∈ parameters signature)) then callback
  else wraps callback (wrapper callback).
End VJoyPlugin.

Module JoystickPlugin.
Definition keyword : string := "joy".
Definition joystick : Value := VJoystickProxy.

Definition wrapper {World : Type} (callback : Callback World) : Callback World :=
  {| __name__ := "wrapper";
     call := fun args kwargs =>
       let kwargs := <[keyword := joystick]> kwargs in
       (let* _ := call callback args kwargs in
        ret VNone)%py |}.

Definition install {World : Type} (callback : Callback World) (signature : Signature)
    : Callback World :=
  if negb (bool_decide (keyword ∈ parameters signature)) then callback
  else wraps callback (wrapper callback).
End JoystickPlugin.

Module KeyboardPlugin.
Definition keyword : string := "keyboard".
Definition keyboard : Value := VKeyboard.

Definition wrapper {World : Type} (callback : Callback World) : Callback World :=
  {| __name__ := "wrapper";
     call := fun args kwargs =>
       let kwargs := <[keyword := keyboard]> kwargs in
       (let* _ := call callback args kwargs in
        ret VNone)%py |}.

Definition install {World : Type} (callback : Callback World) (signature : Signature)
    : Callback World :=
  if negb (bool_decide (keyword ∈ parameters signature)) then callback
  else wraps callback (wrapper callback).
End KeyboardPlugin.

(** The three plugins, to speak of them together. *)
Inductive Plugin : Type := UseVJoy | UseJoystick | UseKeyboard.

Definition plugin_keyword (p : Plugin) : string :=
  match p with
  | UseVJoy => VJoyPlugin.keyword
  | UseJoystick => JoystickPlugin.keyword
  | UseKeyboard => KeyboardPlugin.keyword
  end.

Definition plugin_instance (p : Plugin) : Value :=
  match p with
  | UseVJoy => VJoyPlugin.vjoy
  | UseJoystick => JoystickPlugin.joystick
  | UseKeyboard => KeyboardPlugin.keyboard
  end.

Definition plugin_install {World : Type} (p : Plugin)
    : Callback World -> Signature -> Callback World :=
  match p with
  | UseVJoy => VJoyPlugin.install
  | UseJoystick => JoystickPlugin.install
  | UseKeyboard => KeyboardPlugin.install
  end.

(** *** The decorators and the signal functions *)

Module input_devices.
Section Decorators.
Context {World Event DeviceId Key : Type}.
Context `{Countable Event} `{Countable DeviceId}.
(** What the decorators take from code outside these sources:
    [util.device_id], [util.extract_ids], the constructor of
    [event_handler.Event], [macro.key_from_name] and [Event.from_key]. *)
Variable device_id : Event -> DeviceId.
Variable extract_ids : Value -> Value * Value.
Variable Event_new : InputType -> Value -> Value -> Value -> Event.
Variable key_from_name : Value -> Key.
Variable Event_from_key : Key -> Event.

(** The state of the module level [callback_registry]. *)
Definition RegistryState : Type :=
  CallbackRegistry.State (World := World) (Event := Event) (DeviceId := DeviceId).

(** [wrapper_fn]: calls the callback and returns nothing. *)
Definition wrapper_fn (callback : Callback World) : Callback World :=
  {| __name__ := "wrapper_fn";
     call := fun args kwargs =>
       (let* _ := call callback args kwargs in
        ret VNone)%py |}.

(** [button(button_id, device_id, mode, always_execute)(callback)] *)
Definition button (button_id device : Value) (mode : string) (always_execute : bool)
    (callback : Callback World) : M RegistryState (Callback World) :=
  let wrapper_fn := wraps callback (wrapper_fn callback) in
  let '(hid, wid) := extract_ids device in
  let event := Event_new JoystickButton hid wid button_id in
  (let* _ := CallbackRegistry.add device_id wrapper_fn event mode always_execute in
   ret wrapper_fn)%py.

(** [hat(hat_id, device_id, mode, always_execute)(callback)] *)
Definition hat (hat_id device : Value) (mode : string) (always_execute : bool)
    (callback : Callback World) : M RegistryState (Callback World) :=
  let wrapper_fn := wraps callback (wrapper_fn callback) in
  let '(hid, wid) := extract_ids device in
  let event := Event_new JoystickHat hid wid hat_id in
  (let* _ := CallbackRegistry.add device_id wrapper_fn event mode always_execute in
   ret wrapper_fn)%py.

(** [axis(axis_id, device_id, mode, always_execute)(callback)] *)
Definition axis (axis_id device : Value) (mode : string) (always_execute : bool)
    (callback : Callback World) : M RegistryState (Callback World) :=
  let wrapper_fn := wraps callback (wrapper_fn callback) in
  let '(hid, wid) := extract_ids device in
  let event := Event_new JoystickAxis hid wid axis_id in
  (let* _ := CallbackRegistry.add device_id wrapper_fn event mode always_execute in
   ret wrapper_fn)%py.

(** [keyboard(key_name, mode, always_execute)(callback)] *)
Definition keyboard (key_name : Value) (mode : string) (always_execute : bool)
    (callback : Callback World) : M RegistryState (Callback World) :=
  let wrapper_fn := wraps callback (wrapper_fn callback) in
  let key := key_from_name key_name in
  let event := Event_from_key key in
  (let* _ := CallbackRegistry.add device_id wrapper_fn event mode always_execute in
   ret wrapper_fn)%py.

End Decorators.

Section Signal.
Context {N : Type} `{PyNumber N}.

(** [deadzone(value, low, low_center, high_center, high)] *)
Definition deadzone (value low low_center high_center high : N) : Outcome N :=
  if num_ge value (of_int 0) then
    and_then (truediv (num_sub value high_center) (num_abs (num_sub high high_center)))
      (fun scaled => Return (py_min (of_int 1) (py_max (of_int 0) scaled)))
  else
    and_then (truediv (num_sub value low_center) (num_abs (num_sub low low_center)))
      (fun scaled => Return (py_max (of_int (-1)) (py_min (of_int 0) scaled))).

End Signal.
End input_devices.

(** ** Further functions of gremlin/util.py and gremlin/input_devices.py *)

(** Multiplication, which [squash] needs beside the operations above. *)
Class PyNumberMul (N : Type) : Type := { num_mul : N -> N -> N }.

#[export] Instance Q_number_mul : PyNumberMul Q := {| num_mul := Qmult |}.
#[export] Instance float_number_mul : PyNumberMul float := {| num_mul := PrimFloat.mul |}.

Module signal.
Section Signal.
Context {N : Type} `{PyNumber N} `{PyNumberMul N}.

(** [util.clamp(value, min_val, max_val)] *)
Definition clamp (value min_val max_val : N) : N :=
  let '(min_val, max_val) :=
    if num_lt max_val min_val then (max_val, min_val) else (min_val, max_val) in
  py_min max_val (py_max min_val value).

(** [input_devices.squash(value, function)] *)
Definition squash (value : N) (function : N -> N) : Outcome N :=
  truediv (num_mul (of_int 2) (function value))
          (num_abs (num_sub (function (of_int (-1))) (function (of_int 1)))).

End Signal.
End signal.

(** What it is for a decorator run to register the forwarding wrapper of
    [callback] for [event]: the run hands back that wrapper, which bears
    the callback's name; where the bucket does not hold the name yet, the
    wrapper is entered with the flag, no warning is logged and no other
    entry changes; where it does, the registry stays as it is and one
    warning is logged. *)
Definition registers_wrapper {World Event DeviceId : Type}
    `{Countable Event} `{Countable DeviceId} (device_id : Event -> DeviceId)
    (run : M (CallbackRegistry.State (World := World) (Event := Event)
                (DeviceId := DeviceId)) (Callback World))
    (callback : Callback World) (event : Event) (mode : string)
    (always_execute : bool) : Prop :=
  forall st,
    let wrapper := wraps callback (input_devices.wrapper_fn callback) in
    let name := __name__ callback in
    fst (run st) = Return wrapper
    /\ __name__ wrapper = name
    /\ (CallbackRegistry.entry (CallbackRegistry._registry st)
          (device_id event) mode event name = None ->
        CallbackRegistry.entry (CallbackRegistry._registry (snd (run st)))
          (device_id event) mode event name = Some (wrapper, always_execute)
        /\ CallbackRegistry.warnings (snd (run st)) = CallbackRegistry.warnings st
        /\ forall d m e n,
             ~ (device_id event = d /\ mode = m /\ event = e /\ name = n) ->
             CallbackRegistry.entry (CallbackRegistry._registry (snd (run st))) d m e n
             = CallbackRegistry.entry (CallbackRegistry._registry st) d m e n)
    /\ (forall x,
          CallbackRegistry.entry (CallbackRegistry._registry st)
            (device_id event) mode event name = Some x ->
          snd (run st)
          = {| CallbackRegistry._registry := CallbackRegistry._registry st;
               CallbackRegistry.warnings :=
                 CallbackRegistry.warnings st
                 ++ [CallbackRegistry.duplicate_warning name] |}).

(** *** Keyboard

    The keyboard state tracker.  [Key] stands for [macro.Keys.Key] up to
    its own equality and hash; [key_from_code] and [key_from_name] are
    [macro.key_from_code] and [macro.key_from_name], which are not part of
    these sources. *)
Module Keyboard.
Section Keyboard.
Context {Key : Type} `{Countable Key}.
Variable key_from_code : Value -> Value -> Key.
Variable key_from_name : string -> Key.

(** What [keyboard_event] reads of an event: [identifier[0]],
    [identifier[1]] and [is_pressed]. *)
Record KeyEvent : Type := mkKeyEvent {
  identifier : Value * Value;
  event_is_pressed : bool
}.

Record State : Type := mkState {
  _keyboard_state : gmap Key bool
}.

(** [Keyboard.__init__()] *)
Definition __init__ : State := {| _keyboard_state := ∅ |}.

(** [Keyboard.keyboard_event(event)] *)
Definition keyboard_event (event : KeyEvent) : M State unit :=
  fun self =>
    let key := key_from_code (fst (identifier event)) (snd (identifier event)) in
    (Return tt, {| _keyboard_state := <[key := event_is_pressed event]> (_keyboard_state self) |}).

(** The argument of [is_pressed]: a key name or a key. *)
Inductive KeyArgument : Type :=
| ByName (name : string)
| ByKey (key : Key).

(** [Keyboard.is_pressed(key)] *)
Definition is_pressed (key : KeyArgument) (self : State) : bool :=
  let key := match key with
             | ByName name => key_from_name name
             | ByKey key => key
             end in
  default false (_keyboard_state self !! key).

(** The key an event is about, and the events delivered one by one. *)
Definition event_key (event : KeyEvent) : Key :=
  key_from_code (fst (identifier event)) (snd (identifier event)).

Definition deliver (events : list KeyEvent) : M State unit :=
  for_each events keyboard_event.

End Keyboard.
End Keyboard.

(** *** SingletonDecorator

    [klass] is the decorated class: constructing an instance runs in the
    state of the process and may raise. *)
Module SingletonDecorator.
Section Singleton.
Context {World Args Instance : Type}.
Variable klass : Args -> M World Instance.

(** The decorator object's [instance] attribute ([None] until the first
    construction), beside the state of the process. *)
Record State : Type := mkState {
  instance : option Instance;
  world : World
}.

(** [SingletonDecorator.__init__(klass)] *)
Definition __init__ (w : World) : State := {| instance := None; world := w |}.

(** [SingletonDecorator.__call__], called with any arguments *)
Definition __call__ (args : Args) : M State Instance :=
  fun self =>
    match instance self with
    | None =>
        match klass args (world self) with
        | (Return x, w) => (Return x, {| instance := Some x; world := w |})
        | (Raise e, w) => (Raise e, {| instance := None; world := w |})
        end
    | Some x => (Return x, self)
    end.

End Singleton.
End SingletonDecorator.

(** *** Device enumeration *)
Module devices.

(** What SDL reports of one connected joystick: its GUID, instance id,
    name (decoded), and numbers of axes, buttons and hats. *)
Record SDLJoystick : Type := mkSDLJoystick {
  SDL_JoystickGetGUID : list byte;
  SDL_JoystickInstanceID : Z;
  SDL_JoystickName : string;
  SDL_JoystickNumAxes : Z;
  SDL_JoystickNumButtons : Z;
  SDL_JoystickNumHats : Z
}.

Record JoystickDeviceData : Type := mkJoystickDeviceData {
  _hardware_id : Z;
  _system_id : Z;
  _name : string;
  _is_virtual : bool;
  _axes : Z;
  _buttons : Z;
  _hats : Z
}.

(** [JoystickDeviceData.__init__(device)] *)
Definition __init__ (device : SDLJoystick) : Outcome JoystickDeviceData :=
  and_then (util.guid_to_number (SDL_JoystickGetGUID device)) (fun hardware_id =>
    Return {| _hardware_id := hardware_id;
              _system_id := SDL_JoystickInstanceID device;
              _name := SDL_JoystickName device;
              _is_virtual := bool_decide (SDL_JoystickName device = "vJoy Device");
              _axes := SDL_JoystickNumAxes device;
              _buttons := SDL_JoystickNumButtons device;
              _hats := SDL_JoystickNumHats device |}).

(** The first loop of [joystick_devices]: one record per connected
    joystick, appended in index order. *)
Fixpoint open_each (connected : list SDLJoystick) (devices : list JoystickDeviceData)
    : Outcome (list JoystickDeviceData) :=
  match connected with
  | [] => Return devices
  | joy :: rest =>
      and_then (__init__ joy) (fun data => open_each rest (devices ++ [data]))
  end.

(** [joystick_devices()]: the state is the flag [g_duplicate_devices];
    [connected] are the joysticks at the open indices 0, 1, ... *)
Definition joystick_devices (connected : list SDLJoystick)
    : M bool (list JoystickDeviceData) :=
  fun g_duplicate_devices =>
    match open_each connected [] with
    | Raise e => (Raise e, g_duplicate_devices)
    | Return devices =>
        let names := _name <$> filter (fun v => _is_virtual v = false) devices in
        let g_duplicate_devices :=
          if negb (length names =? length (remove_dups names))%nat then true
          else g_duplicate_devices in
        (Return devices, g_duplicate_devices)
    end.

End devices.

(** The names of the connected joysticks that are not the virtual device. *)
Definition physical_names (connected : list devices.SDLJoystick) : list string :=
  devices.SDL_JoystickName
    <$> filter (fun j => devices.SDL_JoystickName j <> "vJoy Device") connected.

(** A class whose construction counts itself and keeps its argument. *)
Definition counting_class (args : Z) : M nat Z := fun count => (Return args, S count).

(** *** Names

    A name is a string of code points below 256, one character each. *)
Module names.

Definition code (c : ascii) : N := N_of_ascii c.

Definition between (lo hi : N) (c : ascii) : bool :=
  ((lo <=? code c) && (code c <=? hi))%N.

(** [str.lower()], one character: the letters A to Z and the capital
    letters from U+00C0 to U+00DE (U+00D7, the multiplication sign, is
    none) move up by 32. *)
Definition char_lower (c : ascii) : ascii :=
  if between 65 90 c || (between 192 222 c && negb (code c =? 215)%N)
  then ascii_of_N (code c + 32)
  else c.

Fixpoint map_chars (f : ascii -> ascii) (s : string) : string :=
  match s with
  | EmptyString => EmptyString
  | String c rest => String (f c) (map_chars f rest)
  end.

Fixpoint all_chars (f : ascii -> bool) (s : string) : bool :=
  match s with
  | EmptyString => true
  | String c rest => f c && all_chars f rest
  end.

Definition lower (s : string) : string := map_chars char_lower s.

(** The class of [re.sub("[ \.,:]", "_", ...)]: space, period, comma,
    colon. *)
Definition separator (c : ascii) : bool :=
  (code c =? 32)%N || (code c =? 46)%N || (code c =? 44)%N || (code c =? 58)%N.

Definition sub_separators (s : string) : string :=
  map_chars (fun c => if separator c then "_"%char else c) s.

(** The class [a-zA-Z0-9 _]. *)
Definition identifier_char (c : ascii) : bool :=
  between 97 122 c || between 65 90 c || between 48 57 c
  || (code c =? 32)%N || (code c =? 95)%N.

(** [valid_identifier(name)]: [re.fullmatch("^[a-zA-Z0-9 _]+$", name)]
    finds a match, which takes one character at least and none outside
    the class. *)
Definition valid_identifier (name : string) : bool :=
  match name with
  | EmptyString => false
  | String _ _ => all_chars identifier_char name
  end.

(** The message of [format_name], with the name between double quotes. *)
Definition invalid_name_message (new_name : string) : string :=
  ("Invalid string provided, only letters, numbers and white space supported, "
   ++ String (ascii_of_N 34) new_name ++ String (ascii_of_N 34) ".")%string.

(** [format_name(name)] *)
Definition format_name (name : string) : Outcome string :=
  let new_name := sub_separators (lower name) in
  if valid_identifier new_name then Return new_name
  else Raise (GremlinError (invalid_name_message new_name)).

End names.

(** *** Modes of a profile *)
Module modes.

(** Modelled from the spec: the profile tree of [gremlin.profile], which
    is not part of these sources.  A node has a parent or is a root; the
    root of a profile is the [Profile], which holds the devices, each
    with the names of its modes; any other parentless node is of another
    type. *)
Inductive Node : Type :=
| Profile (devices : list (list string))
| Detached
| Child (parent : Node).

(** [mode_list] returns a list or fails its assertion. *)
Inductive Result : Type :=
| Modes (mode_names : list string)
| AssertionError.

(** The loop [while parent.parent is not None: parent = parent.parent]. *)
Fixpoint root (node : Node) : Node :=
  match node with
  | Child parent => root parent
  | _ => node
  end.

(** The order of [sorted] on strings. *)
Definition string_le (a b : string) : Prop := String.leb a b = true.

#[export] Instance string_le_dec (a b : string) : Decision (string_le a b).
Proof. unfold string_le. apply _. Defined.

(** [mode_list(node)] *)
Definition mode_list (node : Node) : Result :=
  match root node with
  | Profile devices =>
      let mode_names := concat devices in
      Modes (merge_sort string_le (remove_dups mode_names))
  | _ => AssertionError
  end.

End modes.

(** The characters [format_name] accepts in a name, and the characters
    its results are made of (small letters, digits, underscore). *)
Definition accepted_char (c : ascii) : bool :=
  names.identifier_char c || names.separator c.

Definition formatted_char (c : ascii) : bool :=
  names.between 97 122 c || names.between 48 57 c || (names.code c =? 95)%N.

(** What [format_name] does to one character. *)
Definition format_char (c : ascii) : ascii :=
  let c := names.char_lower c in
  if names.separator c then "_"%char else c.

(** Every cached wrapper is stored under its own instance id. *)
Definition keyed_by_instance_id (sdl : SDL) (st : JoystickProxy.State) : Prop :=
  forall (k : Z) (joy : JoystickWrapper.JoystickWrapper),
    JoystickProxy.joystick_devices st !! k = Some joy ->
    JoystickWrapper.windows_id sdl joy = k.

(** A profile with two devices, seen from a node two levels below it. *)
Definition profile_node : modes.Node :=
  modes.Child (modes.Child (modes.Profile [["Default"; "Combat"]; ["Combat"; "Landing"]]%string)).

(** A joystick whose axes 0 and 1 read 100 and 200. *)
Definition sdl_two_axes : SDL :=
  {| SDL_NumJoysticks := 1;
     SDL_JoystickInstanceID := fun _ => 0%Z;
     SDL_JoystickGetAxis := fun _ a => ((a + 1) * 100)%Z;
     SDL_JoystickGetHat := fun _ _ => 0%Z |}.

(** ** Reference readings of the specification

    Definitions that follow the words of the specification, to be compared
    with the code above. *)

(** The hat rule: [dy] is +1 when the up bit (bit 0) is set, else -1 when
    the down bit (bit 2) is set, else 0; [dx] is +1 when the right bit
    (bit 1) is set, else -1 when the left bit (bit 3) is set, else 0. *)
Definition hat_rule_dy (value : Z) : Z :=
  if Z.testbit value 0 then 1%Z else if Z.testbit value 2 then (-1)%Z else 0%Z.
Definition hat_rule_dx (value : Z) : Z :=
  if Z.testbit value 1 then 1%Z else if Z.testbit value 3 then (-1)%Z else 0%Z.

(** The value of four bytes read as one big-endian word. *)
Definition be_word (b0 b1 b2 b3 : byte) : Z :=
  (Z.of_N (Byte.to_N b0) * 2 ^ 24 + Z.of_N (Byte.to_N b1) * 2 ^ 16
   + Z.of_N (Byte.to_N b2) * 2 ^ 8 + Z.of_N (Byte.to_N b3))%Z.

(** [x] restricted to the interval from [lo] to [hi]. *)
Definition clamped (lo hi x : Q) : Q :=
  if Qle_bool x lo then lo else if Qle_bool hi x then hi else x.

(** The same in binary64, with the comparisons of binary64. *)
Definition clamped_float (lo hi x : float) : float :=
  if PrimFloat.leb x lo then lo else if PrimFloat.leb hi x then hi else x.

(** The result of a call whose returned value is dropped: the state it
    leaves and an exception it raises are kept, a returned value becomes
    [None]. *)
Definition value_dropped {A S : Type} (r : Outcome A * S) : Outcome Value * S :=
  match r with
  | (Return _, s) => (Return VNone, s)
  | (Raise e, s) => (Raise e, s)
  end.

(** ** Measures and example inputs

    What the statements below count or check, and the concrete inputs at
    which they are instantiated. *)

(** Two GUIDs that differ in every one of their last 12 bytes. *)
Definition guid_low_tail : list byte :=
  [x12; x34; x56; x78; x00; x00; x00; x00; x00; x00; x00; x00; x00; x00; x00; x00]%byte.
Definition guid_high_tail : list byte :=
  [x12; x34; x56; x78; xff; xff; xff; xff; xff; xff; xff; xff; xff; xff; xff; xff]%byte.

(** The spec's example limits, [0.2] being the binary64 number that
    Python reads from that literal. *)
Definition float_0_2 : float := 0x1.999999999999ap-3%float.

(** Classes of binary64 numbers, read off their specification
    ([Prim2SF]): the zeros, NaN, the finite numbers, and the finite numbers
    below 2 in absolute value (exponent at most -52). *)
Definition sf_is_zero (x : spec_float) : bool :=
  match x with S754_zero _ => true | _ => false end.

Definition sf_is_nan (x : spec_float) : bool :=
  match x with S754_nan => true | _ => false end.

Definition sf_is_finite (x : spec_float) : bool :=
  match x with S754_zero _ | S754_finite _ _ _ => true | _ => false end.

Definition sf_small (x : spec_float) : bool :=
  match x with
  | S754_zero _ => true
  | S754_finite _ _ e => (e <=? -52)%Z
  | _ => false
  end.

(** What is checked of one raw value, in binary64: the division succeeds,
    its result is exactly [raw / 32768], at least [-1.0] and below [1.0]. *)
Definition axis_value_ok (raw : Z) : bool :=
  match truediv (N := float) (of_int raw) (of_int 32768) with
  | Return r =>
      match float_to_Q r with
      | Some q => Qeq_bool q (raw # 32768)
      | None => false
      end
      && PrimFloat.leb (-1)%float r
      && PrimFloat.ltb r 1%float
      && negb (PrimFloat.leb 1%float r)
  | Raise _ => false
  end.

(** [f] holds on the [2 ^ k] integers from [base] on. *)
Fixpoint all_in_block (f : Z -> bool) (k : nat) (base : Z) : bool :=
  match k with
  | O => f base
  | S k' => all_in_block f k' base && all_in_block f k' (base + 2 ^ Z.of_nat k')%Z
  end.

(** A joystick whose first axis is fully deflected to the positive side. *)
Definition sdl_full_axis : SDL :=
  {| SDL_NumJoysticks := 1;
     SDL_JoystickInstanceID := fun _ => 0%Z;
     SDL_JoystickGetAxis := fun _ _ => 32767%Z;
     SDL_JoystickGetHat := fun _ _ => 0%Z |}.

(** Two handlers of one button, and a second function that reuses the
    name of the first. *)
Definition on_fire : Callback unit :=
  {| __name__ := "on_fire"; call := fun _ _ => ret VNone |}.
Definition on_release : Callback unit :=
  {| __name__ := "on_release"; call := fun _ _ => ret (VInt 1) |}.
Definition on_fire_again : Callback unit :=
  {| __name__ := "on_fire"; call := fun _ _ => ret (VInt 2) |}.

Definition empty_registry : CallbackRegistry.State (World := unit) (Event := Z) (DeviceId := Z) :=
  {| CallbackRegistry._registry := ∅; CallbackRegistry.warnings := [] |}.

(** A callback that notes the arguments it is called with: the state is
    the list of calls seen, each with its positional arguments and with
    what it received as [vjoy] and as [event]. *)
Definition Seen : Type := list (list Value * option Value * option Value).

Definition set_throttle : Callback Seen :=
  {| __name__ := "set_throttle";
     call := fun args kwargs seen =>
       (Return (VInt 5), seen ++ [(args, kwargs !! "vjoy", kwargs !! "event")]) |}.

Definition empty_seen_registry
    : CallbackRegistry.State (World := Seen) (Event := Z) (DeviceId := Z) :=
  {| CallbackRegistry._registry := ∅; CallbackRegistry.warnings := [] |}.

(** The number of handles constructed so far for the dictionary key [k]. *)
Definition constructions_for (k : Z) (st : VJoyProxy.State) : nat :=
  length (filter (fun d => int_key (VJoyProxy.vjoy_id d) = Some k) (VJoyProxy.constructed st)).

(** Looking up the integers [ks] one after the other. *)
Definition lookups (ks : list Z) : M VJoyProxy.State unit :=
  for_each ks (fun n => (let* _ := VJoyProxy.__getitem__ (VInt n) in ret tt)%py).

(** Every cached key has had exactly one handle constructed, every other
    key none. *)
Definition once_per_key (st : VJoyProxy.State) : Prop :=
  forall k : Z,
    constructions_for k st
    = match VJoyProxy.vjoy_devices st !! k with Some _ => 1%nat | None => 0%nat end.

(** The domain error of this layer is [GremlinError], the error that
    [JoystickWrapper.__init__] raises for an index beyond the connected
    count. *)
Definition is_domain_error (e : Exception) : Prop :=
  exists msg : string, e = GremlinError msg.

(** One joystick connected, with instance id 0. *)
Definition sdl_one : SDL :=
  {| SDL_NumJoysticks := 1;
     SDL_JoystickInstanceID := fun i => i;
     SDL_JoystickGetAxis := fun _ _ => 0%Z;
     SDL_JoystickGetHat := fun _ _ => 0%Z |}.

(** Two joysticks connected, with instance ids 0 and 1. *)
Definition sdl_two : SDL :=
  {| SDL_NumJoysticks := 2;
     SDL_JoystickInstanceID := fun i => i;
     SDL_JoystickGetAxis := fun _ _ => 0%Z;
     SDL_JoystickGetHat := fun _ _ => 0%Z |}.

(** Two sticks of one model beside two virtual devices. *)
Definition connected_sticks : list devices.SDLJoystick :=
  [ devices.mkSDLJoystick guid_low_tail 0 "T.16000M" 4 16 1;
    devices.mkSDLJoystick guid_high_tail 1 "T.16000M" 4 16 1;
    devices.mkSDLJoystick guid_low_tail 2 "vJoy Device" 8 32 0;
    devices.mkSDLJoystick guid_low_tail 3 "vJoy Device" 8 32 0 ].

(** * Properties *)

(** ** Hat conversion *)

Section HatConversion.
Local Open Scope Z_scope.

Lemma land_pow2_testbit (v k : Z) :
  0 <= k -> Z.land v (2 ^ k) = if Z.testbit v k then 2 ^ k else 0.
Proof.
  intros Hk. apply Z.bits_inj'. intros n Hn.
  rewrite Z.land_spec, Z.pow2_bits_eqb by lia.
  destruct (Z.eqb_spec k n) as [->|Hne].
  - destruct (Z.testbit v n) eqn:Hv; simpl.
    + rewrite Z.pow2_bits_true; [reflexivity | lia].
    + now rewrite Z.bits_0.
  - rewrite andb_false_r.
    destruct (Z.testbit v k).
    + rewrite Z.pow2_bits_false; [reflexivity | lia].
    + now rewrite Z.bits_0.
Qed.

Lemma truthy_mask (v k : Z) :
  0 <= k -> util.truthy (Z.land v (2 ^ k)) = Z.testbit v k.
Proof.
  intros Hk. unfold util.truthy. rewrite land_pow2_testbit by exact Hk.
  destruct (Z.testbit v k).
  - destruct (Z.eqb_spec (2 ^ k) 0) as [E|_]; [|reflexivity].
    pose proof (Z.pow_pos_nonneg 2 k). lia.
  - reflexivity.
Qed.

(** C8.  For every hat bit mask, [convert_sdl_hat] returns the pair
    [(dx, dy)] of the hat rule: [dy] is +1 if the up bit is set, else -1 if
    the down bit is set, else 0, and [dx] is +1 if the right bit is set,
    else -1 if the left bit is set, else 0; both lie in {-1, 0, 1}.  Hence
    up gives (0,1), down (0,-1), left (-1,0), right (1,0), up+right (1,1),
    down+left (-1,-1) and no bit (0,0). *)
Theorem convert_sdl_hat_rule :
  (forall value : Z,
     util.convert_sdl_hat value = [hat_rule_dx value; hat_rule_dy value]
     /\ (hat_rule_dx value = -1 \/ hat_rule_dx value = 0 \/ hat_rule_dx value = 1)
     /\ (hat_rule_dy value = -1 \/ hat_rule_dy value = 0 \/ hat_rule_dy value = 1))
  /\ util.convert_sdl_hat sdl2.SDL_HAT_UP = [0; 1]
  /\ util.convert_sdl_hat sdl2.SDL_HAT_DOWN = [0; -1]
  /\ util.convert_sdl_hat sdl2.SDL_HAT_LEFT = [-1; 0]
  /\ util.convert_sdl_hat sdl2.SDL_HAT_RIGHT = [1; 0]
  /\ util.convert_sdl_hat (Z.lor sdl2.SDL_HAT_UP sdl2.SDL_HAT_RIGHT) = [1; 1]
  /\ util.convert_sdl_hat (Z.lor sdl2.SDL_HAT_DOWN sdl2.SDL_HAT_LEFT) = [-1; -1]
  /\ util.convert_sdl_hat sdl2.SDL_HAT_CENTERED = [0; 0].
Proof.
  split; [|repeat split; reflexivity].
  intros value. split; [|split].
  - unfold util.convert_sdl_hat, hat_rule_dx, hat_rule_dy.
    change sdl2.SDL_HAT_UP with (2 ^ 0).
    change sdl2.SDL_HAT_RIGHT with (2 ^ 1).
    change sdl2.SDL_HAT_DOWN with (2 ^ 2).
    change sdl2.SDL_HAT_LEFT with (2 ^ 3).
    rewrite !truthy_mask by lia.
    destruct (Z.testbit value 0), (Z.testbit value 1),
      (Z.testbit value 2), (Z.testbit value 3); reflexivity.
  - unfold hat_rule_dx.
    destruct (Z.testbit value 1), (Z.testbit value 3); auto.
  - unfold hat_rule_dy.
    destruct (Z.testbit value 0), (Z.testbit value 2); auto.
Qed.

End HatConversion.

(** ** GUID reduction *)

Section GuidReduction.
Local Open Scope Z_scope.

Lemma unpack_uint_be_4 (b0 b1 b2 b3 : byte) :
  util.unpack_uint_be [b0; b1; b2; b3] = be_word b0 b1 b2 b3.
Proof.
  unfold util.unpack_uint_be, be_word. cbn [fold_left].
  change (2 ^ 24) with 16777216. change (2 ^ 16) with 65536. change (2 ^ 8) with 256.
  lia.
Qed.

Lemma byte_range (b : byte) : 0 <= Z.of_N (Byte.to_N b) < 256.
Proof.
  pose proof (Byte.to_N_bounded b) as Hb. lia.
Qed.

Lemma be_word_range (b0 b1 b2 b3 : byte) : 0 <= be_word b0 b1 b2 b3 < 2 ^ 32.
Proof.
  unfold be_word.
  pose proof (byte_range b0). pose proof (byte_range b1).
  pose proof (byte_range b2). pose proof (byte_range b3).
  change (2 ^ 24) with 16777216. change (2 ^ 16) with 65536. change (2 ^ 8) with 256.
  change (2 ^ 32) with 4294967296.
  lia.
Qed.

Lemma guid_to_number_cons4 (b0 b1 b2 b3 : byte) (rest : list byte) :
  length rest = 12%nat ->
  util.guid_to_number (b0 :: b1 :: b2 :: b3 :: rest) = Return (be_word b0 b1 b2 b3).
Proof.
  intros Hlen. unfold util.guid_to_number, util.struct_unpack_4I.
  replace (length (b0 :: b1 :: b2 :: b3 :: rest)) with 16%nat by (simpl; lia).
  simpl. unfold util.tuple_item. simpl.
  now rewrite unpack_uint_be_4.
Qed.

Lemma guid_split (guid : list byte) :
  length guid = 16%nat ->
  exists b0 b1 b2 b3 rest,
    guid = b0 :: b1 :: b2 :: b3 :: rest /\ length rest = 12%nat.
Proof.
  intros Hlen.
  destruct guid as [|b0 [|b1 [|b2 [|b3 rest]]]]; simpl in Hlen; try lia.
  exists b0, b1, b2, b3, rest. split; [reflexivity | lia].
Qed.

(** C9.  On a GUID of exactly 16 bytes, [guid_to_number] returns the
    first four bytes read as one unsigned 32 bit big-endian word; on any
    other length it fails; so two 16 byte GUIDs with the same first four
    bytes reduce to the same hardware id, whatever their last 12 bytes. *)
Theorem guid_to_number_leading_word (guid : list byte) :
  (length guid = 16%nat ->
     exists b0 b1 b2 b3 rest,
       guid = b0 :: b1 :: b2 :: b3 :: rest
       /\ util.guid_to_number guid = Return (be_word b0 b1 b2 b3)
       /\ 0 <= be_word b0 b1 b2 b3 < 2 ^ 32)
  /\ (length guid <> 16%nat -> exists e, util.guid_to_number guid = Raise e)
  /\ (forall guid' : list byte,
        length guid = 16%nat -> length guid' = 16%nat ->
        take 4 guid = take 4 guid' ->
        util.guid_to_number guid = util.guid_to_number guid').
Proof.
  split; [|split].
  - intros Hlen.
    destruct (guid_split guid Hlen) as (b0 & b1 & b2 & b3 & rest & -> & Hrest).
    exists b0, b1, b2, b3, rest.
    split; [reflexivity|]. split.
    + now apply guid_to_number_cons4.
    + apply be_word_range.
  - intros Hlen. unfold util.guid_to_number, util.struct_unpack_4I.
    destruct (Nat.eqb_spec (length guid) 16) as [E|_]; [contradiction|].
    simpl. eauto.
  - intros guid' Hlen Hlen' Htake.
    destruct (guid_split guid Hlen) as (b0 & b1 & b2 & b3 & rest & -> & Hrest).
    destruct (guid_split guid' Hlen') as (c0 & c1 & c2 & c3 & rest' & -> & Hrest').
    simpl in Htake. injection Htake as -> -> -> ->.
    now rewrite !guid_to_number_cons4.
Qed.

(** The theorem at two GUIDs with the leading bytes 12 34 56 78 and at a
    three byte buffer. *)
Lemma guid_to_number_leading_word_witness :
  util.guid_to_number guid_low_tail = Return 305419896
  /\ util.guid_to_number guid_low_tail = util.guid_to_number guid_high_tail
  /\ exists e, util.guid_to_number [x12; x34; x56]%byte = Raise e.
Proof.
  split; [|split].
  - destruct (proj1 (guid_to_number_leading_word guid_low_tail) eq_refl)
      as (b0 & b1 & b2 & b3 & rest & Hg & Hn & _).
    injection Hg as <- <- <- <- _. exact Hn.
  - apply (proj2 (proj2 (guid_to_number_leading_word guid_low_tail)) guid_high_tail);
      reflexivity.
  - apply (proj1 (proj2 (guid_to_number_leading_word [x12; x34; x56]%byte))).
    simpl. lia.
Defined.

End GuidReduction.

(** ** Deadzone mapping *)

(** *** Binary64 subtraction, division and comparison

    What [deadzone] needs of binary64 arithmetic, from the specification of
    the primitive operations: a difference of two numbers that compare
    different is not zero, a difference of two numbers below 2 in absolute
    value is finite, and a quotient of a number by a finite non-zero number
    is a number. *)

Section Binary64.
Local Open Scope Z_scope.

Lemma digits2_pos_bounds (p : positive) :
  2 ^ (Zpos (digits2_pos p) - 1) <= Zpos p < 2 ^ Zpos (digits2_pos p).
Proof.
  induction p as [p IH|p IH|]; cbn [digits2_pos].
  - rewrite Pos2Z.inj_succ.
    replace (Z.succ (Zpos (digits2_pos p)) - 1) with (Z.succ (Zpos (digits2_pos p) - 1)) by lia.
    rewrite !Z.pow_succ_r by lia. lia.
  - rewrite Pos2Z.inj_succ.
    replace (Z.succ (Zpos (digits2_pos p)) - 1) with (Z.succ (Zpos (digits2_pos p) - 1)) by lia.
    rewrite !Z.pow_succ_r by lia. lia.
  - cbn. lia.
Qed.

Lemma digits2_pos_le (p : positive) (k : Z) :
  Zpos p < 2 ^ k -> 0 <= k -> Zpos (digits2_pos p) <= k.
Proof.
  intros Hp Hk. destruct (digits2_pos_bounds p) as [Hlo _].
  destruct (Z_le_gt_dec (Zpos (digits2_pos p)) k) as [|Hgt]; [assumption|].
  assert (2 ^ k <= 2 ^ (Zpos (digits2_pos p) - 1)) by (apply Z.pow_le_mono_r; lia).
  lia.
Qed.

Lemma digits2_pos_ge (p : positive) (k : Z) :
  2 ^ k <= Zpos p -> k < Zpos (digits2_pos p).
Proof.
  intros Hp. destruct (digits2_pos_bounds p) as [_ Hhi].
  destruct (Z_lt_le_dec k (Zpos (digits2_pos p))) as [|Hle]; [assumption|].
  assert (2 ^ Zpos (digits2_pos p) <= 2 ^ k) by (apply Z.pow_le_mono_r; lia).
  lia.
Qed.

Lemma iter_xO_value (m d : positive) :
  Zpos (Pos.iter xO m d) = Zpos m * 2 ^ Zpos d.
Proof.
  induction d as [|d IH] using Pos.peano_ind.
  - cbn. lia.
  - rewrite Pos.iter_succ, Pos2Z.inj_succ, Z.pow_succ_r by lia.
    rewrite Pos2Z.inj_xO, IH. lia.
Qed.

Lemma digits2_pos_iter_xO (m d : positive) :
  Zpos (digits2_pos (Pos.iter xO m d)) = Zpos (digits2_pos m) + Zpos d.
Proof.
  induction d as [|d IH] using Pos.peano_ind.
  - cbn. lia.
  - rewrite Pos.iter_succ. cbn [digits2_pos]. rewrite Pos2Z.inj_succ, IH. lia.
Qed.

Lemma shr_1_m (mrs : shr_record) :
  0 <= shr_m mrs -> shr_m (shr_1 mrs) = shr_m mrs / 2.
Proof.
  destruct mrs as [m r s]. cbn [shr_m]. intros Hm.
  destruct m as [|p|p]; [reflexivity| |lia].
  destruct p as [p|p|]; cbn [shr_1 shr_m].
  - rewrite Pos2Z.inj_xI. apply Z.div_unique with (r := 1); lia.
  - rewrite Pos2Z.inj_xO. apply Z.div_unique with (r := 0); lia.
  - reflexivity.
Qed.

Lemma shr_m_iter_pos (p : positive) (mrs : shr_record) :
  0 <= shr_m mrs ->
  shr_m (SpecFloat.iter_pos shr_1 p mrs) = shr_m mrs / 2 ^ Zpos p.
Proof.
  revert mrs. induction p as [p IH|p IH|]; intros mrs Hm; cbn [SpecFloat.iter_pos].
  - assert (H1 : 0 <= shr_m (shr_1 mrs))
      by (rewrite shr_1_m by assumption; apply Z.div_pos; lia).
    assert (H2 : 0 <= shr_m (SpecFloat.iter_pos shr_1 p (shr_1 mrs)))
      by (rewrite IH by assumption; apply Z.div_pos; [assumption|apply Z.pow_pos_nonneg; lia]).
    rewrite IH, IH, shr_1_m by assumption.
    rewrite !Z.div_div by (try apply Z.pow_pos_nonneg; lia).
    f_equal. replace (Zpos p~1) with (1 + Zpos p + Zpos p) by lia.
    rewrite !Z.pow_add_r by lia. lia.
  - assert (H2 : 0 <= shr_m (SpecFloat.iter_pos shr_1 p mrs))
      by (rewrite IH by assumption; apply Z.div_pos; [assumption|apply Z.pow_pos_nonneg; lia]).
    rewrite IH, IH by assumption.
    rewrite !Z.div_div by (try apply Z.pow_pos_nonneg; lia).
    f_equal. replace (Zpos p~0) with (Zpos p + Zpos p) by lia.
    rewrite !Z.pow_add_r by lia. lia.
  - rewrite shr_1_m by assumption. reflexivity.
Qed.

Lemma fexp_eq (x : Z) : fexp prec emax x = Z.max (x - 53) (-1074).
Proof. reflexivity. Qed.

Lemma shr_record_of_loc_m (m : Z) (l : location) :
  shr_m (shr_record_of_loc m l) = m.
Proof. destruct l as [|[]]; reflexivity. Qed.

Lemma shr_nonneg (mrs mrs' : shr_record) (e n e' : Z) :
  0 <= shr_m mrs -> shr mrs e n = (mrs', e') -> 0 <= shr_m mrs'.
Proof.
  intros Hm. unfold shr. destruct n as [|p|p]; intros [= <- _]; try assumption.
  rewrite shr_m_iter_pos by assumption.
  apply Z.div_pos; [assumption|apply Z.pow_pos_nonneg; lia].
Qed.

Lemma shr_fexp_nonneg (m e : Z) (l : location) (mrs' : shr_record) (e' : Z) :
  0 <= m -> shr_fexp prec emax m e l = (mrs', e') -> 0 <= shr_m mrs'.
Proof.
  intros Hm. unfold shr_fexp. apply shr_nonneg.
  rewrite shr_record_of_loc_m. assumption.
Qed.

Lemma round_nearest_even_bounds (mrs : shr_record) :
  shr_m mrs <= round_nearest_even (shr_m mrs) (loc_of_shr_record mrs) <= shr_m mrs + 1.
Proof.
  destruct mrs as [m [] []]; cbn [shr_m loc_of_shr_record round_nearest_even];
    try destruct (Z.even m); lia.
Qed.

(** Rounding a non-negative integer never produces NaN. *)
Lemma binary_round_aux_not_nan (s : bool) (m e : Z) (l : location) :
  0 <= m -> sf_is_nan (binary_round_aux prec emax s m e l) = false.
Proof.
  intros Hm. unfold binary_round_aux.
  destruct (shr_fexp prec emax m e l) as [mrs' e'] eqn:E1.
  pose proof (shr_fexp_nonneg _ _ _ _ _ Hm E1) as H1.
  pose proof (round_nearest_even_bounds mrs') as Hr.
  destruct (shr_fexp prec emax _ e' loc_Exact) as [mrs'' e''] eqn:E2.
  assert (H2 : 0 <= shr_m mrs'') by (eapply shr_fexp_nonneg; [|exact E2]; lia).
  destruct (shr_m mrs'') as [|q|q]; [reflexivity| |lia].
  destruct (e'' <=? emax - prec); reflexivity.
Qed.

(** Rounding a positive integer whose exponent is at least [emin] gives a
    non-zero number, finite or infinite, whose exponent exceeds the larger
    of the given and the canonical exponent by at most one. *)
Lemma binary_round_aux_exact (s : bool) (m : positive) (e : Z) :
  -1074 <= e ->
  exists (m'' : positive) (e'' : Z),
    binary_round_aux prec emax s (Zpos m) e loc_Exact
    = (if e'' <=? 971 then S754_finite s m'' e'' else S754_infinity s)
    /\ e'' <= Z.max e (fexp prec emax (Zpos (digits2_pos m) + e)) + 1.
Proof.
  intros He.
  assert (Hnoshift : forall (q : positive) (x : Z),
    fexp prec emax (Zpos (digits2_pos q) + x) - x <= 0 ->
    shr_fexp prec emax (Zpos q) x loc_Exact
    = ({| shr_m := Zpos q; shr_r := false; shr_s := false |}, x)).
  { intros q x Hx. unfold shr_fexp, shr. cbn [Zdigits2 shr_record_of_loc].
    destruct (fexp prec emax (Zpos (digits2_pos q) + x) - x); [reflexivity|lia|reflexivity]. }
  destruct (Z_le_gt_dec (fexp prec emax (Zpos (digits2_pos m) + e) - e) 0) as [Hn|Hn].
  - exists m, e. split; [|lia].
    unfold binary_round_aux. rewrite (Hnoshift m e Hn).
    cbn [shr_m loc_of_shr_record round_nearest_even].
    rewrite (Hnoshift m e Hn). cbn [shr_m]. reflexivity.
  - pose proof (digits2_pos_bounds m) as [Hlo Hhi].
    rewrite fexp_eq in Hn.
    assert (Hd : 53 < Zpos (digits2_pos m)) by lia.
    unfold binary_round_aux.
    unfold shr_fexp at 1. cbn [Zdigits2 shr_record_of_loc]. rewrite fexp_eq.
    replace (Z.max (Zpos (digits2_pos m) + e - 53) (-1074) - e)
      with (Zpos (digits2_pos m) - 53) by lia.
    destruct (Zpos (digits2_pos m) - 53) as [|p|p] eqn:Ep; [lia| |lia].
    unfold shr.
    set (mrs' := SpecFloat.iter_pos shr_1 p _).
    assert (Hm1 : shr_m mrs' = Zpos m / 2 ^ Zpos p)
      by (unfold mrs'; rewrite shr_m_iter_pos by (cbn; lia); reflexivity).
    assert (Hpow : 2 ^ (Zpos (digits2_pos m) - 1) = 2 ^ Zpos p * 2 ^ 52).
    { replace (Zpos (digits2_pos m) - 1) with (Zpos p + 52) by lia.
      apply Z.pow_add_r; lia. }
    assert (Hpow' : 2 ^ Zpos (digits2_pos m) = 2 ^ Zpos p * 2 ^ 53).
    { replace (Zpos (digits2_pos m)) with (Zpos p + 53) at 1 by lia.
      apply Z.pow_add_r; lia. }
    assert (Hpp : 0 < 2 ^ Zpos p) by (apply Z.pow_pos_nonneg; lia).
    assert (Hm1lo : 2 ^ 52 <= shr_m mrs').
    { rewrite Hm1. apply Z.div_le_lower_bound; lia. }
    assert (Hm1hi : shr_m mrs' < 2 ^ 53).
    { rewrite Hm1. apply Z.div_lt_upper_bound; lia. }
    pose proof (round_nearest_even_bounds mrs') as Hr.
    destruct (round_nearest_even (shr_m mrs') (loc_of_shr_record mrs')) as [|r|r] eqn:Er;
      [change (2 ^ 52) with 4503599627370496 in *; lia| |lia].
    assert (Hdr_lo : 52 < Zpos (digits2_pos r)) by (apply digits2_pos_ge; lia).
    assert (Hdr_hi : Zpos (digits2_pos r) <= 54).
    { apply digits2_pos_le; [|lia].
      change (2 ^ 53) with 9007199254740992 in *.
      change (2 ^ 54) with 18014398509481984. lia. }
    destruct (Z.eq_dec (Zpos (digits2_pos r)) 53) as [E53|E53].
    + exists r, (e + Zpos p). split; [|try rewrite fexp_eq; lia].
      rewrite Hnoshift by (rewrite fexp_eq; lia).
      cbn [shr_m]. reflexivity.
    + assert (E54 : Zpos (digits2_pos r) = 54) by lia.
      unfold shr_fexp. cbn [Zdigits2 shr_record_of_loc]. rewrite fexp_eq.
      replace (Z.max (Zpos (digits2_pos r) + (e + Zpos p) - 53) (-1074) - (e + Zpos p))
        with 1 by lia.
      cbn [shr SpecFloat.iter_pos].
      assert (Hr2 : 2 ^ 53 <= Zpos r).
      { destruct (digits2_pos_bounds r) as [Hrl _]. rewrite E54 in Hrl. exact Hrl. }
      change (2 ^ 53) with 9007199254740992 in Hr2.
      destruct r as [r'|r'|]; cbn [shr_1 shr_m]; [| |lia].
      * exists r', (e + Zpos p + 1). split; [reflexivity|try rewrite fexp_eq; lia].
      * exists r', (e + Zpos p + 1). split; [reflexivity|try rewrite fexp_eq; lia].
Qed.

Lemma binary_round_exact (s : bool) (m : positive) (e : Z) :
  -1074 <= e ->
  exists (m'' : positive) (e'' : Z),
    binary_round prec emax s m e
    = (if e'' <=? 971 then S754_finite s m'' e'' else S754_infinity s)
    /\ e'' <= Z.max e (fexp prec emax (Zpos (digits2_pos m) + e)) + 1.
Proof.
  intros He. unfold binary_round, shl_align.
  destruct (fexp prec emax (Zpos (digits2_pos m) + e) - e) as [|p|d] eqn:Ed.
  - apply binary_round_aux_exact. assumption.
  - apply binary_round_aux_exact. assumption.
  - destruct (binary_round_aux_exact s (Pos.iter xO m d)
                (fexp prec emax (Zpos (digits2_pos m) + e))) as (m'' & e'' & Hr & Hb).
    { rewrite fexp_eq. lia. }
    exists m'', e''. split; [exact Hr|].
    rewrite digits2_pos_iter_xO in Hb.
    replace (Zpos (digits2_pos m) + Zpos d + fexp prec emax (Zpos (digits2_pos m) + e))
      with (Zpos (digits2_pos m) + e) in Hb by lia.
    lia.
Qed.

Lemma valid_finite (s : bool) (m : positive) (e : Z) :
  valid_binary (S754_finite s m e) = true ->
  fexp prec emax (Zpos (digits2_pos m) + e) = e /\ e <= 971.
Proof.
  cbn [SpecFloat.valid_binary]. unfold bounded, canonical_mantissa.
  intros H. apply andb_prop in H as [H1 H2].
  apply Z.eqb_eq in H1. apply Z.leb_le in H2. split; [exact H1|exact H2].
Qed.

Lemma shl_align_value (m : positive) (e e' : Z) :
  e' <= e -> Zpos (fst (shl_align m e e')) = Zpos m * 2 ^ (e - e').
Proof.
  intros H. unfold shl_align. destruct (e' - e) as [|p|d] eqn:Ed; cbn [fst].
  - replace (e - e') with 0 by lia. lia.
  - lia.
  - rewrite iter_xO_value. replace (e - e') with (Zpos d) by lia. reflexivity.
Qed.

Lemma shl_align_digits (m : positive) (e e' : Z) :
  e' <= e ->
  Zpos (digits2_pos (fst (shl_align m e e'))) = Zpos (digits2_pos m) + (e - e').
Proof.
  intros H. unfold shl_align. destruct (e' - e) as [|p|d] eqn:Ed; cbn [fst].
  - lia.
  - lia.
  - rewrite digits2_pos_iter_xO. lia.
Qed.

Lemma SFcompare_refl_finite (s : bool) (m : positive) (e : Z) :
  SFcompare (S754_finite s m e) (S754_finite s m e) = Some Eq.
Proof.
  cbn [SFcompare]. rewrite Z.compare_refl.
  change (Pos.compare_cont Eq m m) with (Pos.compare m m).
  rewrite Pos.compare_refl. destruct s; reflexivity.
Qed.

(** The aligned, signed mantissas of two valid finite numbers are equal
    only if the numbers are. *)
Lemma aligned_difference_zero (sx sy : bool) (mx my : positive) (ex ey : Z) :
  valid_binary (S754_finite sx mx ex) = true ->
  valid_binary (S754_finite sy my ey) = true ->
  cond_Zopp sx (Zpos (fst (shl_align mx ex (Z.min ex ey))))
  - cond_Zopp sy (Zpos (fst (shl_align my ey (Z.min ex ey)))) = 0 ->
  S754_finite sx mx ex = S754_finite sy my ey.
Proof.
  intros Vx Vy HM.
  apply valid_finite in Vx as [Cx _]. apply valid_finite in Vy as [Cy _].
  pose proof (shl_align_digits mx ex (Z.min ex ey) ltac:(lia)) as Dx.
  pose proof (shl_align_digits my ey (Z.min ex ey) ltac:(lia)) as Dy.
  pose proof (shl_align_value mx ex (Z.min ex ey) ltac:(lia)) as Ax.
  pose proof (shl_align_value my ey (Z.min ex ey) ltac:(lia)) as Ay.
  assert (Hs : sx = sy /\ fst (shl_align mx ex (Z.min ex ey)) = fst (shl_align my ey (Z.min ex ey))).
  { destruct sx, sy; cbn [cond_Zopp] in HM; split; try reflexivity; try lia;
      apply Pos2Z.inj; lia. }
  destruct Hs as [-> Hm]. rewrite Hm in Dx, Ax.
  assert (He : ex = ey).
  { rewrite <- Cx, <- Cy. f_equal. lia. }
  subst ey. rewrite Z.min_id, Z.sub_diag in Ax, Ay. cbn in Ax, Ay.
  f_equal. apply Pos2Z.inj. lia.
Qed.

(** Subtracting two valid finite numbers gives the zero [+0] when they are
    equal, and otherwise a non-zero number, finite or infinite; the result
    is finite when both are below 2 in absolute value. *)
Lemma SFsub_finite (sx sy : bool) (mx my : positive) (ex ey : Z) :
  valid_binary (S754_finite sx mx ex) = true ->
  valid_binary (S754_finite sy my ey) = true ->
  (SF64sub (S754_finite sx mx ex) (S754_finite sy my ey) = S754_zero false
   /\ S754_finite sx mx ex = S754_finite sy my ey)
  \/ exists (s : bool) (m : positive) (e : Z),
       SF64sub (S754_finite sx mx ex) (S754_finite sy my ey)
       = (if e <=? 971 then S754_finite s m e else S754_infinity s)
       /\ (ex <= -52 -> ey <= -52 -> e <= 971).
Proof.
  intros Vx Vy.
  pose proof (aligned_difference_zero sx sy mx my ex ey Vx Vy) as HM.
  pose proof (valid_finite _ _ _ Vx) as [Cx _].
  pose proof (valid_finite _ _ _ Vy) as [Cy _].
  pose proof (shl_align_digits mx ex (Z.min ex ey) ltac:(lia)) as Dx.
  pose proof (shl_align_digits my ey (Z.min ex ey) ltac:(lia)) as Dy.
  pose proof (digits2_pos_bounds (fst (shl_align mx ex (Z.min ex ey)))) as [_ Bx].
  pose proof (digits2_pos_bounds (fst (shl_align my ey (Z.min ex ey)))) as [_ By].
  rewrite fexp_eq in Cx, Cy.
  unfold SF64sub. cbn [SFsub]. cbv zeta.
  set (ax := fst (shl_align mx ex (Z.min ex ey))) in *.
  set (ay := fst (shl_align my ey (Z.min ex ey))) in *.
  set (M := cond_Zopp sx (Zpos ax) - cond_Zopp sy (Zpos ay)) in *.
  assert (HMabs : Z.abs M <= Zpos ax + Zpos ay)
    by (unfold M; destruct sx, sy; cbn [cond_Zopp]; lia).
  assert (Hsmall : forall q : positive, Zpos q = Z.abs M ->
            ex <= -52 -> ey <= -52 ->
            Z.max (Z.min ex ey) (fexp prec emax (Zpos (digits2_pos q) + Z.min ex ey)) + 1 <= 971).
  { intros q Hq Hx Hy. rewrite fexp_eq.
    assert (Hd : Zpos (digits2_pos q) <= 2 - Z.min ex ey).
    { apply digits2_pos_le; [|lia].
      assert (Hpx : 2 ^ Zpos (digits2_pos ax) <= 2 ^ (1 - Z.min ex ey))
        by (apply Z.pow_le_mono_r; lia).
      assert (Hpy : 2 ^ Zpos (digits2_pos ay) <= 2 ^ (1 - Z.min ex ey))
        by (apply Z.pow_le_mono_r; lia).
      replace (2 - Z.min ex ey) with (Z.succ (1 - Z.min ex ey)) by lia.
      rewrite Z.pow_succ_r by lia. lia. }
    lia. }
  destruct M as [|q|q] eqn:EM.
  - left. split; [reflexivity|]. apply HM. reflexivity.
  - right. cbn [binary_normalize].
    destruct (binary_round_exact false q (Z.min ex ey) ltac:(lia)) as (m'' & e'' & Hr & Hb).
    exists false, m'', e''. split; [exact Hr|].
    intros Hx Hy. specialize (Hsmall q ltac:(reflexivity) Hx Hy). lia.
  - right. cbn [binary_normalize].
    destruct (binary_round_exact true q (Z.min ex ey) ltac:(lia)) as (m'' & e'' & Hr & Hb).
    exists true, m'', e''. split; [exact Hr|].
    intros Hx Hy. specialize (Hsmall q ltac:(reflexivity) Hx Hy). lia.
Qed.

Lemma SFeqb_refl_finite (s : bool) (m : positive) (e : Z) :
  SFeqb (S754_finite s m e) (S754_finite s m e) = true.
Proof. unfold SFeqb. rewrite SFcompare_refl_finite. reflexivity. Qed.

(** [x - y] is a non-zero number whenever [x == y] is false. *)
Lemma SFsub_nonzero (x y : spec_float) :
  valid_binary x = true -> valid_binary y = true ->
  SFeqb x y = false -> sf_is_zero (SF64sub x y) = false.
Proof.
  intros Vx Vy Hne.
  destruct x as [sx|sx| |sx mx ex], y as [sy|sy| |sy my ey];
    try reflexivity; try discriminate Hne;
    try (destruct sx, sy; reflexivity).
  destruct (SFsub_finite sx sy mx my ex ey Vx Vy) as [[_ E]|(s & m & e & -> & _)].
  - rewrite E, SFeqb_refl_finite in Hne. discriminate.
  - destruct (e <=? 971); reflexivity.
Qed.

(** [x - y] is not NaN when [x] is a number and [y] is finite. *)
Lemma SFsub_not_nan (x y : spec_float) :
  valid_binary x = true -> valid_binary y = true ->
  sf_is_nan x = false -> sf_is_finite y = true ->
  sf_is_nan (SF64sub x y) = false.
Proof.
  intros Vx Vy Hx Hy.
  destruct x as [sx|sx| |sx mx ex], y as [sy|sy| |sy my ey];
    try reflexivity; try discriminate;
    try (destruct sx, sy; reflexivity).
  destruct (SFsub_finite sx sy mx my ex ey Vx Vy) as [[-> _]|(s & m & e & -> & _)].
  - reflexivity.
  - destruct (e <=? 971); reflexivity.
Qed.

(** The difference of two numbers below 2 in absolute value is finite. *)
Lemma SFsub_small (x y : spec_float) :
  valid_binary x = true -> valid_binary y = true ->
  sf_small x = true -> sf_small y = true ->
  sf_is_finite (SF64sub x y) = true.
Proof.
  intros Vx Vy Hx Hy.
  destruct x as [sx|sx| |sx mx ex], y as [sy|sy| |sy my ey];
    try reflexivity; try discriminate;
    try (destruct sx, sy; reflexivity).
  cbn [sf_small] in Hx, Hy. apply Z.leb_le in Hx, Hy.
  destruct (SFsub_finite sx sy mx my ex ey Vx Vy) as [[-> _]|(s & m & e & -> & He)].
  - reflexivity.
  - specialize (He Hx Hy). apply Z.leb_le in He. rewrite He. reflexivity.
Qed.

Lemma SFabs_is_zero (x : spec_float) : sf_is_zero (SFabs x) = sf_is_zero x.
Proof. destruct x; reflexivity. Qed.

Lemma SFabs_is_finite (x : spec_float) : sf_is_finite (SFabs x) = sf_is_finite x.
Proof. destruct x; reflexivity. Qed.

(** A quotient is not NaN when the dividend is a number and the divisor
    is finite and not zero. *)
Lemma SFdiv_not_nan (x y : spec_float) :
  sf_is_nan x = false -> sf_is_finite y = true -> sf_is_zero y = false ->
  sf_is_nan (SF64div x y) = false.
Proof.
  intros Hx Hy Hz.
  destruct x as [sx|sx| |sx mx ex], y as [sy|sy| |sy my ey];
    try reflexivity; try discriminate.
  unfold SF64div. cbn [SFdiv]. unfold SFdiv_core_binary. cbv zeta.
  set (e' := Z.min _ _). set (m' := match ex - ey - e' with Z0 => _ | Zpos _ => _ | Zneg _ => _ end).
  assert (Hm' : 0 <= m').
  { unfold m'. destruct (ex - ey - e'); [lia| |lia].
    apply Z.shiftl_nonneg. lia. }
  pose proof (Z_div_mod m' (Zpos my) ltac:(lia)) as Hdiv.
  destruct (Z.div_eucl m' (Zpos my)) as [q r].
  apply binary_round_aux_not_nan. nia.
Qed.

(** *** Comparisons *)

Lemma SFcompare_antisym (x y : spec_float) :
  SFcompare y x = match SFcompare x y with
                  | Some c => Some (CompOpp c)
                  | None => None
                  end.
Proof.
  destruct x as [sx|sx| |sx mx ex], y as [sy|sy| |sy my ey];
    try reflexivity; try (destruct sx; reflexivity); try (destruct sy; reflexivity);
    try (destruct sx, sy; reflexivity).
  cbn [SFcompare]. rewrite (Z.compare_antisym ex ey).
  rewrite (ZC4 my mx).
  destruct sx, sy; try reflexivity;
    destruct (ex ?= ey); cbn [CompOpp]; try reflexivity;
    rewrite ?CompOpp_involutive; reflexivity.
Qed.

Lemma SFcompare_total (x y : spec_float) :
  sf_is_nan x = false -> sf_is_nan y = false -> exists c, SFcompare x y = Some c.
Proof.
  intros Hx Hy.
  destruct x as [sx|sx| |sx mx ex], y as [sy|sy| |sy my ey];
    try discriminate; cbn [SFcompare]; eexists; reflexivity.
Qed.

Lemma SFleb_negb_SFltb (x y : spec_float) :
  sf_is_nan x = false -> sf_is_nan y = false -> SFleb x y = negb (SFltb y x).
Proof.
  intros Hx Hy. unfold SFleb, SFltb. rewrite (SFcompare_antisym x y).
  destruct (SFcompare_total x y Hx Hy) as [c ->]. destruct c; reflexivity.
Qed.

Lemma SFltb_SFleb (x y : spec_float) : SFltb x y = true -> SFleb x y = true.
Proof. unfold SFltb, SFleb. destruct (SFcompare x y) as [[]|]; easy. Qed.

Lemma SFltb_SFeqb (x y : spec_float) :
  SFltb x y = true -> SFeqb x y = false /\ SFeqb y x = false.
Proof.
  unfold SFltb, SFeqb. rewrite (SFcompare_antisym x y).
  destruct (SFcompare x y) as [[]|]; easy.
Qed.

Lemma SFltb_numbers (x y : spec_float) :
  SFltb x y = true -> sf_is_nan x = false /\ sf_is_nan y = false.
Proof. unfold SFltb. destruct x, y; cbn; try easy. Qed.

Lemma SFleb_numbers (x y : spec_float) :
  SFleb x y = true -> sf_is_nan x = false /\ sf_is_nan y = false.
Proof. unfold SFleb. destruct x, y; cbn; try easy. Qed.

(** Two numbers in increasing order between numbers below 2 in absolute
    value are themselves below 2 in absolute value. *)
Lemma sf_small_between (lo a b hi : spec_float) :
  sf_small lo = true -> sf_small hi = true ->
  SFleb lo a = true -> SFltb a b = true -> SFleb b hi = true ->
  sf_small a = true /\ sf_small b = true.
Proof.
  unfold SFleb, SFltb. intros Hlo Hhi Hla Hab Hbh.
  destruct lo as [sl|sl| |sl ml el]; try discriminate Hlo;
  destruct hi as [sh|sh| |sh mh eh]; try discriminate Hhi;
  destruct a as [sa|sa| |sa ma ea]; try discriminate Hla;
  destruct b as [sb|sb| |sb mb eb]; try discriminate Hab; try discriminate Hbh;
  cbn [sf_small SFcompare] in *;
  repeat match goal with
         | s : bool |- _ => destruct s
         end; try discriminate; try (split; reflexivity);
  repeat match goal with
         | H : context [(?x ?= ?y)%Z] |- _ =>
             let E := fresh "E" in
             destruct (Z.compare_spec x y) as [E|E|E]; try discriminate H
         end;
  split; try reflexivity; rewrite ?Z.leb_le in *; lia.
Qed.

(** *** Primitive floats *)

Local Open Scope float_scope.

Lemma SFeqb_abs_zero (x : spec_float) :
  SFeqb (SFabs x) (S754_zero false) = sf_is_zero x.
Proof. destruct x as [s|s| |s m e]; try reflexivity; destruct s; reflexivity. Qed.

(** Where [a < b], neither [|b - a|] nor [|a - b|] is zero. *)
Lemma float_gap_nonzero (a b : float) :
  (a <? b) = true ->
  (abs (b - a) =? 0) = false /\ (abs (a - b) =? 0) = false.
Proof.
  rewrite FloatAxioms.ltb_spec. intros Hlt. apply SFltb_SFeqb in Hlt as [Hab Hba].
  rewrite !FloatAxioms.eqb_spec, !FloatAxioms.abs_spec, !FloatAxioms.sub_spec.
  change (Prim2SF 0) with (S754_zero false). rewrite !SFeqb_abs_zero.
  split; apply SFsub_nonzero; auto using Prim2SF_valid.
Qed.

Lemma float_leb_negb_ltb (x y : float) :
  sf_is_nan (Prim2SF x) = false -> sf_is_nan (Prim2SF y) = false ->
  (x <=? y) = negb (y <? x).
Proof. rewrite FloatAxioms.leb_spec, FloatAxioms.ltb_spec. apply SFleb_negb_SFltb. Qed.

Lemma float_ltb_leb (x y : float) : (x <? y) = true -> (x <=? y) = true.
Proof. rewrite FloatAxioms.leb_spec, FloatAxioms.ltb_spec. apply SFltb_SFleb. Qed.

(** The quotient [(v - c) / |b - a|] is a number whenever [v] is one,
    [a], [b] and [c] are below 2 in absolute value, and [|b - a|] is not
    zero. *)
Lemma float_quotient_number (v a b c : float) :
  sf_is_nan (Prim2SF v) = false ->
  sf_small (Prim2SF a) = true -> sf_small (Prim2SF b) = true ->
  sf_small (Prim2SF c) = true ->
  (abs (b - a) =? 0) = false ->
  sf_is_nan (Prim2SF ((v - c) / abs (b - a))) = false.
Proof.
  intros Hv Ha Hb Hc Hnz.
  rewrite FloatAxioms.eqb_spec, FloatAxioms.abs_spec, FloatAxioms.sub_spec in Hnz.
  change (Prim2SF 0) with (S754_zero false) in Hnz. rewrite SFeqb_abs_zero in Hnz.
  rewrite FloatAxioms.div_spec, FloatAxioms.abs_spec, !FloatAxioms.sub_spec.
  apply SFdiv_not_nan.
  - apply SFsub_not_nan; auto using Prim2SF_valid.
    destruct (Prim2SF c); try discriminate Hc; reflexivity.
  - rewrite SFabs_is_finite. apply SFsub_small; auto using Prim2SF_valid.
  - rewrite SFabs_is_zero. exact Hnz.
Qed.

Lemma float_number_of_leb (x y : float) :
  (x <=? y) = true ->
  sf_is_nan (Prim2SF x) = false /\ sf_is_nan (Prim2SF y) = false.
Proof. rewrite FloatAxioms.leb_spec. apply SFleb_numbers. Qed.

Lemma float_number_of_ltb (x y : float) :
  (x <? y) = true ->
  sf_is_nan (Prim2SF x) = false /\ sf_is_nan (Prim2SF y) = false.
Proof. rewrite FloatAxioms.ltb_spec. apply SFltb_numbers. Qed.

(** Limits that satisfy the relationship of the docstring are below 2 in
    absolute value. *)
Lemma float_limits_small (low low_center high_center high : float) :
  (-1 <=? low) = true -> (low <? low_center) = true -> (low_center <=? 0) = true ->
  (0 <=? high_center) = true -> (high_center <? high) = true -> (high <=? 1) = true ->
  (sf_small (Prim2SF low) = true /\ sf_small (Prim2SF low_center) = true)
  /\ (sf_small (Prim2SF high_center) = true /\ sf_small (Prim2SF high) = true).
Proof.
  rewrite !FloatAxioms.leb_spec, !FloatAxioms.ltb_spec. intros H1 H2 H3 H4 H5 H6. split.
  - apply (sf_small_between (Prim2SF (-1)) _ _ (Prim2SF 0)); auto.
  - apply (sf_small_between (Prim2SF 0) _ _ (Prim2SF 1)); auto.
Qed.

(** [min(1, max(0, x))] is [x] restricted to [0, 1]. *)
Lemma min_max_unit_float (x : float) :
  sf_is_nan (Prim2SF x) = false ->
  py_min (of_int 1) (py_max (of_int 0) x) = clamped_float 0 1 x.
Proof.
  intros Hx. unfold py_min, py_max, clamped_float. cbn [num_lt of_int float_number].
  change (float_of_Z 0) with 0. change (float_of_Z 1) with 1.
  rewrite (float_leb_negb_ltb x 0 Hx eq_refl), (float_leb_negb_ltb 1 x eq_refl Hx).
  destruct (0 <? x); cbn [negb]; [|reflexivity].
  destruct (x <? 1); reflexivity.
Qed.

(** [max(-1, min(0, x))] is [x] restricted to [-1, 0]. *)
Lemma max_min_unit_float (x : float) :
  sf_is_nan (Prim2SF x) = false ->
  py_max (of_int (-1)) (py_min (of_int 0) x) = clamped_float (-1) 0 x.
Proof.
  intros Hx. unfold py_min, py_max, clamped_float. cbn [num_lt of_int float_number].
  change (float_of_Z 0) with 0. change (float_of_Z (-1)) with (-1).
  rewrite (float_leb_negb_ltb x (-1) Hx eq_refl), (float_leb_negb_ltb 0 x eq_refl Hx).
  destruct (x <? 0) eqn:E0; cbn [negb].
  - destruct (-1 <? x); reflexivity.
  - change (-1 <? 0) with true. cbv iota.
    destruct (-1 <? x) eqn:E1; [reflexivity|]. exfalso.
    rewrite FloatAxioms.ltb_spec in E0, E1. revert E0 E1.
    change (Prim2SF 0) with (S754_zero false).
    change (Prim2SF (-1)) with (S754_finite true 4503599627370496 (-52)).
    unfold SFltb. destruct (Prim2SF x) as [s|s| |s m e]; try discriminate Hx;
      cbn [SFcompare]; destruct s; discriminate.
Qed.

Lemma clamped_float_range (lo hi x : float) :
  sf_is_nan (Prim2SF x) = false ->
  (lo <=? lo) = true -> (hi <=? hi) = true -> (lo <=? hi) = true ->
  (lo <=? clamped_float lo hi x) = true /\ (clamped_float lo hi x <=? hi) = true.
Proof.
  intros Hx Hll Hhh Hlh. unfold clamped_float.
  destruct (float_number_of_leb _ _ Hlh) as [Hlo Hhi].
  destruct (x <=? lo) eqn:E0; [split; assumption|].
  destruct (hi <=? x) eqn:E1; [split; assumption|].
  rewrite (float_leb_negb_ltb x lo Hx Hlo) in E0.
  rewrite (float_leb_negb_ltb hi x Hhi Hx) in E1.
  apply negb_false_iff in E0, E1.
  split; apply float_ltb_leb; assumption.
Qed.

(** The binary64 reading of [deadzone], positive side. *)
Lemma deadzone_float_upper (value low low_center high_center high : float) :
  (-1 <=? low) = true -> (low <? low_center) = true -> (low_center <=? 0) = true ->
  (0 <=? high_center) = true -> (high_center <? high) = true -> (high <=? 1) = true ->
  (0 <=? value) = true ->
  input_devices.deadzone value low low_center high_center high
  = Return (clamped_float 0 1 ((value - high_center) / abs (high - high_center)))
  /\ (0 <=? clamped_float 0 1 ((value - high_center) / abs (high - high_center))) = true
  /\ (clamped_float 0 1 ((value - high_center) / abs (high - high_center)) <=? 1) = true.
Proof.
  intros H1 H2 H3 H4 H5 H6 Hv.
  destruct (float_limits_small _ _ _ _ H1 H2 H3 H4 H5 H6) as [_ [Shc Sh]].
  destruct (float_gap_nonzero _ _ H5) as [Hnz _].
  destruct (float_number_of_leb _ _ Hv) as [_ Nv].
  pose proof (float_quotient_number value high_center high high_center Nv Shc Sh Shc Hnz) as Nq.
  split.
  - unfold input_devices.deadzone, truediv.
    cbn [num_ge num_sub num_abs num_div num_is_zero of_int float_number].
    change (float_of_Z 0) with 0. change PrimFloat.zero with 0. rewrite Hv, Hnz. cbn [and_then].
    f_equal. apply (min_max_unit_float _ Nq).
  - apply clamped_float_range; [exact Nq|reflexivity..].
Qed.

(** The binary64 reading of [deadzone], negative side. *)
Lemma deadzone_float_lower (value low low_center high_center high : float) :
  (-1 <=? low) = true -> (low <? low_center) = true -> (low_center <=? 0) = true ->
  (0 <=? high_center) = true -> (high_center <? high) = true -> (high <=? 1) = true ->
  (value <? 0) = true ->
  input_devices.deadzone value low low_center high_center high
  = Return (clamped_float (-1) 0 ((value - low_center) / abs (low - low_center)))
  /\ (-1 <=? clamped_float (-1) 0 ((value - low_center) / abs (low - low_center))) = true
  /\ (clamped_float (-1) 0 ((value - low_center) / abs (low - low_center)) <=? 0) = true.
Proof.
  intros H1 H2 H3 H4 H5 H6 Hv.
  destruct (float_limits_small _ _ _ _ H1 H2 H3 H4 H5 H6) as [[Sl Slc] _].
  destruct (float_gap_nonzero _ _ H2) as [_ Hnz].
  destruct (float_number_of_ltb _ _ Hv) as [Nv _].
  assert (Hnz' : (abs (low - low_center) =? 0) = false) by exact Hnz.
  pose proof (float_quotient_number value low_center low low_center Nv Slc Sl Slc Hnz) as Nq.
  assert (Hge : (0 <=? value) = false).
  { rewrite (float_leb_negb_ltb 0 value eq_refl Nv), Hv. reflexivity. }
  split.
  - unfold input_devices.deadzone, truediv.
    cbn [num_ge num_sub num_abs num_div num_is_zero of_int float_number].
    change (float_of_Z 0) with 0. change PrimFloat.zero with 0. rewrite Hge, Hnz. cbn [and_then].
    f_equal. apply (max_min_unit_float _ Nq).
  - apply clamped_float_range; [exact Nq|reflexivity..].
Qed.

(** The binary64 reading of [deadzone] at a value that is neither
    [>= 0] nor [< 0], that is, at NaN. *)
Lemma deadzone_float_nan (value low low_center high_center high : float) :
  (low <? low_center) = true ->
  (0 <=? value) = false -> (value <? 0) = false ->
  input_devices.deadzone value low low_center high_center high = Return 0.
Proof.
  intros H2 Hge Hlt.
  destruct (float_gap_nonzero _ _ H2) as [_ Hnz].
  assert (Nv : Prim2SF value = S754_nan).
  { destruct (sf_is_nan (Prim2SF value)) eqn:E.
    - destruct (Prim2SF value); try discriminate E; reflexivity.
    - rewrite (float_leb_negb_ltb 0 value eq_refl E), Hlt in Hge. discriminate. }
  unfold input_devices.deadzone, truediv.
  cbn [num_ge num_sub num_abs num_div num_is_zero of_int float_number].
  change (float_of_Z 0) with 0. change PrimFloat.zero with 0. rewrite Hge, Hnz. cbn [and_then].
  f_equal. unfold py_min, py_max. cbn [num_lt of_int float_number].
  change (float_of_Z 0) with 0. change (float_of_Z (-1)) with (-1).
  assert (Hq : ((value - low_center) / abs (low - low_center) <? 0) = false).
  { rewrite FloatAxioms.ltb_spec, FloatAxioms.div_spec, FloatAxioms.sub_spec, Nv. reflexivity. }
  rewrite Hq. reflexivity.
Qed.

End Binary64.

(** *** The mapping *)

Section Deadzone.
Local Open Scope Q_scope.

Lemma Qle_bool_false (x y : Q) : Qle_bool x y = false <-> y < x.
Proof.
  split.
  - intros Hb. apply Qnot_le_lt. intros Hle.
    apply Qle_bool_iff in Hle. congruence.
  - intros Hlt. destruct (Qle_bool x y) eqn:Hb; [|reflexivity].
    apply Qle_bool_iff in Hb. exfalso. exact (Qlt_not_le _ _ Hlt Hb).
Qed.

Lemma truediv_Q_nonzero (a b : Q) :
  ~ b == 0 -> truediv a b = Return (a / b).
Proof.
  intros Hb. unfold truediv. cbn [num_is_zero num_div Q_number].
  destruct (Qeq_bool b 0) eqn:E; [|reflexivity].
  apply Qeq_bool_eq in E. contradiction.
Qed.

Lemma Qabs_gap_nonzero (x y : Q) : x < y -> ~ Qabs (y - x) == 0.
Proof.
  intros Hlt Habs.
  assert (Hpos : 0 <= y - x) by lra.
  rewrite (Qabs_pos _ Hpos) in Habs. lra.
Qed.

Lemma Qabs_gap_nonzero_rev (x y : Q) : x < y -> ~ Qabs (x - y) == 0.
Proof.
  intros Hlt Habs.
  assert (Hneg : x - y <= 0) by lra.
  rewrite (Qabs_neg _ Hneg) in Habs. lra.
Qed.

(** [min(1, max(0, x))] is [x] restricted to [0, 1]. *)
Lemma min_max_unit (x : Q) :
  py_min (of_int 1) (py_max (of_int 0) x) = clamped 0 1 x.
Proof.
  unfold py_min, py_max, clamped. cbn [num_lt of_int Q_number].
  change (inject_Z 0) with 0. change (inject_Z 1) with 1.
  destruct (Qle_bool x 0) eqn:E0; cbn [negb]; [reflexivity|].
  destruct (Qle_bool 1 x) eqn:E1; reflexivity.
Qed.

(** [max(-1, min(0, x))] is [x] restricted to [-1, 0]. *)
Lemma max_min_unit (x : Q) :
  py_max (of_int (-1)) (py_min (of_int 0) x) = clamped (-1) 0 x.
Proof.
  unfold py_min, py_max, clamped. cbn [num_lt of_int Q_number].
  change (inject_Z 0) with 0. change (inject_Z (-1)) with (-1).
  destruct (Qle_bool 0 x) eqn:E0; cbn [negb].
  - destruct (Qle_bool x (-1)) eqn:E1.
    + apply Qle_bool_iff in E0, E1. lra.
    + reflexivity.
  - destruct (Qle_bool x (-1)) eqn:E1; reflexivity.
Qed.

Lemma clamped_range (lo hi x : Q) : lo <= hi -> lo <= clamped lo hi x <= hi.
Proof.
  intros Hlh. unfold clamped.
  destruct (Qle_bool x lo) eqn:E0; [lra|].
  destruct (Qle_bool hi x) eqn:E1; [lra|].
  apply Qle_bool_false in E0, E1. lra.
Qed.

(** C7.  For every value and limits with
    [-1 <= low < low_center <= 0 <= high_center < high <= 1], [deadzone]
    returns [(value - high_center) / |high - high_center|] restricted to
    [0, 1] when [value >= 0], and
    [(value - low_center) / |low - low_center|] restricted to [-1, 0] when
    [value < 0]; and [deadzone(0, -1, -0.2, 0.2, 1) = 0],
    [deadzone(1, -1, -0.2, 0.2, 1) = 1], [deadzone(-1, -1, -0.2, 0.2, 1) = -1].

    This holds for all rational arguments, in exact arithmetic, and for all
    binary64 arguments, in the arithmetic of Python's [float]: there the
    subtraction, the absolute value and the division of the formula are the
    binary64 operations, each rounded to nearest, the call never raises
    [ZeroDivisionError], and the result lies in the interval.  A binary64
    value is [>= 0], [< 0], or neither (NaN); in the last case the call
    returns [0]. *)
Theorem deadzone_clamped_scaling :
  (forall value low low_center high_center high : Q,
     -1 <= low -> low < low_center -> low_center <= 0 ->
     0 <= high_center -> high_center < high -> high <= 1 ->
     (0 <= value ->
        input_devices.deadzone value low low_center high_center high
        = Return (clamped 0 1 ((value - high_center) / Qabs (high - high_center)))
        /\ 0 <= clamped 0 1 ((value - high_center) / Qabs (high - high_center)) <= 1)
     /\ (value < 0 ->
        input_devices.deadzone value low low_center high_center high
        = Return (clamped (-1) 0 ((value - low_center) / Qabs (low - low_center)))
        /\ -1 <= clamped (-1) 0 ((value - low_center) / Qabs (low - low_center)) <= 0))
  /\ (forall value low low_center high_center high : float,
        (-1 <=? low)%float = true -> (low <? low_center)%float = true ->
        (low_center <=? 0)%float = true ->
        (0 <=? high_center)%float = true -> (high_center <? high)%float = true ->
        (high <=? 1)%float = true ->
        ((0 <=? value)%float = true ->
           input_devices.deadzone value low low_center high_center high
           = Return (clamped_float 0 1
                       ((value - high_center) / abs (high - high_center)))%float
           /\ (0 <=? clamped_float 0 1
                       ((value - high_center) / abs (high - high_center)))%float = true
           /\ (clamped_float 0 1
                 ((value - high_center) / abs (high - high_center)) <=? 1)%float = true)
        /\ ((value <? 0)%float = true ->
           input_devices.deadzone value low low_center high_center high
           = Return (clamped_float (-1) 0
                       ((value - low_center) / abs (low - low_center)))%float
           /\ (-1 <=? clamped_float (-1) 0
                        ((value - low_center) / abs (low - low_center)))%float = true
           /\ (clamped_float (-1) 0
                 ((value - low_center) / abs (low - low_center)) <=? 0)%float = true)
        /\ ((0 <=? value)%float = false -> (value <? 0)%float = false ->
           input_devices.deadzone value low low_center high_center high
           = Return 0%float))
  /\ input_devices.deadzone 0 (-1) (-1 # 5) (1 # 5) 1 = Return 0
  /\ input_devices.deadzone 1 (-1) (-1 # 5) (1 # 5) 1 = Return 1
  /\ input_devices.deadzone (-1) (-1) (-1 # 5) (1 # 5) 1 = Return (-1)
  /\ input_devices.deadzone 0%float (-1)%float (- float_0_2)%float float_0_2 1%float
     = Return 0%float
  /\ input_devices.deadzone 1%float (-1)%float (- float_0_2)%float float_0_2 1%float
     = Return 1%float
  /\ input_devices.deadzone (-1)%float (-1)%float (- float_0_2)%float float_0_2 1%float
     = Return (-1)%float.
Proof.
  split; [|split; [|repeat split; vm_compute; reflexivity]].
  - intros value low low_center high_center high Hlow Hlc Hlc0 Hhc0 Hhc Hhigh.
    split.
    + intros Hv. split; [|apply clamped_range; lra].
      unfold input_devices.deadzone. cbn [num_ge of_int num_sub num_abs Q_number].
      change (inject_Z 0) with 0.
      apply Qle_bool_iff in Hv. rewrite Hv.
      rewrite truediv_Q_nonzero by (apply Qabs_gap_nonzero; exact Hhc).
      cbn [and_then]. now rewrite min_max_unit.
    + intros Hv. split; [|apply clamped_range; lra].
      unfold input_devices.deadzone. cbn [num_ge of_int num_sub num_abs Q_number].
      change (inject_Z 0) with 0.
      apply Qle_bool_false in Hv. rewrite Hv.
      rewrite truediv_Q_nonzero by (apply Qabs_gap_nonzero_rev; exact Hlc).
      cbn [and_then]. now rewrite max_min_unit.
  - intros value low low_center high_center high Hlow Hlc Hlc0 Hhc0 Hhc Hhigh.
    split; [|split].
    + intros Hv. apply deadzone_float_upper; assumption.
    + intros Hv. apply deadzone_float_lower; assumption.
    + intros Hge Hlt. apply (deadzone_float_nan _ _ _ _ _ Hlc Hge Hlt).
Qed.

(** The theorem at the values 1/2 and -1/2 with the limits -1, -1/5, 1/5, 1,
    in exact arithmetic, and at the values 0.5, -0.5 and NaN with the limits
    -1, -0.2, 0.2, 1 in binary64, where the quotient of the rounded
    differences 0.3 and 0.8 is the binary64 number just below 3/8. *)
Lemma deadzone_clamped_scaling_witness :
  input_devices.deadzone (1 # 2) (-1) (-1 # 5) (1 # 5) 1
  = Return (clamped 0 1 (((1 # 2) - (1 # 5)) / Qabs (1 - (1 # 5))))
  /\ input_devices.deadzone (-1 # 2) (-1) (-1 # 5) (1 # 5) 1
  = Return (clamped (-1) 0 (((-1 # 2) - (-1 # 5)) / Qabs (-1 - (-1 # 5))))
  /\ input_devices.deadzone 0.5%float (-1)%float (- float_0_2)%float float_0_2 1%float
  = Return 0x1.7ffffffffffffp-2%float
  /\ input_devices.deadzone (-0.5)%float (-1)%float (- float_0_2)%float float_0_2 1%float
  = Return (-0x1.7ffffffffffffp-2)%float
  /\ input_devices.deadzone nan (-1)%float (- float_0_2)%float float_0_2 1%float
  = Return 0%float.
Proof.
  assert (H1 : -1 <= -1) by (apply Qle_refl).
  assert (H2 : -1 < -1 # 5) by reflexivity.
  assert (H3 : -1 # 5 <= 0) by (intro Hc; discriminate Hc).
  assert (H4 : 0 <= 1 # 5) by (intro Hc; discriminate Hc).
  assert (H5 : 1 # 5 < 1) by reflexivity.
  assert (H6 : 1 <= 1) by (apply Qle_refl).
  pose proof (fun value =>
    proj1 (proj2 deadzone_clamped_scaling) value (-1)%float (- float_0_2)%float
      float_0_2 1%float eq_refl eq_refl eq_refl eq_refl eq_refl eq_refl) as HF.
  split; [|split; [|split; [|split]]].
  - apply (proj1 (proj1 deadzone_clamped_scaling (1 # 2) (-1) (-1 # 5) (1 # 5) 1
                    H1 H2 H3 H4 H5 H6)).
    intro Hc; discriminate Hc.
  - apply (proj2 (proj1 deadzone_clamped_scaling (-1 # 2) (-1) (-1 # 5) (1 # 5) 1
                    H1 H2 H3 H4 H5 H6)).
    reflexivity.
  - exact (proj1 (proj1 (HF 0.5%float) eq_refl)).
  - exact (proj1 (proj1 (proj2 (HF (-0.5)%float)) eq_refl)).
  - exact (proj2 (proj2 (HF nan)) eq_refl eq_refl).
Defined.

End Deadzone.

(** ** Axis scaling *)

Section AxisScaling.
Import JoystickWrapper.

Lemma all_in_block_spec (f : Z -> bool) (k : nat) :
  forall base z : Z,
    all_in_block f k base = true ->
    (base <= z < base + 2 ^ Z.of_nat k)%Z -> f z = true.
Proof.
  induction k as [|k IH]; intros base z Hall Hz.
  - cbn [all_in_block] in Hall. change (2 ^ Z.of_nat 0)%Z with 1%Z in Hz.
    replace z with base by lia. exact Hall.
  - cbn [all_in_block] in Hall. apply andb_prop in Hall as [Hlow Hhigh].
    assert (Hpow : (2 ^ Z.of_nat (S k) = 2 * 2 ^ Z.of_nat k)%Z).
    { rewrite Nat2Z.inj_succ. apply Z.pow_succ_r. lia. }
    destruct (Z_lt_ge_dec z (base + 2 ^ Z.of_nat k)) as [Hlt|Hge].
    + apply (IH base z Hlow). lia.
    + apply (IH (base + 2 ^ Z.of_nat k)%Z z Hhigh). lia.
Qed.

(** Every 16 bit raw value, one by one. *)
Lemma axis_value_ok_all : all_in_block axis_value_ok 16 (-32768) = true.
Proof. vm_compute. reflexivity. Qed.

Lemma axis_value_ok_range (raw : Z) :
  (-32768 <= raw <= 32767)%Z -> axis_value_ok raw = true.
Proof.
  intros Hraw.
  apply (all_in_block_spec axis_value_ok 16 (-32768) raw axis_value_ok_all).
  change (2 ^ Z.of_nat 16)%Z with 65536%Z. lia.
Qed.

(** C5.  For every raw axis value [v] in [-32768, 32767] that the
    platform reports for the axis with 1-based index [index] (the axis
    [index - 1] of SDL), [JoystickWrapper.axis] returns [v / 32768.0]: the
    binary64 result is exactly the rational [v / 32768], with nothing
    clamped or rounded, so it lies in [-1, 32767/32768] and is never
    greater than or equal to 1.0. *)
Theorem axis_exact_ratio (sdl : SDL) (self : JoystickWrapper) (index : Z) :
  let raw := SDL_JoystickGetAxis sdl (_joystick self) (index - 1) in
  (-32768 <= raw <= 32767)%Z ->
  exists (r : float) (q : Q),
    axis sdl self index = Return r
    /\ float_to_Q r = Some q
    /\ (q == raw # 32768)%Q
    /\ (-1 <= q)%Q /\ (q <= 32767 # 32768)%Q /\ (q < 1)%Q
    /\ PrimFloat.leb (-1)%float r = true
    /\ PrimFloat.ltb r 1%float = true
    /\ PrimFloat.leb 1%float r = false.
Proof.
  intros raw Hraw.
  pose proof (axis_value_ok_range raw Hraw) as Hok.
  unfold axis_value_ok in Hok. unfold axis. fold raw.
  destruct (truediv (of_int raw) (of_int 32768)) as [r|e]; [|discriminate Hok].
  destruct (float_to_Q r) as [q|] eqn:Hr; [|discriminate Hok].
  apply andb_prop in Hok as [Hok Hnge].
  apply andb_prop in Hok as [Hok Hlt].
  apply andb_prop in Hok as [Hq Hge].
  apply Qeq_bool_eq in Hq.
  exists r, q. split; [reflexivity|]. split; [exact Hr|]. split; [exact Hq|].
  assert (Hlo : (-1 <= raw # 32768)%Q) by (unfold Qle; simpl; lia).
  assert (Hhi : (raw # 32768 <= 32767 # 32768)%Q) by (unfold Qle; simpl; lia).
  assert (Hone : (32767 # 32768 < 1)%Q) by reflexivity.
  repeat split.
  - rewrite Hq. exact Hlo.
  - rewrite Hq. exact Hhi.
  - rewrite Hq. eapply Qle_lt_trans; [exact Hhi | exact Hone].
  - exact Hge.
  - exact Hlt.
  - now apply negb_true_iff.
Qed.

(** The theorem at the first axis of a fully deflected joystick. *)
Lemma axis_exact_ratio_witness :
  exists (r : float) (q : Q),
    axis sdl_full_axis {| _joystick := 0; wrapper_oid := 0 |} 1 = Return r
    /\ float_to_Q r = Some q
    /\ (q == 32767 # 32768)%Q
    /\ (-1 <= q)%Q /\ (q <= 32767 # 32768)%Q /\ (q < 1)%Q
    /\ PrimFloat.leb (-1)%float r = true
    /\ PrimFloat.ltb r 1%float = true
    /\ PrimFloat.leb 1%float r = false.
Proof.
  apply (axis_exact_ratio sdl_full_axis {| _joystick := 0; wrapper_oid := 0 |} 1).
  simpl. lia.
Defined.

End AxisScaling.

(** ** Callback registry *)

Section RegistryProperties.
Import CallbackRegistry.
Context {World Event DeviceId : Type}.
Context `{Countable Event} `{Countable DeviceId}.
Variable device_id : Event -> DeviceId.

Local Abbreviation Registry := (Registry (World := World) (Event := Event) (DeviceId := DeviceId)).
Local Abbreviation State := (State (World := World) (Event := Event) (DeviceId := DeviceId)).
Local Abbreviation Registration := (Registration (World := World) (Event := Event)).

(** Reading through the three outer levels after a write. *)
Lemma at_device_insert (r : Registry) d x d' :
  at_device (<[d := x]> r) d' = if decide (d = d') then x else at_device r d'.
Proof.
  unfold at_device, CallbackRegistry.Registry in *. rewrite lookup_insert.
  destruct (decide (d = d')); reflexivity.
Qed.

Lemma at_mode_set_mode (r : Registry) d m x d' m' :
  at_mode (set_mode r d m x) d' m'
  = if decide (d = d' /\ m = m') then x else at_mode r d' m'.
Proof.
  unfold at_mode, set_mode. rewrite at_device_insert.
  destruct (decide (d = d')) as [->|Hd].
  - rewrite lookup_insert.
    destruct (decide (m = m')) as [->|Hm].
    + rewrite decide_True by auto. reflexivity.
    + rewrite decide_False by (intros [_ ?]; contradiction). reflexivity.
  - rewrite decide_False by (intros [? _]; contradiction). reflexivity.
Qed.

Lemma at_event_set_event (r : Registry) d m e x d' m' e' :
  at_event (set_event r d m e x) d' m' e'
  = if decide (d = d' /\ m = m' /\ e = e') then x else at_event r d' m' e'.
Proof.
  unfold at_event, set_event. rewrite at_mode_set_mode.
  destruct (decide (d = d' /\ m = m')) as [[-> ->]|Hdm].
  - rewrite lookup_insert.
    destruct (decide (e = e')) as [->|He].
    + rewrite decide_True by auto. reflexivity.
    + rewrite decide_False by (intros (_ & _ & ?); contradiction). reflexivity.
  - rewrite decide_False by (intros (? & ? & _); auto). reflexivity.
Qed.

Lemma entry_set_entry (r : Registry) d m e n x d' m' e' n' :
  entry (set_entry r d m e n x) d' m' e' n'
  = if decide (d = d' /\ m = m' /\ e = e' /\ n = n') then Some x
    else entry r d' m' e' n'.
Proof.
  unfold entry, set_entry. rewrite at_event_set_event.
  destruct (decide (d = d' /\ m = m' /\ e = e')) as [(-> & -> & ->)|Hdme].
  - unfold CallbackRegistry.Bucket. rewrite lookup_insert.
    destruct (decide (n = n')) as [->|Hn].
    + rewrite decide_True by auto. reflexivity.
    + rewrite decide_False by (intros (_ & _ & _ & ?); contradiction). reflexivity.
  - rewrite decide_False by (intros (? & ? & ? & _); auto). reflexivity.
Qed.

(** Creating a missing level adds an empty dictionary, which holds no
    entry: what can be read below that level stays the same. *)
Lemma at_device_ensure_device (r : Registry) d d' :
  at_device (ensure_device r d) d' = at_device r d'.
Proof.
  unfold ensure_device. destruct (r !! d) eqn:Hd; [reflexivity|].
  rewrite at_device_insert. destruct (decide (d = d')) as [<-|]; [|reflexivity].
  unfold at_device. now rewrite Hd.
Qed.

Lemma at_mode_ensure_mode (r : Registry) d m d' m' :
  at_mode (ensure_mode r d m) d' m' = at_mode r d' m'.
Proof.
  unfold ensure_mode. destruct (at_device r d !! m) eqn:Hm; [reflexivity|].
  rewrite at_mode_set_mode.
  destruct (decide (d = d' /\ m = m')) as [[<- <-]|]; [|reflexivity].
  unfold at_mode. now rewrite Hm.
Qed.

Lemma at_event_ensure_event (r : Registry) d m e d' m' e' :
  at_event (ensure_event r d m e) d' m' e' = at_event r d' m' e'.
Proof.
  unfold ensure_event. destruct (at_mode r d m !! e) eqn:He; [reflexivity|].
  rewrite at_event_set_event.
  destruct (decide (d = d' /\ m = m' /\ e = e')) as [(<- & <- & <-)|]; [|reflexivity].
  unfold at_event. now rewrite He.
Qed.

Lemma at_event_ensured (r : Registry) d m e d' m' e' :
  at_event (ensure_event (ensure_mode (ensure_device r d) d m) d m e) d' m' e'
  = at_event r d' m' e'.
Proof.
  rewrite at_event_ensure_event. unfold at_event.
  rewrite at_mode_ensure_mode. unfold at_mode.
  now rewrite at_device_ensure_device.
Qed.

(** A lookup below a level that does not exist finds nothing. *)
Tactic Notation "absent_level" ident(Hx) :=
  exfalso; unfold CallbackRegistry.Bucket in Hx;
  repeat (cbn [default from_option id] in Hx; try rewrite lookup_empty in Hx);
  discriminate Hx.

(** Where a bucket already holds an entry, every level above it exists
    and nothing is created. *)
Lemma ensured_when_present (r : Registry) d m e n x :
  entry r d m e n = Some x ->
  ensure_event (ensure_mode (ensure_device r d) d m) d m e = r.
Proof.
  unfold entry, at_event, at_mode, at_device. intros Hx.
  destruct (r !! d) as [modes|] eqn:Hd; [|absent_level Hx].
  cbn [default from_option id] in Hx.
  destruct (modes !! m) as [events|] eqn:Hm; [|absent_level Hx].
  cbn [default from_option id] in Hx.
  destruct (events !! e) as [bucket|] eqn:He; [|absent_level Hx].
  assert (E1 : ensure_device r d = r) by (unfold ensure_device; now rewrite Hd).
  rewrite E1.
  assert (E2 : ensure_mode r d m = r).
  { unfold ensure_mode, at_device. rewrite Hd. cbn [default from_option id].
    now rewrite Hm. }
  rewrite E2.
  unfold ensure_event, at_mode, at_device. rewrite Hd. cbn [default from_option id].
  rewrite Hm. cbn [default from_option id]. now rewrite He.
Qed.

(** One call of [add], seen from any full key. *)
Lemma add_entry (self : State) cb ev mode ae d m e n :
  fst (add device_id cb ev mode ae self) = Return tt
  /\ entry (_registry (snd (add device_id cb ev mode ae self))) d m e n
     = match entry (_registry self) d m e n with
       | Some x => Some x
       | None =>
           if registers_at device_id d m e n (mkRegistration cb ev mode ae)
           then Some (cb, ae) else None
       end.
Proof.
  unfold add.
  set (r := ensure_event _ _ _ _).
  assert (Hr : forall d' m' e', at_event r d' m' e' = at_event (_registry self) d' m' e').
  { intros. apply at_event_ensured. }
  destruct (at_event r (device_id ev) mode ev !! __name__ cb) as [x|] eqn:Hx;
    cbn [fst snd _registry].
  - split; [reflexivity|].
    unfold entry. rewrite Hr.
    destruct (at_event (_registry self) d m e !! n) as [y|] eqn:Hy; [reflexivity|].
    unfold registers_at. cbn [reg_event reg_mode reg_callback].
    case_bool_decide as Hkey; [|reflexivity].
    destruct Hkey as (<- & <- & <- & <-).
    rewrite Hr in Hx. congruence.
  - split; [reflexivity|].
    rewrite entry_set_entry. unfold entry at 1 2. rewrite !Hr.
    unfold registers_at. cbn [reg_event reg_mode reg_callback].
    destruct (decide (device_id ev = d /\ mode = m /\ ev = e /\ __name__ cb = n))
      as [Hkey|Hkey].
    + rewrite bool_decide_eq_true_2 by exact Hkey.
      destruct Hkey as (<- & <- & <- & <-).
      rewrite Hr in Hx. unfold entry. now rewrite Hx.
    + rewrite bool_decide_eq_false_2 by exact Hkey.
      unfold entry. now destruct (at_event (_registry self) d m e !! n).
Qed.

(** A second registration under a name the bucket already holds. *)
Lemma add_duplicate (self : State) cb ev mode ae x :
  entry (_registry self) (device_id ev) mode ev (__name__ cb) = Some x ->
  add device_id cb ev mode ae self
  = (Return tt,
     {| _registry := _registry self;
        warnings := warnings self ++ [duplicate_warning (__name__ cb)] |}).
Proof.
  intros Hx. unfold add.
  rewrite (ensured_when_present _ _ _ _ _ _ Hx).
  unfold entry in Hx. now rewrite Hx.
Qed.

(** A registration under a name the bucket does not hold yet. *)
Lemma add_fresh (self : State) cb ev mode ae :
  entry (_registry self) (device_id ev) mode ev (__name__ cb) = None ->
  fst (add device_id cb ev mode ae self) = Return tt
  /\ warnings (snd (add device_id cb ev mode ae self)) = warnings self
  /\ entry (_registry (snd (add device_id cb ev mode ae self)))
       (device_id ev) mode ev (__name__ cb) = Some (cb, ae).
Proof.
  intros Hx. unfold add.
  set (r := ensure_event _ _ _ _).
  assert (Hr : at_event r (device_id ev) mode ev
               = at_event (_registry self) (device_id ev) mode ev)
    by apply at_event_ensured.
  unfold entry in Hx. rewrite Hr, Hx. cbn [fst snd _registry warnings].
  split; [reflexivity|]. split; [reflexivity|].
  rewrite entry_set_entry. now rewrite decide_True by auto.
Qed.

(** Any run of calls: no call fails, and under every key the registry
    holds what it held before or, failing that, the first registration of
    the run under that key. *)
Lemma add_all_first_wins (calls : list Registration) :
  forall (self : State) d m e n,
    fst (add_all device_id calls self) = Return tt
    /\ entry (_registry (snd (add_all device_id calls self))) d m e n
       = match entry (_registry self) d m e n with
         | Some x => Some x
         | None => first_registered device_id calls d m e n
         end.
Proof.
  induction calls as [|c calls IH]; intros self d m e n.
  - cbn. split; [reflexivity|]. now destruct (entry (_registry self) d m e n).
  - unfold add_all. cbn [for_each]. unfold Py.bind.
    destruct c as [cb ev mode ae]. cbn [reg_callback reg_event reg_mode reg_always_execute].
    pose proof (add_entry self cb ev mode ae d m e n) as [Hout Hent].
    destruct (add device_id cb ev mode ae self) as [out self1] eqn:Hadd.
    cbn [fst snd] in Hout, Hent. subst out.
    destruct (IH self1 d m e n) as [Hout' Hent'].
    split; [exact Hout'|].
    unfold add_all in Hent'. rewrite Hent', Hent.
    destruct (entry (_registry self) d m e n) as [x|]; [reflexivity|].
    unfold first_registered. cbn [find].
    destruct (registers_at device_id d m e n (mkRegistration cb ev mode ae));
      reflexivity.
Qed.

(** C1.  For every sequence of [add] calls, no call raises and under
    every key the registry keeps the first registration made under it.
    Two callbacks with different names registered under the same
    (device id, mode, event) bucket are both kept.  A callback whose name
    the bucket already holds leaves the registry unchanged (the first
    registration and its always-execute flag stay), records one warning
    and raises nothing. *)
Theorem registry_add_first_registration_wins :
  (forall (calls : list Registration) (self : State) d m e n,
     fst (add_all device_id calls self) = Return tt
     /\ entry (_registry (snd (add_all device_id calls self))) d m e n
        = match entry (_registry self) d m e n with
          | Some x => Some x
          | None => first_registered device_id calls d m e n
          end)
  /\ (forall (self : State) cb1 a1 cb2 a2 ev mode,
        __name__ cb1 <> __name__ cb2 ->
        let self2 := snd (add device_id cb2 ev mode a2
                            (snd (add device_id cb1 ev mode a1 self))) in
        entry (_registry self2) (device_id ev) mode ev (__name__ cb1)
        = Some (default (cb1, a1)
                  (entry (_registry self) (device_id ev) mode ev (__name__ cb1)))
        /\ entry (_registry self2) (device_id ev) mode ev (__name__ cb2)
           = Some (default (cb2, a2)
                     (entry (_registry self) (device_id ev) mode ev (__name__ cb2))))
  /\ (forall (self : State) cb ev mode ae x,
        entry (_registry self) (device_id ev) mode ev (__name__ cb) = Some x ->
        add device_id cb ev mode ae self
        = (Return tt,
           {| _registry := _registry self;
              warnings := warnings self ++ [duplicate_warning (__name__ cb)] |}))
  /\ (forall (self : State) cb1 a1 cb2 a2 ev mode,
        __name__ cb1 = __name__ cb2 ->
        entry (_registry self) (device_id ev) mode ev (__name__ cb1) = None ->
        let self1 := snd (add device_id cb1 ev mode a1 self) in
        entry (_registry self1) (device_id ev) mode ev (__name__ cb1) = Some (cb1, a1)
        /\ add device_id cb2 ev mode a2 self1
           = (Return tt,
              {| _registry := _registry self1;
                 warnings := warnings self ++ [duplicate_warning (__name__ cb2)] |})).
Proof.
  split; [|split; [|split]].
  - intros calls self d m e n. apply add_all_first_wins.
  - intros self cb1 a1 cb2 a2 ev mode Hne self2. subst self2.
    pose proof (add_entry self cb1 ev mode a1) as H1.
    set (self1 := snd (add device_id cb1 ev mode a1 self)) in *.
    pose proof (add_entry self1 cb2 ev mode a2) as H2.
    split.
    + destruct (H2 (device_id ev) mode ev (__name__ cb1)) as [_ ->].
      destruct (H1 (device_id ev) mode ev (__name__ cb1)) as [_ ->].
      unfold registers_at. cbn [reg_event reg_mode reg_callback].
      rewrite bool_decide_eq_true_2 by auto.
      now destruct (entry (_registry self) (device_id ev) mode ev (__name__ cb1)).
    + destruct (H2 (device_id ev) mode ev (__name__ cb2)) as [_ ->].
      destruct (H1 (device_id ev) mode ev (__name__ cb2)) as [_ ->].
      unfold registers_at. cbn [reg_event reg_mode reg_callback].
      rewrite (bool_decide_eq_false_2
                 (device_id ev = device_id ev /\ mode = mode /\ ev = ev
                  /\ __name__ cb1 = __name__ cb2))
        by (intros (_ & _ & _ & ?); contradiction).
      rewrite bool_decide_eq_true_2 by auto.
      now destruct (entry (_registry self) (device_id ev) mode ev (__name__ cb2)).
  - intros self cb ev mode ae x Hx. now apply add_duplicate with (x := x).
  - intros self cb1 a1 cb2 a2 ev mode Hname Hnone self1. subst self1.
    destruct (add_fresh self cb1 ev mode a1 Hnone) as (_ & Hw & Hent).
    split; [exact Hent|].
    rewrite Hname in Hent.
    rewrite (add_duplicate _ cb2 ev mode a2 _ Hent). now rewrite Hw.
Qed.

End RegistryProperties.

(** The theorem at an empty registry: two names in one bucket, and one
    name registered twice. *)
Lemma registry_add_first_registration_wins_witness :
  (let self2 := snd (CallbackRegistry.add (fun e : Z => e) on_release 7%Z "global" false
                       (snd (CallbackRegistry.add (fun e : Z => e) on_fire 7%Z "global" true
                               empty_registry))) in
   CallbackRegistry.entry (CallbackRegistry._registry self2) 7%Z "global" 7%Z "on_fire"
   = Some (on_fire, true)
   /\ CallbackRegistry.entry (CallbackRegistry._registry self2) 7%Z "global" 7%Z "on_release"
      = Some (on_release, false))
  /\ (let self1 := snd (CallbackRegistry.add (fun e : Z => e) on_fire 7%Z "global" true
                          empty_registry) in
      CallbackRegistry.entry (CallbackRegistry._registry self1) 7%Z "global" 7%Z "on_fire"
      = Some (on_fire, true)
      /\ CallbackRegistry.add (fun e : Z => e) on_fire_again 7%Z "global" false self1
         = (Return tt,
            {| CallbackRegistry._registry := CallbackRegistry._registry self1;
               CallbackRegistry.warnings :=
                 ["Function with name on_fire exists multiple times"] |})).
Proof.
  pose proof (registry_add_first_registration_wins (World := unit) (fun e : Z => e))
    as (_ & Hboth & _ & Hsame).
  split.
  - apply (Hboth empty_registry on_fire true on_release false 7%Z "global").
    discriminate.
  - apply (Hsame empty_registry on_fire true on_fire_again false 7%Z "global");
      reflexivity.
Defined.

(** ** Plugins and forwarding wrappers *)

Section PluginProperties.
Context {World : Type}.

Lemma bind_value_dropped {A : Type} (m : M World A) (w : World) :
  (let* _ := m in ret VNone)%py w = value_dropped (m w).
Proof.
  unfold Py.bind, Py.ret, value_dropped.
  destruct (m w) as [[a|e] w']; reflexivity.
Qed.

Lemma install_without_keyword (p : Plugin) (callback : Callback World) signature :
  plugin_keyword p ∉ parameters signature ->
  plugin_install p callback signature = callback.
Proof.
  intros Hnot.
  destruct p; cbn [plugin_install plugin_keyword] in *;
    unfold VJoyPlugin.install, JoystickPlugin.install, KeyboardPlugin.install;
    now rewrite bool_decide_eq_false_2 by exact Hnot.
Qed.

Lemma install_with_keyword (p : Plugin) (callback : Callback World) signature :
  plugin_keyword p ∈ parameters signature ->
  __name__ (plugin_install p callback signature) = __name__ callback
  /\ forall args kwargs w,
       call (plugin_install p callback signature) args kwargs w
       = value_dropped
           (call callback args (<[plugin_keyword p := plugin_instance p]> kwargs) w).
Proof.
  intros Hin.
  destruct p; cbn [plugin_install plugin_keyword plugin_instance] in *;
    unfold VJoyPlugin.install, JoystickPlugin.install, KeyboardPlugin.install;
    rewrite bool_decide_eq_true_2 by exact Hin; cbn [negb];
    (split; [reflexivity|]); intros args kwargs w;
    cbn [wraps call VJoyPlugin.wrapper JoystickPlugin.wrapper KeyboardPlugin.wrapper];
    apply bind_value_dropped.
Qed.

(** C6.  The keywords are "vjoy", "joy" and "keyboard".  If the
    plugin's keyword is not among the parameter names of the signature,
    [install] returns the callback itself.  If it is, [install] returns a
    wrapper with the callback's declared name which, on every call, calls
    the callback with the same positional arguments and with keyword
    arguments in which the keyword is bound to the plugin's single
    instance, whatever the caller bound it to, and every other keyword
    argument is as the caller gave it. *)
Theorem plugin_install_injects_instance (p : Plugin) (callback : Callback World)
    (signature : Signature) :
  (plugin_keyword UseVJoy = "vjoy" /\ plugin_keyword UseJoystick = "joy"
   /\ plugin_keyword UseKeyboard = "keyboard")
  /\ (plugin_keyword p ∉ parameters signature ->
      plugin_install p callback signature = callback)
  /\ (plugin_keyword p ∈ parameters signature ->
      __name__ (plugin_install p callback signature) = __name__ callback
      /\ forall (args : list Value) (kwargs : gmap string Value) (w : World),
           exists kwargs' : gmap string Value,
             kwargs' !! plugin_keyword p = Some (plugin_instance p)
             /\ (forall k, k <> plugin_keyword p -> kwargs' !! k = kwargs !! k)
             /\ call (plugin_install p callback signature) args kwargs w
                = value_dropped (call callback args kwargs' w)).
Proof.
  split; [repeat split|]. split.
  - apply install_without_keyword.
  - intros Hin. destruct (install_with_keyword p callback signature Hin) as [Hname Hcall].
    split; [exact Hname|]. intros args kwargs w.
    exists (<[plugin_keyword p := plugin_instance p]> kwargs).
    split; [apply lookup_insert_eq|]. split.
    + intros k Hk. now apply lookup_insert_ne.
    + apply Hcall.
Qed.

End PluginProperties.

(** The theorem at a callback that declares [event] and [vjoy], called
    with a [vjoy] argument of the caller's own. *)
Lemma plugin_install_injects_instance_witness :
  plugin_install UseJoystick set_throttle {| parameters := ["event"; "vjoy"] |} = set_throttle
  /\ __name__ (plugin_install UseVJoy set_throttle {| parameters := ["event"; "vjoy"] |})
     = "set_throttle"
  /\ call (plugin_install UseVJoy set_throttle {| parameters := ["event"; "vjoy"] |})
       [VInt 3] {[ "vjoy" := VStr "mine"; "event" := VInt 9 ]} []
     = (Return VNone, [([VInt 3], Some VVJoyProxy, Some (VInt 9))]).
Proof.
  pose proof (plugin_install_injects_instance (World := Seen) UseJoystick set_throttle
                {| parameters := ["event"; "vjoy"] |}) as (_ & Hout & _).
  pose proof (plugin_install_injects_instance (World := Seen) UseVJoy set_throttle
                {| parameters := ["event"; "vjoy"] |}) as (_ & _ & Hin).
  split; [|split].
  - apply Hout. cbn. intros Hin'. apply elem_of_cons in Hin' as [Hc|Hin']; [discriminate Hc|].
    apply elem_of_cons in Hin' as [Hc|Hin']; [discriminate Hc|].
    now apply elem_of_nil in Hin'.
  - apply Hin. cbn. apply elem_of_cons. right. apply elem_of_cons. now left.
  - destruct Hin as [_ Hcall].
    { cbn. apply elem_of_cons. right. apply elem_of_cons. now left. }
    destruct (Hcall [VInt 3] {[ "vjoy" := VStr "mine"; "event" := VInt 9 ]} [])
      as (kwargs' & Hkw & Hrest & ->).
    cbn [set_throttle call value_dropped app].
    cbn [plugin_keyword plugin_instance] in Hkw, Hrest.
    unfold VJoyPlugin.keyword, VJoyPlugin.vjoy in Hkw, Hrest.
    rewrite Hkw. rewrite (Hrest "event") by discriminate.
    reflexivity.
Defined.

Section WrapperResults.
Import input_devices.
Context {World Event DeviceId Key : Type}.
Context `{Countable Event} `{Countable DeviceId}.
Variable device_id : Event -> DeviceId.
Variable extract_ids : Value -> Value * Value.
Variable Event_new : InputType -> Value -> Value -> Value -> Event.
Variable key_from_name : Value -> Key.
Variable Event_from_key : Key -> Event.

Local Abbreviation RegistryState :=
  (CallbackRegistry.State (World := World) (Event := Event) (DeviceId := DeviceId)).

(** The wrapper a decorator builds: the callback's name, the callback's
    effect, no value. *)
Lemma forwarding_wrapper (callback : Callback World) :
  __name__ (wraps callback (wrapper_fn callback)) = __name__ callback
  /\ forall args kwargs w,
       call (wraps callback (wrapper_fn callback)) args kwargs w
       = value_dropped (call callback args kwargs w).
Proof.
  split; [reflexivity|]. intros args kwargs w.
  cbn [wraps call wrapper_fn]. apply bind_value_dropped.
Qed.

(** Registration never fails, so each decorator hands back its wrapper. *)
Lemma add_then_ret (wrapper : Callback World) ev mode ae (st : RegistryState) :
  fst ((let* _ := CallbackRegistry.add device_id wrapper ev mode ae in
        ret wrapper)%py st) = Return wrapper.
Proof.
  unfold Py.bind.
  pose proof (add_entry device_id st wrapper ev mode ae (device_id ev) mode ev
                (__name__ wrapper)) as [Hout _].
  destruct (CallbackRegistry.add device_id wrapper ev mode ae st) as [out st'].
  cbn [fst] in Hout. subst out. reflexivity.
Qed.

Lemma button_returns_wrapper button_id device mode ae callback (st : RegistryState) :
  fst (button device_id extract_ids Event_new button_id device mode ae callback st)
  = Return (wraps callback (wrapper_fn callback)).
Proof.
  unfold button. destruct (extract_ids device) as [hid wid]. apply add_then_ret.
Qed.

Lemma hat_returns_wrapper hat_id device mode ae callback (st : RegistryState) :
  fst (hat device_id extract_ids Event_new hat_id device mode ae callback st)
  = Return (wraps callback (wrapper_fn callback)).
Proof.
  unfold hat. destruct (extract_ids device) as [hid wid]. apply add_then_ret.
Qed.

Lemma axis_returns_wrapper axis_id device mode ae callback (st : RegistryState) :
  fst (axis device_id extract_ids Event_new axis_id device mode ae callback st)
  = Return (wraps callback (wrapper_fn callback)).
Proof.
  unfold axis. destruct (extract_ids device) as [hid wid]. apply add_then_ret.
Qed.

Lemma keyboard_returns_wrapper key_name mode ae callback (st : RegistryState) :
  fst (keyboard device_id key_from_name Event_from_key key_name mode ae callback st)
  = Return (wraps callback (wrapper_fn callback)).
Proof. unfold keyboard. apply add_then_ret. Qed.

(** C10.  The wrapper that a plugin's [install] puts around a callback,
    and the forwarding wrapper that each of the decorators [axis],
    [button], [hat] and [keyboard] produces, drop what the callback
    returns: whenever the wrapped callback returns a value, whatever it
    is, the wrapper returns [None], having had the callback's effect. *)
Theorem wrappers_discard_return_value (callback : Callback World)
    (args : list Value) (kwargs : gmap string Value) (w w' : World) (v : Value) :
  (forall (p : Plugin) (signature : Signature),
     plugin_keyword p ∈ parameters signature ->
     call callback args (<[plugin_keyword p := plugin_instance p]> kwargs) w
     = (Return v, w') ->
     call (plugin_install p callback signature) args kwargs w = (Return VNone, w'))
  /\ (call callback args kwargs w = (Return v, w') ->
      forall (element device key_name : Value) (mode : string) (ae : bool)
             (st : RegistryState),
      exists wrapper : Callback World,
        call wrapper args kwargs w = (Return VNone, w')
        /\ fst (axis device_id extract_ids Event_new element device mode ae callback st)
           = Return wrapper
        /\ fst (button device_id extract_ids Event_new element device mode ae callback st)
           = Return wrapper
        /\ fst (hat device_id extract_ids Event_new element device mode ae callback st)
           = Return wrapper
        /\ fst (keyboard device_id key_from_name Event_from_key key_name mode ae callback st)
           = Return wrapper).
Proof.
  split.
  - intros p signature Hin Hcall.
    destruct (install_with_keyword p callback signature Hin) as [_ Hwrap].
    rewrite Hwrap, Hcall. reflexivity.
  - intros Hcall element device key_name mode ae st.
    exists (wraps callback (wrapper_fn callback)).
    split.
    + destruct (forwarding_wrapper callback) as [_ Hwrap].
      rewrite Hwrap, Hcall. reflexivity.
    + repeat split.
      * apply axis_returns_wrapper.
      * apply button_returns_wrapper.
      * apply hat_returns_wrapper.
      * apply keyboard_returns_wrapper.
Qed.

End WrapperResults.

(** The theorem at a callback that returns 5. *)
Lemma wrappers_discard_return_value_witness :
  call (plugin_install UseVJoy set_throttle {| parameters := ["vjoy"] |}) [VInt 3] ∅ []
  = (Return VNone, [([VInt 3], Some VVJoyProxy, None)])
  /\ exists wrapper : Callback Seen,
       call wrapper [VInt 3] ∅ [] = (Return VNone, [([VInt 3], None, None)])
       /\ fst (input_devices.button (fun e : Z => e) (fun d => (d, d))
                 (fun _ _ _ _ => 0%Z) (VInt 1) (VInt 2) "global" false set_throttle
                 empty_seen_registry)
          = Return wrapper.
Proof.
  pose proof (wrappers_discard_return_value (World := Seen) (Key := Z)
                (fun e : Z => e) (fun d => (d, d)) (fun _ _ _ _ => 0%Z)
                (fun _ => 0%Z) (fun k => k) set_throttle [VInt 3] ∅ []) as Hthm.
  split.
  - apply (proj1 (Hthm [([VInt 3], Some VVJoyProxy, None)] (VInt 5)) UseVJoy).
    + cbn. apply elem_of_cons. now left.
    + reflexivity.
  - destruct (proj2 (Hthm [([VInt 3], None, None)] (VInt 5)) eq_refl
                (VInt 1) (VInt 2) (VStr "A") "global" false empty_seen_registry)
      as (wrapper & Hcall & _ & Hbutton & _).
    exists wrapper. split; [exact Hcall | exact Hbutton].
Defined.

(** ** Loops *)

Lemma for_each_cons_return {S A : Type} (x : A) (xs : list A) (body : A -> M S unit)
    (st st1 : S) :
  body x st = (Return tt, st1) ->
  for_each (x :: xs) body st = for_each xs body st1.
Proof. intros Hbody. cbn [for_each]. unfold Py.bind. now rewrite Hbody. Qed.

Lemma for_each_app {S A : Type} (xs ys : list A) (body : A -> M S unit) (st st1 : S) :
  for_each xs body st = (Return tt, st1) ->
  for_each (xs ++ ys) body st = for_each ys body st1.
Proof.
  revert st. induction xs as [|x xs IH]; intros st Hxs.
  - cbn in Hxs. injection Hxs as ->. reflexivity.
  - cbn [for_each app] in *. unfold Py.bind in *.
    destruct (body x st) as [[[]|e] st']; [|discriminate Hxs].
    now apply IH.
Qed.

(** ** Virtual joystick proxy *)

Section VJoyProxyProperties.
Import VJoyProxy.

Lemma isinstance_int_key (key : Value) :
  isinstance_int key = true -> exists n : Z, int_key key = Some n.
Proof. destruct key; cbn; intros Hk; try discriminate Hk; eauto. Qed.

Lemma getitem_hit (key : Value) (st : State) (device : VJoy) :
  dict_get (vjoy_devices st) key = Some device ->
  __getitem__ key st = (Return device, st).
Proof. intros Hhit. unfold __getitem__. now rewrite Hhit. Qed.

Lemma getitem_not_integer (key : Value) (st : State) :
  isinstance_int key = false ->
  dict_get (vjoy_devices st) key = None ->
  __getitem__ key st = (Raise (TypeError "Integer ID expected"), st).
Proof. intros Hint Hmiss. unfold __getitem__. now rewrite Hmiss, Hint. Qed.

Lemma getitem_miss (key : Value) (n : Z) (st : State) :
  int_key key = Some n ->
  isinstance_int key = true ->
  vjoy_devices st !! n = None ->
  __getitem__ key st
  = (Return {| vjoy_id := key; vjoy_oid := length (constructed st) |},
     {| vjoy_devices := <[n := {| vjoy_id := key; vjoy_oid := length (constructed st) |}]>
                          (vjoy_devices st);
        constructed := constructed st
                       ++ [{| vjoy_id := key; vjoy_oid := length (constructed st) |}] |}).
Proof.
  intros Hkey Hint Hmiss. unfold __getitem__, dict_get. rewrite Hkey, Hmiss, Hint.
  cbn [negb]. unfold Py.bind, VJoy_new, modify, Py.ret.
  cbn [vjoy_devices constructed]. unfold dict_set. now rewrite Hkey.
Qed.

(** No lookup, with whatever key, replaces or removes a cached entry. *)
Lemma getitem_keeps_entries (key : Value) (st : State) (k : Z) (d : VJoy) :
  vjoy_devices st !! k = Some d ->
  vjoy_devices (snd (__getitem__ key st)) !! k = Some d.
Proof.
  intros Hk.
  destruct (dict_get (vjoy_devices st) key) as [device|] eqn:Hget.
  - now rewrite (getitem_hit key st device Hget).
  - destruct (isinstance_int key) eqn:Hint.
    + destruct (isinstance_int_key key Hint) as [n Hn].
      assert (Hmiss : vjoy_devices st !! n = None).
      { unfold dict_get in Hget. now rewrite Hn in Hget. }
      rewrite (getitem_miss key n st Hn Hint Hmiss). cbn [snd vjoy_devices].
      rewrite lookup_insert_ne; [exact Hk|]. intros ->. congruence.
    + now rewrite (getitem_not_integer key st Hint Hget).
Qed.

Lemma constructions_for_snoc (k : Z) (st : State) (d : VJoy) (m : gmap Z VJoy) :
  constructions_for k {| vjoy_devices := m; constructed := constructed st ++ [d] |}
  = (constructions_for k st
     + if decide (int_key (vjoy_id d) = Some k) then 1 else 0)%nat.
Proof.
  unfold constructions_for. cbn [constructed].
  rewrite filter_app, length_app. f_equal.
  rewrite filter_cons, filter_nil.
  destruct (decide (int_key (vjoy_id d) = Some k)); reflexivity.
Qed.

Lemma getitem_once_per_key (key : Value) (st : State) :
  once_per_key st -> once_per_key (snd (__getitem__ key st)).
Proof.
  intros Hinv.
  destruct (dict_get (vjoy_devices st) key) as [device|] eqn:Hget.
  - now rewrite (getitem_hit key st device Hget).
  - destruct (isinstance_int key) eqn:Hint.
    + destruct (isinstance_int_key key Hint) as [n Hn].
      assert (Hmiss : vjoy_devices st !! n = None).
      { unfold dict_get in Hget. now rewrite Hn in Hget. }
      rewrite (getitem_miss key n st Hn Hint Hmiss). cbn [snd].
      intros k. rewrite constructions_for_snoc. cbn [vjoy_devices vjoy_id].
      rewrite Hn, (Hinv k).
      destruct (decide (n = k)) as [->|Hne].
      * rewrite lookup_insert_eq, Hmiss.
        now rewrite decide_True by reflexivity.
      * rewrite lookup_insert_ne by exact Hne.
        rewrite decide_False by congruence.
        destruct (vjoy_devices st !! k); reflexivity.
    + now rewrite (getitem_not_integer key st Hint Hget).
Qed.

(** A run of integer lookups never fails, keeps the invariant, and leaves
    cached exactly the keys that were cached before or looked up. *)
Lemma lookups_run (ks : list Z) :
  forall st : State,
    once_per_key st ->
    fst (lookups ks st) = Return tt
    /\ once_per_key (snd (lookups ks st))
    /\ forall k : Z,
         is_Some (vjoy_devices (snd (lookups ks st)) !! k)
         <-> is_Some (vjoy_devices st !! k) \/ k ∈ ks.
Proof.
  induction ks as [|n ks IH]; intros st Hinv.
  - cbn. split; [reflexivity|]. split; [exact Hinv|].
    intros k. rewrite elem_of_nil. tauto.
  - pose proof (getitem_once_per_key (VInt n) st Hinv) as Hinv1.
    assert (Hsome : is_Some (vjoy_devices (snd (__getitem__ (VInt n) st)) !! n)
                    /\ (forall k, k <> n ->
                          vjoy_devices (snd (__getitem__ (VInt n) st)) !! k
                          = vjoy_devices st !! k)
                    /\ exists d, fst (__getitem__ (VInt n) st) = Return d).
    { destruct (vjoy_devices st !! n) as [device|] eqn:Hget.
      - rewrite (getitem_hit (VInt n) st device) by exact Hget.
        cbn [fst snd]. rewrite Hget. eauto.
      - rewrite (getitem_miss (VInt n) n st eq_refl eq_refl Hget).
        cbn [fst snd vjoy_devices]. rewrite lookup_insert_eq.
        split; [eauto|]. split; [|eauto].
        intros k Hk. now rewrite lookup_insert_ne by congruence. }
    destruct Hsome as (Hn & Hother & d & Hd).
    assert (Hstep : lookups (n :: ks) st = lookups ks (snd (__getitem__ (VInt n) st))).
    { unfold lookups. apply for_each_cons_return. unfold Py.bind, Py.ret.
      destruct (__getitem__ (VInt n) st) as [out st1]. cbn [fst snd] in *.
      now subst out. }
    rewrite Hstep.
    destruct (IH _ Hinv1) as (Hout & Hinv' & Hdom).
    split; [exact Hout|]. split; [exact Hinv'|].
    intros k. rewrite Hdom, elem_of_cons.
    destruct (decide (k = n)) as [->|Hne].
    + split; [auto|]. intros _. left. exact Hn.
    + rewrite (Hother k Hne). split; [tauto|]. intros [?|[?|?]]; tauto.
Qed.

End VJoyProxyProperties.

(** A lookup with a key that is no integer. *)
(** C3, as stated, fails: the error of a lookup with the string key
    ["1"] on the empty cache is not the domain error, which is what
    opening index 5 with one joystick connected raises. *)
Lemma vjoy_lookup_error_is_not_domain_error :
  ~ (forall (key : Value) (st : VJoyProxy.State),
       isinstance_int key = false ->
       dict_get (VJoyProxy.vjoy_devices st) key = None ->
       exists e, fst (VJoyProxy.__getitem__ key st) = Raise e /\ is_domain_error e)
  /\ exists e, fst (JoystickWrapper.__init__ sdl_one 5 {| JoystickWrapper.opened := [] |})
              = Raise e /\ is_domain_error e.
Proof.
  split.
  - intros Hclaim.
    destruct (Hclaim (VStr "1") VJoyProxy.initial eq_refl eq_refl) as (e & He & msg & ->).
    cbn in He. discriminate He.
  - eexists. split; [reflexivity|]. eexists. reflexivity.
Qed.

(** C3, amended.  For every key that is not an integer and is not
    cached, a lookup on the virtual joystick proxy fails with
    [TypeError("Integer ID expected")] and leaves the cache as it was;
    this built-in error is not the domain error [GremlinError]. *)
Theorem vjoy_lookup_non_integer_key (key : Value) (st : VJoyProxy.State) :
  isinstance_int key = false ->
  dict_get (VJoyProxy.vjoy_devices st) key = None ->
  VJoyProxy.__getitem__ key st = (Raise (TypeError "Integer ID expected"), st)
  /\ ~ is_domain_error (TypeError "Integer ID expected").
Proof.
  intros Hint Hmiss. split.
  - now apply getitem_not_integer.
  - intros [msg Hmsg]. discriminate Hmsg.
Qed.

(** The theorem at the string key ["1"] and the empty cache. *)
Lemma vjoy_lookup_non_integer_key_witness :
  VJoyProxy.__getitem__ (VStr "1") VJoyProxy.initial
  = (Raise (TypeError "Integer ID expected"), VJoyProxy.initial)
  /\ ~ is_domain_error (TypeError "Integer ID expected").
Proof.
  apply (vjoy_lookup_non_integer_key (VStr "1") VJoyProxy.initial); reflexivity.
Defined.

(** ** Physical joystick proxy *)

Section JoystickProxyProperties.
Import JoystickWrapper JoystickProxy.
Variable sdl : SDL.

Local Abbreviation instance_id := (SDL_JoystickInstanceID sdl).

Lemma joystick_getitem_hit (key : Value) (st : State) (joy : JoystickWrapper) :
  dict_get (joystick_devices st) key = Some joy ->
  __getitem__ sdl key st = (Return joy, st).
Proof. intros Hhit. unfold __getitem__. now rewrite Hhit. Qed.

(** One turn of the loop, for an index the constructor accepts. *)
Lemma open_and_store_ok (i : Z) (st : State) :
  (i <= SDL_NumJoysticks sdl)%Z ->
  open_and_store sdl i st
  = (Return tt,
     {| joystick_devices :=
          <[instance_id i := {| _joystick := i;
                                wrapper_oid := length (opened (sdl_opened st)) |}]>
            (joystick_devices st);
        sdl_opened := {| opened := opened (sdl_opened st) ++ [i] |} |}).
Proof.
  intros Hi. unfold open_and_store, Py.bind, construct, JoystickWrapper.__init__.
  destruct (Z.gtb_spec i (SDL_NumJoysticks sdl)) as [Hgt|_]; [lia|].
  reflexivity.
Qed.

(** The loop over a list of indices that the constructor accepts: every
    index is opened, in order; each wrapper is cached under its own
    instance id; keys that are no instance id of the list are untouched;
    no key is lost. *)
Lemma open_all (idxs : list Z) :
  Forall (fun i => (i <= SDL_NumJoysticks sdl)%Z) idxs ->
  forall st : State,
  exists st' : State,
    for_each idxs (open_and_store sdl) st = (Return tt, st')
    /\ opened (sdl_opened st') = opened (sdl_opened st) ++ idxs
    /\ (forall k, (forall i, i ∈ idxs -> instance_id i <> k) ->
          joystick_devices st' !! k = joystick_devices st !! k)
    /\ (forall i, i ∈ idxs ->
          exists joy, joystick_devices st' !! instance_id i = Some joy
                      /\ _joystick joy ∈ idxs
                      /\ windows_id sdl joy = instance_id i)
    /\ (forall k, is_Some (joystick_devices st !! k) ->
          is_Some (joystick_devices st' !! k)).
Proof.
  induction idxs as [|x idxs IH] using rev_ind; intros Hall st.
  - exists st. cbn. split; [reflexivity|]. split; [now rewrite app_nil_r|].
    split; [reflexivity|]. split; [|auto].
    intros i Hi. now apply elem_of_nil in Hi.
  - apply Forall_app in Hall as [Hall Hx]. apply Forall_cons in Hx as [Hx _].
    destruct (IH Hall st) as (st1 & Hrun & Hopen & Hother & Hids & Hmono).
    eexists. split.
    { rewrite (for_each_app idxs [x] _ st st1 Hrun).
      cbn [for_each]. unfold Py.bind.
      rewrite (open_and_store_ok x st1 Hx). reflexivity. }
    cbn [joystick_devices sdl_opened opened].
    split; [now rewrite Hopen, app_assoc|]. split; [|split].
    + intros k Hk. rewrite lookup_insert_ne.
      * apply Hother. intros i Hi. apply Hk. apply elem_of_app. now left.
      * apply Hk. apply elem_of_app. right. apply elem_of_cons. now left.
    + intros i Hi.
      destruct (decide (instance_id x = instance_id i)) as [Heq|Hne].
      * rewrite <- Heq, lookup_insert_eq. eexists. split; [reflexivity|].
        cbn [_joystick]. split; [|reflexivity].
        apply elem_of_app. right. apply elem_of_cons. now left.
      * rewrite lookup_insert_ne by exact Hne.
        apply elem_of_app in Hi as [Hi|Hi].
        -- destruct (Hids i Hi) as (joy & Hjoy & Hin & Hwid).
           exists joy. split; [exact Hjoy|]. split; [|exact Hwid].
           apply elem_of_app. now left.
        -- apply elem_of_cons in Hi as [->|Hi]; [contradiction|].
           now apply elem_of_nil in Hi.
    + intros k Hk. apply lookup_insert_is_Some'. right. now apply Hmono.
Qed.

Lemma connected_indices_accepted :
  Forall (fun i => (i <= SDL_NumJoysticks sdl)%Z) (seqZ 0 (SDL_NumJoysticks sdl)).
Proof. apply Forall_forall. intros i Hi. apply elem_of_seqZ in Hi. lia. Qed.

(** A miss with an integer key within the bound: the loop runs, and the
    lookup that follows decides the result. *)
Lemma joystick_getitem_miss (key : Value) (st : State) :
  dict_get (joystick_devices st) key = None ->
  type_is_int key = true ->
  (int_value key <= SDL_NumJoysticks sdl)%Z ->
  exists st' : State,
    for_each (seqZ 0 (SDL_NumJoysticks sdl)) (open_and_store sdl) st = (Return tt, st')
    /\ __getitem__ sdl key st
       = (match dict_get (joystick_devices st') key with
          | Some joy => Return joy
          | None => Raise (KeyError key)
          end, st').
Proof.
  intros Hmiss Htype Hbound.
  destruct (open_all _ connected_indices_accepted st) as (st' & Hrun & _).
  exists st'. split; [exact Hrun|].
  unfold __getitem__. rewrite Hmiss, Htype. cbn [negb].
  destruct (Z.gtb_spec (int_value key) (SDL_NumJoysticks sdl)) as [Hgt|_]; [lia|].
  unfold Py.bind at 1. rewrite Hrun.
  unfold Py.bind, get, Py.ret, raise.
  destruct (dict_get (joystick_devices st') key); reflexivity.
Qed.

(** No lookup removes a key from the cache. *)
Lemma joystick_getitem_keeps_keys (key : Value) (st : State) (k : Z) :
  is_Some (joystick_devices st !! k) ->
  is_Some (joystick_devices (snd (__getitem__ sdl key st)) !! k).
Proof.
  intros Hk.
  destruct (dict_get (joystick_devices st) key) as [joy|] eqn:Hget.
  - now rewrite (joystick_getitem_hit key st joy Hget).
  - destruct (type_is_int key) eqn:Htype.
    + destruct (Z.gtb_spec (int_value key) (SDL_NumJoysticks sdl)) as [Hgt|Hle].
      * unfold __getitem__. rewrite Hget, Htype. cbn [negb].
        destruct (Z.gtb_spec (int_value key) (SDL_NumJoysticks sdl)); [exact Hk|lia].
      * destruct (joystick_getitem_miss key st Hget Htype Hle) as (st' & Hrun & ->).
        cbn [snd].
        destruct (open_all _ connected_indices_accepted st) as (st2 & Hrun2 & _ & _ & _ & Hmono).
        rewrite Hrun in Hrun2. injection Hrun2 as <-. now apply Hmono.
    + unfold __getitem__. rewrite Hget, Htype. exact Hk.
Qed.

End JoystickProxyProperties.

Lemma dict_get_int {A : Type} (d : gmap Z A) (key : Value) :
  type_is_int key = true -> dict_get d key = d !! int_value key.
Proof. destruct key; cbn; intros Hk; try discriminate Hk; reflexivity. Qed.

(** C2, as stated, fails: with two joysticks connected (instance ids 0
    and 1) the key 2 is an integer that does not exceed the number of
    connected devices and is not cached, yet the lookup returns no entry;
    and after the key 1 has been looked up, a lookup of the key 2 is not
    served from the cache but opens the devices again. *)
Lemma joystick_lookup_miss_may_find_nothing :
  ~ (forall (sdl : SDL) (key : Value) (st : JoystickProxy.State),
       dict_get (JoystickProxy.joystick_devices st) key = None ->
       type_is_int key = true ->
       (int_value key <= SDL_NumJoysticks sdl)%Z ->
       exists joy st',
         JoystickProxy.__getitem__ sdl key st = (Return joy, st')
         /\ dict_get (JoystickProxy.joystick_devices st') key = Some joy)
  /\ ~ (forall (sdl : SDL) (key later : Value) (st : JoystickProxy.State),
          dict_get (JoystickProxy.joystick_devices st) key = None ->
          type_is_int key = true ->
          (int_value key <= SDL_NumJoysticks sdl)%Z ->
          let st' := snd (JoystickProxy.__getitem__ sdl key st) in
          JoystickWrapper.opened
            (JoystickProxy.sdl_opened (snd (JoystickProxy.__getitem__ sdl later st')))
          = JoystickWrapper.opened (JoystickProxy.sdl_opened st')).
Proof.
  split.
  - intros Hclaim.
    destruct (Hclaim sdl_two (VInt 2) JoystickProxy.initial eq_refl eq_refl)
      as (joy & st' & Hget & _).
    + cbn. lia.
    + vm_compute in Hget. discriminate Hget.
  - intros Hclaim.
    assert (Hbound : (int_value (VInt 1) <= SDL_NumJoysticks sdl_two)%Z) by (cbn; lia).
    pose proof (Hclaim sdl_two (VInt 1) (VInt 2) JoystickProxy.initial
                  eq_refl eq_refl Hbound) as Hsame.
    vm_compute in Hsame. discriminate Hsame.
Qed.

(** C2, amended.  For every lookup on the physical joystick proxy with a
    key that is not cached: it fails with [TypeError] if the key is not an
    integer; it fails with the domain error if the integer key exceeds the
    number of connected devices; otherwise it opens every connected
    device once, in index order, caches each wrapper under that wrapper's
    instance id, touches no other key and, when the key is the instance id
    of a connected device, returns the cache entry for the key; after
    that, every lookup of a key that is in the cache is served from the
    cache and opens no device. *)
Theorem joystick_lookup_on_miss (sdl : SDL) (key : Value) (st : JoystickProxy.State) :
  dict_get (JoystickProxy.joystick_devices st) key = None ->
  (type_is_int key = false ->
     JoystickProxy.__getitem__ sdl key st = (Raise (TypeError "Integer ID expected"), st))
  /\ (type_is_int key = true ->
      (int_value key > SDL_NumJoysticks sdl)%Z ->
      JoystickProxy.__getitem__ sdl key st
      = (Raise (GremlinError "No device with the provided ID exist"), st))
  /\ (type_is_int key = true ->
      (int_value key <= SDL_NumJoysticks sdl)%Z ->
      exists st' : JoystickProxy.State,
        snd (JoystickProxy.__getitem__ sdl key st) = st'
        /\ JoystickWrapper.opened (JoystickProxy.sdl_opened st')
           = JoystickWrapper.opened (JoystickProxy.sdl_opened st)
             ++ seqZ 0 (SDL_NumJoysticks sdl)
        /\ (forall i, (0 <= i < SDL_NumJoysticks sdl)%Z ->
              exists joy,
                JoystickProxy.joystick_devices st' !! SDL_JoystickInstanceID sdl i = Some joy
                /\ (0 <= JoystickWrapper._joystick joy < SDL_NumJoysticks sdl)%Z
                /\ JoystickWrapper.windows_id sdl joy = SDL_JoystickInstanceID sdl i)
        /\ (forall k, (forall i, (0 <= i < SDL_NumJoysticks sdl)%Z ->
                                 SDL_JoystickInstanceID sdl i <> k) ->
              JoystickProxy.joystick_devices st' !! k
              = JoystickProxy.joystick_devices st !! k)
        /\ (forall i, (0 <= i < SDL_NumJoysticks sdl)%Z ->
              SDL_JoystickInstanceID sdl i = int_value key ->
              exists joy,
                JoystickProxy.__getitem__ sdl key st = (Return joy, st')
                /\ JoystickProxy.joystick_devices st' !! int_value key = Some joy
                /\ JoystickWrapper.windows_id sdl joy = int_value key)
        /\ (forall (sdl' : SDL) (key' : Value) joy,
              dict_get (JoystickProxy.joystick_devices st') key' = Some joy ->
              JoystickProxy.__getitem__ sdl' key' st' = (Return joy, st'))).
Proof.
  intros Hmiss. split; [|split].
  - intros Htype. unfold JoystickProxy.__getitem__. now rewrite Hmiss, Htype.
  - intros Htype Hgt. unfold JoystickProxy.__getitem__. rewrite Hmiss, Htype.
    cbn [negb].
    destruct (Z.gtb_spec (int_value key) (SDL_NumJoysticks sdl)); [reflexivity|lia].
  - intros Htype Hle.
    destruct (joystick_getitem_miss sdl key st Hmiss Htype Hle) as (st' & Hrun & Hget).
    destruct (open_all sdl _ (connected_indices_accepted sdl) st)
      as (st2 & Hrun2 & Hopen & Hother & Hids & _).
    rewrite Hrun in Hrun2. injection Hrun2 as <-.
    exists st'. split; [now rewrite Hget|]. split; [exact Hopen|].
    split; [|split; [|split]].
    + intros i Hi.
      destruct (Hids i) as (joy & Hjoy & Hin & Hwid); [apply elem_of_seqZ; lia|].
      exists joy. split; [exact Hjoy|]. split; [|exact Hwid].
      apply elem_of_seqZ in Hin. lia.
    + intros k Hk. apply Hother. intros i Hi. apply Hk.
      apply elem_of_seqZ in Hi. lia.
    + intros i Hi Hid.
      destruct (Hids i) as (joy & Hjoy & _ & Hwid); [apply elem_of_seqZ; lia|].
      rewrite Hid in Hjoy, Hwid.
      exists joy. split; [|split; [exact Hjoy | exact Hwid]].
      rewrite Hget, (dict_get_int _ key Htype), Hjoy. reflexivity.
    + intros sdl' key' joy Hhit. now apply joystick_getitem_hit.
Qed.

(** The theorem at the empty cache with two joysticks connected: a string
    key, the key 3 and the key 1. *)
Lemma joystick_lookup_on_miss_witness :
  JoystickProxy.__getitem__ sdl_two (VStr "0") JoystickProxy.initial
  = (Raise (TypeError "Integer ID expected"), JoystickProxy.initial)
  /\ JoystickProxy.__getitem__ sdl_two (VInt 3) JoystickProxy.initial
     = (Raise (GremlinError "No device with the provided ID exist"), JoystickProxy.initial)
  /\ exists joy,
       fst (JoystickProxy.__getitem__ sdl_two (VInt 1) JoystickProxy.initial) = Return joy
       /\ JoystickWrapper.windows_id sdl_two joy = 1%Z
       /\ JoystickWrapper.opened
            (JoystickProxy.sdl_opened
               (snd (JoystickProxy.__getitem__ sdl_two (VInt 1) JoystickProxy.initial)))
          = [0; 1]%Z.
Proof.
  split; [|split].
  - apply (joystick_lookup_on_miss sdl_two (VStr "0") JoystickProxy.initial); reflexivity.
  - apply (joystick_lookup_on_miss sdl_two (VInt 3) JoystickProxy.initial);
      [reflexivity | reflexivity | cbn; lia].
  - destruct (joystick_lookup_on_miss sdl_two (VInt 1) JoystickProxy.initial eq_refl)
      as (_ & _ & Hrun).
    destruct Hrun as (st' & Hst & Hopen & _ & _ & Hret & _);
      [reflexivity | cbn; lia |].
    destruct (Hret 1%Z) as (joy & Hget & _ & Hwid); [cbn; lia | reflexivity |].
    exists joy. rewrite Hst, Hget. cbn [fst]. split; [reflexivity|].
    split; [exact Hwid | exact Hopen].
Defined.

(** ** Cached instances *)

(** C4, as stated, fails for the physical proxy: with one joystick
    connected the key 0 is looked up and cached; a second joystick is then
    connected and the key 1 is looked up, which misses and opens both
    joysticks again; the next lookup of the key 0 returns another wrapper
    object than the first one did. *)
Lemma joystick_lookup_replaces_cached_entry :
  ~ (forall (sdl1 sdl2 : SDL) (key other : Value) (st : JoystickProxy.State)
            (joy1 joy3 : JoystickWrapper.JoystickWrapper),
       let st1 := snd (JoystickProxy.__getitem__ sdl1 key st) in
       let st2 := snd (JoystickProxy.__getitem__ sdl2 other st1) in
       fst (JoystickProxy.__getitem__ sdl1 key st) = Return joy1 ->
       fst (JoystickProxy.__getitem__ sdl2 key st2) = Return joy3 ->
       joy3 = joy1).
Proof.
  intros Hclaim.
  specialize (Hclaim sdl_one sdl_two (VInt 0) (VInt 1) JoystickProxy.initial
                {| JoystickWrapper._joystick := 0; JoystickWrapper.wrapper_oid := 0 |}
                {| JoystickWrapper._joystick := 0; JoystickWrapper.wrapper_oid := 1 |}).
  cbv zeta in Hclaim.
  assert (Hfirst : fst (JoystickProxy.__getitem__ sdl_one (VInt 0) JoystickProxy.initial)
                   = Return {| JoystickWrapper._joystick := 0;
                               JoystickWrapper.wrapper_oid := 0 |})
    by (vm_compute; reflexivity).
  specialize (Hclaim Hfirst).
  assert (Hthird : fst (JoystickProxy.__getitem__ sdl_two (VInt 0)
                          (snd (JoystickProxy.__getitem__ sdl_two (VInt 1)
                                  (snd (JoystickProxy.__getitem__ sdl_one (VInt 0)
                                          JoystickProxy.initial)))))
                   = Return {| JoystickWrapper._joystick := 0;
                               JoystickWrapper.wrapper_oid := 1 |})
    by (vm_compute; reflexivity).
  specialize (Hclaim Hthird). discriminate Hclaim.
Qed.

Lemma once_per_key_initial : once_per_key VJoyProxy.initial.
Proof. intros k. reflexivity. Qed.

(** C4, amended.  On the virtual joystick proxy, for every integer key,
    repeated lookups with the same key return the identical cached
    instance; no lookup replaces or removes a cached entry; and over any
    run of lookups the handle of each distinct key is constructed exactly
    once.  On the physical joystick proxy, a lookup with a cached key
    returns the cached instance and changes nothing, and no lookup removes
    a key from the cache. *)
Theorem proxy_lookup_cached_instance :
  (forall (key : Value) (st : VJoyProxy.State),
     isinstance_int key = true ->
     exists device st1,
       VJoyProxy.__getitem__ key st = (Return device, st1)
       /\ VJoyProxy.__getitem__ key st1 = (Return device, st1))
  /\ (forall (key : Value) (st : VJoyProxy.State) (k : Z) (d : VJoyProxy.VJoy),
        VJoyProxy.vjoy_devices st !! k = Some d ->
        VJoyProxy.vjoy_devices (snd (VJoyProxy.__getitem__ key st)) !! k = Some d)
  /\ (forall (ks : list Z) (k : Z),
        fst (lookups ks VJoyProxy.initial) = Return tt
        /\ constructions_for k (snd (lookups ks VJoyProxy.initial))
           = if bool_decide (k ∈ ks) then 1%nat else 0%nat)
  /\ (forall (sdl : SDL) (key : Value) (st : JoystickProxy.State) joy,
        dict_get (JoystickProxy.joystick_devices st) key = Some joy ->
        JoystickProxy.__getitem__ sdl key st = (Return joy, st))
  /\ (forall (sdl : SDL) (key : Value) (st : JoystickProxy.State) (k : Z),
        is_Some (JoystickProxy.joystick_devices st !! k) ->
        is_Some (JoystickProxy.joystick_devices
                   (snd (JoystickProxy.__getitem__ sdl key st)) !! k)).
Proof.
  split; [|split; [|split; [|split]]].
  - intros key st Hint.
    destruct (isinstance_int_key key Hint) as [n Hn].
    destruct (VJoyProxy.vjoy_devices st !! n) as [device|] eqn:Hget.
    + exists device, st.
      assert (Hhit : dict_get (VJoyProxy.vjoy_devices st) key = Some device)
        by (unfold dict_get; now rewrite Hn).
      split; now apply getitem_hit.
    + rewrite (getitem_miss key n st Hn Hint Hget).
      eexists. eexists. split; [reflexivity|].
      apply getitem_hit. cbn [VJoyProxy.vjoy_devices]. unfold dict_get.
      rewrite Hn. apply lookup_insert_eq.
  - intros key st k d. apply getitem_keeps_entries.
  - intros ks k.
    destruct (lookups_run ks VJoyProxy.initial once_per_key_initial)
      as (Hout & Hinv & Hdom).
    split; [exact Hout|]. rewrite (Hinv k).
    specialize (Hdom k).
    destruct (VJoyProxy.vjoy_devices (snd (lookups ks VJoyProxy.initial)) !! k) as [d|].
    + destruct Hdom as [[Habs|Hin] _]; [eauto| |].
      * cbn in Habs. rewrite lookup_empty in Habs. now destruct Habs.
      * now rewrite bool_decide_eq_true_2.
    + rewrite bool_decide_eq_false_2; [reflexivity|].
      intros Hin. destruct Hdom as [_ Hdom].
      destruct Hdom as [x Hx]; [now right | discriminate Hx].
  - intros sdl key st joy. apply joystick_getitem_hit.
  - intros sdl key st k. apply joystick_getitem_keeps_keys.
Qed.

(** The theorem at the key 1 of the virtual proxy and the key 0 of the
    physical proxy. *)
Lemma proxy_lookup_cached_instance_witness :
  (exists device st1,
     VJoyProxy.__getitem__ (VInt 1) VJoyProxy.initial = (Return device, st1)
     /\ VJoyProxy.__getitem__ (VInt 1) st1 = (Return device, st1))
  /\ JoystickProxy.__getitem__ sdl_two (VInt 0)
       (snd (JoystickProxy.__getitem__ sdl_two (VInt 0) JoystickProxy.initial))
     = (Return {| JoystickWrapper._joystick := 0; JoystickWrapper.wrapper_oid := 0 |},
        snd (JoystickProxy.__getitem__ sdl_two (VInt 0) JoystickProxy.initial)).
Proof.
  pose proof proxy_lookup_cached_instance as (Hvjoy & _ & _ & Hjoy & _).
  split.
  - apply (Hvjoy (VInt 1) VJoyProxy.initial). reflexivity.
  - apply Hjoy. vm_compute. reflexivity.
Defined.

(** * Further properties *)

(** ** Clamping and squashing *)

Section SignalProperties.
Local Open Scope Q_scope.

(** [clamp] with the bounds in order. *)
Lemma clamp_ordered (value lo hi : Q) :
  lo <= hi -> signal.clamp value lo hi = clamped lo hi value \/
              (signal.clamp value lo hi == clamped lo hi value).
Proof.
  intros Hle. unfold signal.clamp. cbn [num_lt Q_number].
  assert (Hb : Qle_bool lo hi = true) by now apply Qle_bool_iff.
  rewrite Hb. cbn [negb].
  unfold py_min, py_max, clamped. cbn [num_lt Q_number].
  destruct (Qle_bool value lo) eqn:E0; cbn [negb].
  - destruct (Qle_bool hi lo) eqn:E1; cbn [negb]; [|now left].
    right. apply Qle_bool_iff in E1. now apply Qle_antisym.
  - destruct (Qle_bool hi value) eqn:E1; cbn [negb]; now left.
Qed.

Lemma clamp_swap (value a b : Q) :
  b < a -> signal.clamp value a b = signal.clamp value b a.
Proof.
  intros Hlt. unfold signal.clamp. cbn [num_lt Q_number].
  assert (H1 : Qle_bool a b = false) by now apply Qle_bool_false.
  assert (H2 : Qle_bool b a = true) by (apply Qle_bool_iff; now apply Qlt_le_weak).
  now rewrite H1, H2.
Qed.

(** X1.  [clamp] never fails on reversed bounds: whichever way round the
    two bounds are given, the result lies between the smaller and the
    larger one, it is the value itself when the value lies between them,
    and it is the nearer bound otherwise. *)
Theorem clamp_within_bounds (value a b : Q) :
  Qmin a b <= signal.clamp value a b <= Qmax a b
  /\ (Qmin a b <= value <= Qmax a b -> signal.clamp value a b == value)
  /\ (value <= Qmin a b -> signal.clamp value a b == Qmin a b)
  /\ (Qmax a b <= value -> signal.clamp value a b == Qmax a b)
  /\ signal.clamp value a b == signal.clamp value b a.
Proof.
  assert (Hord : forall lo hi, lo <= hi ->
            signal.clamp value lo hi == clamped lo hi value).
  { intros lo hi Hle.
    destruct (clamp_ordered value lo hi Hle) as [E|E]; [rewrite E; reflexivity | exact E]. }
  assert (Hval : forall lo hi, lo <= hi ->
            lo <= clamped lo hi value <= hi
            /\ (lo <= value <= hi -> clamped lo hi value == value)
            /\ (value <= lo -> clamped lo hi value == lo)
            /\ (hi <= value -> clamped lo hi value == hi)).
  { intros lo hi Hle. split; [now apply clamped_range|].
    unfold clamped.
    destruct (Qle_bool value lo) eqn:E0.
    - apply Qle_bool_iff in E0. repeat split; intros; try reflexivity; lra.
    - apply Qle_bool_false in E0.
      destruct (Qle_bool hi value) eqn:E1.
      + apply Qle_bool_iff in E1. repeat split; intros; try reflexivity; lra.
      + apply Qle_bool_false in E1. repeat split; intros; try reflexivity; lra. }
  destruct (Qlt_le_dec b a) as [Hlt|Hle].
  - rewrite (clamp_swap value a b Hlt).
    assert (Hba : b <= a) by now apply Qlt_le_weak.
    rewrite (Q.min_r a b Hba), (Q.max_l a b Hba), (Hord b a Hba).
    destruct (Hval b a Hba) as (H1 & H2 & H3 & H4).
    repeat split; try tauto; reflexivity.
  - rewrite (Q.min_l a b Hle), (Q.max_r a b Hle), (Hord a b Hle).
    destruct (Hval a b Hle) as (H1 & H2 & H3 & H4).
    repeat split; try tauto.
    destruct (Qlt_le_dec a b) as [Hlt|Hge].
    + rewrite (clamp_swap value b a Hlt). now rewrite (Hord a b Hle).
    + rewrite (Hord b a Hge).
      assert (Heq : a == b) by now apply Qle_antisym.
      destruct (Hval b a Hge) as (G1 & G2 & G3 & G4).
      destruct (Qlt_le_dec value a) as [Hva|Hav].
      * rewrite H3, G3 by lra. exact Heq.
      * rewrite H4, G4 by lra. symmetry. exact Heq.
Qed.

(** The theorem at the reversed bounds 10 and 1. *)
Lemma clamp_within_bounds_witness :
  signal.clamp 5 10 1 == 5 /\ signal.clamp (-3) 10 1 == 1 /\ signal.clamp 15 10 1 == 10.
Proof.
  destruct (clamp_within_bounds 5 10 1) as (_ & Hin & _).
  destruct (clamp_within_bounds (-3) 10 1) as (_ & _ & Hlow & _).
  destruct (clamp_within_bounds 15 10 1) as (_ & _ & _ & Hhigh & _).
  split; [|split].
  - apply Hin. split; intro Hc; discriminate Hc.
  - rewrite Hlow; [reflexivity | intro Hc; discriminate Hc].
  - rewrite Hhigh; [reflexivity | intro Hc; discriminate Hc].
Defined.

(** X2.  [squash] rescales a response curve so that its values at -1
    and at 1 are exactly 2 apart; it raises [ZeroDivisionError] for every
    value when the curve takes the same value at -1 and at 1. *)
Theorem squash_span (function : Q -> Q) :
  (~ function (-1) == function 1 ->
   exists low high,
     signal.squash (-1) function = Return low
     /\ signal.squash 1 function = Return high
     /\ Qabs (high - low) == 2)
  /\ (function (-1) == function 1 ->
      forall value, exists msg,
        signal.squash value function = Raise (ZeroDivisionError msg)).
Proof.
  split.
  - intros Hne.
    assert (Hd : ~ Qabs (function (-1) - function 1) == 0).
    { intros Habs. apply Hne.
      destruct (Qlt_le_dec (function (-1) - function 1) 0) as [Hn|Hp].
      - rewrite Qabs_neg in Habs by lra. lra.
      - rewrite (Qabs_pos _ Hp) in Habs. lra. }
    unfold signal.squash. cbn [num_mul num_abs num_sub of_int Q_number Q_number_mul].
    change (inject_Z (-1)) with (-1). change (inject_Z 1) with 1.
    change (inject_Z 2) with 2.
    rewrite !truediv_Q_nonzero by exact Hd.
    eexists. eexists. split; [reflexivity|]. split; [reflexivity|].
    set (d := Qabs (function (-1) - function 1)) in *.
    assert (Hrew : 2 * function 1 / d - 2 * function (-1) / d
                   == 2 * ((function 1 - function (-1)) / d)) by (field; exact Hd).
    rewrite Hrew, Qabs_Qmult.
    assert (Hnum : Qabs (function 1 - function (-1)) == d).
    { unfold d. rewrite <- Qabs_opp. apply Qabs_wd. ring. }
    unfold Qdiv. rewrite Qabs_Qmult, Hnum.
    assert (Hdpos : 0 <= d) by apply Qabs_nonneg.
    rewrite (Qabs_pos (/ d)) by now apply Qinv_le_0_compat.
    change (Qabs 2) with 2. field. exact Hd.
  - intros Heq value. eexists.
    unfold signal.squash, truediv.
    cbn [num_mul num_abs num_sub of_int num_is_zero Q_number Q_number_mul].
    change (inject_Z (-1)) with (-1). change (inject_Z 1) with 1.
    assert (Hz : Qeq_bool (Qabs (function (-1) - function 1)) 0 = true).
    { apply Qeq_bool_iff.
      assert (Hzero : function (-1) - function 1 == 0) by lra.
      rewrite (Qabs_wd _ _ Hzero). reflexivity. }
    rewrite Hz. reflexivity.
Qed.

(** The theorem at the cubic curve and at a constant curve. *)
Lemma squash_span_witness :
  (exists low high,
     signal.squash (-1) (fun x => x * x * x) = Return low
     /\ signal.squash 1 (fun x => x * x * x) = Return high
     /\ Qabs (high - low) == 2)
  /\ exists msg, signal.squash (1 # 2) (fun _ => 3) = Raise (ZeroDivisionError msg).
Proof.
  split.
  - apply (proj1 (squash_span (fun x => x * x * x))). intro Hc. discriminate Hc.
  - apply (proj2 (squash_span (fun _ => 3))). reflexivity.
Defined.

End SignalProperties.

(** ** Shape of the deadzone mapping *)

Section DeadzoneShape.
Local Open Scope Q_scope.

Lemma Qabs_gap_pos (x y : Q) : x < y -> 0 < Qabs (y - x) /\ Qabs (y - x) == y - x.
Proof.
  intros Hlt. assert (Hpos : 0 <= y - x) by lra.
  rewrite (Qabs_pos _ Hpos). split; [lra | reflexivity].
Qed.

Lemma Qabs_gap_pos_rev (x y : Q) : x < y -> 0 < Qabs (x - y) /\ Qabs (x - y) == y - x.
Proof.
  intros Hlt. assert (Hneg : x - y <= 0) by lra.
  rewrite (Qabs_neg _ Hneg). split; [lra | ring].
Qed.

(** The two branches of [deadzone], each under the part of the
    precondition it needs. *)
Lemma deadzone_upper (value low low_center high_center high : Q) :
  high_center < high -> 0 <= value ->
  input_devices.deadzone value low low_center high_center high
  = Return (clamped 0 1 ((value - high_center) / Qabs (high - high_center))).
Proof.
  intros Hhc Hv. unfold input_devices.deadzone.
  cbn [num_ge of_int num_sub num_abs Q_number]. change (inject_Z 0) with 0.
  apply Qle_bool_iff in Hv. rewrite Hv.
  rewrite truediv_Q_nonzero by (apply Qabs_gap_nonzero; exact Hhc).
  cbn [and_then]. now rewrite min_max_unit.
Qed.

Lemma deadzone_lower (value low low_center high_center high : Q) :
  low < low_center -> value < 0 ->
  input_devices.deadzone value low low_center high_center high
  = Return (clamped (-1) 0 ((value - low_center) / Qabs (low - low_center))).
Proof.
  intros Hlc Hv. unfold input_devices.deadzone.
  cbn [num_ge of_int num_sub num_abs Q_number]. change (inject_Z 0) with 0.
  apply Qle_bool_false in Hv. rewrite Hv.
  rewrite truediv_Q_nonzero by (apply Qabs_gap_nonzero_rev; exact Hlc).
  cbn [and_then]. now rewrite max_min_unit.
Qed.

Lemma clamped_low (lo hi x : Q) : x <= lo -> clamped lo hi x = lo.
Proof. intros Hx. unfold clamped. apply Qle_bool_iff in Hx. now rewrite Hx. Qed.

Lemma clamped_high (lo hi x : Q) : lo < x -> hi <= x -> clamped lo hi x = hi.
Proof.
  intros Hlo Hhi. unfold clamped.
  apply Qle_bool_false in Hlo. apply Qle_bool_iff in Hhi. now rewrite Hlo, Hhi.
Qed.

Lemma clamped_monotone (lo hi x y : Q) :
  lo <= hi -> x <= y -> clamped lo hi x <= clamped lo hi y.
Proof.
  intros Hlh Hxy. unfold clamped.
  destruct (Qle_bool x lo) eqn:Ex, (Qle_bool y lo) eqn:Ey;
    try apply Qle_bool_iff in Ex; try apply Qle_bool_iff in Ey;
    try apply Qle_bool_false in Ex; try apply Qle_bool_false in Ey;
    try lra;
    destruct (Qle_bool hi x) eqn:Fx, (Qle_bool hi y) eqn:Fy;
    try apply Qle_bool_iff in Fx; try apply Qle_bool_iff in Fy;
    try apply Qle_bool_false in Fx; try apply Qle_bool_false in Fy;
    lra.
Qed.

Lemma Qdiv_le_compat (a b d : Q) : 0 < d -> a <= b -> a / d <= b / d.
Proof.
  intros Hd Hab. unfold Qdiv. apply Qmult_le_compat_r; [exact Hab|].
  apply Qinv_le_0_compat. lra.
Qed.

(** X3.  Under the documented relationship of the limits, every value
    inside the centre band from [low_center] to [high_center] is mapped
    to 0, every value at or above [high] to 1 and every value at or below
    [low] to -1. *)
Theorem deadzone_band_and_saturation (value low low_center high_center high : Q) :
  -1 <= low -> low < low_center -> low_center <= 0 ->
  0 <= high_center -> high_center < high -> high <= 1 ->
  (low_center <= value <= high_center ->
     input_devices.deadzone value low low_center high_center high = Return 0)
  /\ (high <= value ->
      input_devices.deadzone value low low_center high_center high = Return 1)
  /\ (value <= low ->
      input_devices.deadzone value low low_center high_center high = Return (-1)).
Proof.
  intros Hlow Hlc Hlc0 Hhc0 Hhc Hhigh.
  destruct (Qabs_gap_pos high_center high Hhc) as [Hdpos Hd].
  destruct (Qabs_gap_pos_rev low low_center Hlc) as [Hepos He].
  split; [|split].
  - intros [Hvl Hvh]. destruct (Qlt_le_dec value 0) as [Hneg|Hpos].
    + rewrite (deadzone_lower _ _ _ _ _ Hlc Hneg). f_equal.
      unfold clamped.
      assert (H0 : 0 <= (value - low_center) / Qabs (low - low_center)).
      { apply Qle_shift_div_l; [exact Hepos | lra]. }
      assert (E1 : Qle_bool ((value - low_center) / Qabs (low - low_center)) (-1) = false)
        by (apply Qle_bool_false; lra).
      apply Qle_bool_iff in H0. now rewrite E1, H0.
    + rewrite (deadzone_upper _ _ _ _ _ Hhc Hpos). f_equal.
      apply clamped_low. apply Qle_shift_div_r; [exact Hdpos | lra].
  - intros Hv. rewrite deadzone_upper by (exact Hhc || lra). f_equal.
    assert (H1 : 1 <= (value - high_center) / Qabs (high - high_center)).
    { apply Qle_shift_div_l; [exact Hdpos | lra]. }
    apply clamped_high; lra.
  - intros Hv. rewrite deadzone_lower by (exact Hlc || lra). f_equal.
    apply clamped_low. apply Qle_shift_div_r; [exact Hepos | lra].
Qed.

(** The theorem at the limits -1, -1/5, 1/5, 1. *)
Lemma deadzone_band_and_saturation_witness :
  input_devices.deadzone (1 # 10) (-1) (-1 # 5) (1 # 5) 1 = Return 0
  /\ input_devices.deadzone (-1 # 10) (-1) (-1 # 5) (1 # 5) 1 = Return 0.
Proof.
  assert (H1 : -1 <= -1) by (apply Qle_refl).
  assert (H2 : -1 < -1 # 5) by reflexivity.
  assert (H3 : -1 # 5 <= 0) by (intro Hc; discriminate Hc).
  assert (H4 : 0 <= 1 # 5) by (intro Hc; discriminate Hc).
  assert (H5 : 1 # 5 < 1) by reflexivity.
  assert (H6 : 1 <= 1) by (apply Qle_refl).
  split.
  - apply (proj1 (deadzone_band_and_saturation (1 # 10) _ _ _ _ H1 H2 H3 H4 H5 H6)).
    split; intro Hc; discriminate Hc.
  - apply (proj1 (deadzone_band_and_saturation (-1 # 10) _ _ _ _ H1 H2 H3 H4 H5 H6)).
    split; intro Hc; discriminate Hc.
Defined.

(** X4.  Under the documented relationship of the limits, [deadzone]
    never fails and is monotone: a larger input never gives a smaller
    output. *)
Theorem deadzone_monotone (v1 v2 low low_center high_center high : Q) :
  -1 <= low -> low < low_center -> low_center <= 0 ->
  0 <= high_center -> high_center < high -> high <= 1 ->
  v1 <= v2 ->
  exists r1 r2,
    input_devices.deadzone v1 low low_center high_center high = Return r1
    /\ input_devices.deadzone v2 low low_center high_center high = Return r2
    /\ r1 <= r2.
Proof.
  intros Hlow Hlc Hlc0 Hhc0 Hhc Hhigh Hv.
  destruct (Qabs_gap_pos high_center high Hhc) as [Hdpos _].
  destruct (Qabs_gap_pos_rev low low_center Hlc) as [Hepos _].
  assert (U : (0 <= 1)%Q) by (intro Hc; discriminate Hc).
  assert (L : (-1 <= 0)%Q) by (intro Hc; discriminate Hc).
  destruct (Qlt_le_dec v1 0) as [Hn1|Hp1], (Qlt_le_dec v2 0) as [Hn2|Hp2].
  - rewrite (deadzone_lower v1 _ _ _ _ Hlc Hn1), (deadzone_lower v2 _ _ _ _ Hlc Hn2).
    eexists. eexists. split; [reflexivity|]. split; [reflexivity|].
    apply clamped_monotone; [exact L|]. apply Qdiv_le_compat; [exact Hepos | lra].
  - rewrite (deadzone_lower v1 _ _ _ _ Hlc Hn1), (deadzone_upper v2 _ _ _ _ Hhc Hp2).
    eexists. eexists. split; [reflexivity|]. split; [reflexivity|].
    pose proof (clamped_range (-1) 0 ((v1 - low_center) / Qabs (low - low_center)) L).
    pose proof (clamped_range 0 1 ((v2 - high_center) / Qabs (high - high_center)) U).
    lra.
  - lra.
  - rewrite (deadzone_upper v1 _ _ _ _ Hhc Hp1), (deadzone_upper v2 _ _ _ _ Hhc Hp2).
    eexists. eexists. split; [reflexivity|]. split; [reflexivity|].
    apply clamped_monotone; [exact U|]. apply Qdiv_le_compat; [exact Hdpos | lra].
Qed.

(** The theorem at the inputs -1/2 and 1/2 with the limits -1, -1/5, 1/5, 1. *)
Lemma deadzone_monotone_witness :
  exists r1 r2,
    input_devices.deadzone (-1 # 2) (-1) (-1 # 5) (1 # 5) 1 = Return r1
    /\ input_devices.deadzone (1 # 2) (-1) (-1 # 5) (1 # 5) 1 = Return r2
    /\ r1 <= r2.
Proof.
  apply (deadzone_monotone (-1 # 2) (1 # 2) (-1) (-1 # 5) (1 # 5) 1).
  - apply Qle_refl.
  - reflexivity.
  - intro Hc; discriminate Hc.
  - intro Hc; discriminate Hc.
  - reflexivity.
  - apply Qle_refl.
  - intro Hc; discriminate Hc.
Defined.

End DeadzoneShape.

(** ** Hardware ids and axis readings *)

Section IdsAndAxes.
Local Open Scope Z_scope.

Lemma byte_to_N_inj (x y : byte) : Byte.to_N x = Byte.to_N y -> x = y.
Proof.
  intros Heq. pose proof (Byte.of_to_N x) as Hx. pose proof (Byte.of_to_N y) as Hy.
  rewrite Heq in Hx. congruence.
Qed.

Lemma be_word_inj (b0 b1 b2 b3 c0 c1 c2 c3 : byte) :
  be_word b0 b1 b2 b3 = be_word c0 c1 c2 c3 ->
  b0 = c0 /\ b1 = c1 /\ b2 = c2 /\ b3 = c3.
Proof.
  unfold be_word. intros Heq.
  pose proof (byte_range b0). pose proof (byte_range b1).
  pose proof (byte_range b2). pose proof (byte_range b3).
  pose proof (byte_range c0). pose proof (byte_range c1).
  pose proof (byte_range c2). pose proof (byte_range c3).
  change (2 ^ 24) with 16777216 in Heq. change (2 ^ 16) with 65536 in Heq.
  change (2 ^ 8) with 256 in Heq.
  repeat split; apply byte_to_N_inj; lia.
Qed.

(** X5.  Two 16 byte GUIDs reduce to the same hardware id exactly when
    their first four bytes agree: nothing of the leading word is lost, and
    nothing of the other twelve bytes is kept. *)
Theorem guid_to_number_same_id (guid guid' : list byte) :
  length guid = 16%nat -> length guid' = 16%nat ->
  util.guid_to_number guid = util.guid_to_number guid' <-> take 4 guid = take 4 guid'.
Proof.
  intros Hlen Hlen'.
  destruct (guid_split guid Hlen) as (b0 & b1 & b2 & b3 & rest & -> & Hrest).
  destruct (guid_split guid' Hlen') as (c0 & c1 & c2 & c3 & rest' & -> & Hrest').
  rewrite !guid_to_number_cons4 by assumption. cbn [take].
  split.
  - intros Heq. injection Heq as Heq.
    destruct (be_word_inj _ _ _ _ _ _ _ _ Heq) as (-> & -> & -> & ->). reflexivity.
  - intros Heq. injection Heq as -> -> -> ->. reflexivity.
Qed.

(** The theorem at two GUIDs that share their leading word only. *)
Lemma guid_to_number_same_id_witness :
  util.guid_to_number guid_low_tail = util.guid_to_number guid_high_tail.
Proof.
  apply (guid_to_number_same_id guid_low_tail guid_high_tail); reflexivity.
Defined.

(** X6.  Within the 16 bit range no two raw readings are reported as
    the same axis value: equal results of [JoystickWrapper.axis], in
    binary64, come from equal raw values. *)
Theorem axis_distinguishes_raw_values (sdl : SDL)
    (self : JoystickWrapper.JoystickWrapper) (index1 index2 : Z) :
  let raw1 := SDL_JoystickGetAxis sdl (JoystickWrapper._joystick self) (index1 - 1) in
  let raw2 := SDL_JoystickGetAxis sdl (JoystickWrapper._joystick self) (index2 - 1) in
  -32768 <= raw1 <= 32767 -> -32768 <= raw2 <= 32767 ->
  JoystickWrapper.axis (N := float) sdl self index1
  = JoystickWrapper.axis sdl self index2 ->
  raw1 = raw2.
Proof.
  intros raw1 raw2 H1 H2 Heq.
  pose proof (axis_value_ok_range raw1 H1) as Hok1.
  pose proof (axis_value_ok_range raw2 H2) as Hok2.
  unfold axis_value_ok in Hok1, Hok2. unfold JoystickWrapper.axis in Heq.
  fold raw1 raw2 in Heq.
  destruct (truediv (of_int raw1) (of_int 32768)) as [r1|e1]; [|discriminate Hok1].
  destruct (truediv (of_int raw2) (of_int 32768)) as [r2|e2]; [|discriminate Hok2].
  injection Heq as ->.
  destruct (float_to_Q r2) as [q|]; [|discriminate Hok1].
  apply andb_prop in Hok1 as [Hok1 _]. apply andb_prop in Hok1 as [Hok1 _].
  apply andb_prop in Hok1 as [Hq1 _].
  apply andb_prop in Hok2 as [Hok2 _]. apply andb_prop in Hok2 as [Hok2 _].
  apply andb_prop in Hok2 as [Hq2 _].
  apply Qeq_bool_eq in Hq1, Hq2.
  rewrite Hq1 in Hq2. unfold Qeq in Hq2. cbn [Qnum Qden] in Hq2. lia.
Qed.

(** The theorem at the axes 1 and 2 of that joystick: their values differ. *)
Lemma axis_distinguishes_raw_values_witness :
  exists r1 r2 : float,
    JoystickWrapper.axis sdl_two_axes
      {| JoystickWrapper._joystick := 0; JoystickWrapper.wrapper_oid := 0 |} 1 = Return r1
    /\ JoystickWrapper.axis sdl_two_axes
         {| JoystickWrapper._joystick := 0; JoystickWrapper.wrapper_oid := 0 |} 2 = Return r2
    /\ r1 <> r2.
Proof.
  pose proof (axis_distinguishes_raw_values sdl_two_axes
                {| JoystickWrapper._joystick := 0; JoystickWrapper.wrapper_oid := 0 |} 1 2)
    as Hinj.
  cbv zeta in Hinj.
  destruct (JoystickWrapper.axis (N := float) sdl_two_axes
              {| JoystickWrapper._joystick := 0; JoystickWrapper.wrapper_oid := 0 |} 1)
    as [r1|e1] eqn:H1; [|vm_compute in H1; discriminate H1].
  destruct (JoystickWrapper.axis (N := float) sdl_two_axes
              {| JoystickWrapper._joystick := 0; JoystickWrapper.wrapper_oid := 0 |} 2)
    as [r2|e2] eqn:H2; [|vm_compute in H2; discriminate H2].
  exists r1, r2. split; [reflexivity|]. split; [reflexivity|].
  intros Heq. subst r2.
  assert (Habs : (100 = 200)%Z); [|discriminate Habs].
  apply Hinj; [cbn; lia | cbn; lia | reflexivity].
Defined.

End IdsAndAxes.

(** ** Registration through the decorators, and reset *)

Section DecoratorRegistration.
Import CallbackRegistry input_devices.
Context {World Event DeviceId Key : Type}.
Context `{Countable Event} `{Countable DeviceId}.
Variable device_id : Event -> DeviceId.
Variable extract_ids : Value -> Value * Value.
Variable Event_new : InputType -> Value -> Value -> Value -> Event.
Variable key_from_name : Value -> Key.
Variable Event_from_key : Key -> Event.

Local Abbreviation State := (State (World := World) (Event := Event) (DeviceId := DeviceId)).

Lemma add_then_ret_run (wrapper : Callback World) ev mode ae (st : State) :
  (let* _ := add device_id wrapper ev mode ae in ret wrapper)%py st
  = (Return wrapper, snd (add device_id wrapper ev mode ae st)).
Proof.
  unfold Py.bind.
  pose proof (add_entry device_id st wrapper ev mode ae (device_id ev) mode ev
                (__name__ wrapper)) as [Hout _].
  destruct (add device_id wrapper ev mode ae st) as [out st'].
  cbn [fst snd] in *. now subst out.
Qed.

Lemma add_registers_wrapper (callback : Callback World) ev mode ae :
  registers_wrapper device_id
    (let* _ := add device_id (wraps callback (wrapper_fn callback)) ev mode ae in
     ret (wraps callback (wrapper_fn callback)))%py
    callback ev mode ae.
Proof.
  intros st. cbv zeta. rewrite add_then_ret_run. cbn [fst snd].
  set (wrapper := wraps callback (wrapper_fn callback)).
  change (__name__ callback) with (__name__ wrapper).
  split; [reflexivity|]. split; [reflexivity|]. split.
  - intros Hnone.
    destruct (add_fresh device_id st wrapper ev mode ae Hnone) as (_ & Hw & Hent).
    split; [exact Hent|]. split; [exact Hw|].
    intros d m e n Hkey.
    destruct (add_entry device_id st wrapper ev mode ae d m e n) as [_ ->].
    unfold registers_at. cbn [reg_event reg_mode reg_callback].
    rewrite bool_decide_eq_false_2 by exact Hkey.
    now destruct (entry (_registry st) d m e n).
  - intros x Hx. now rewrite (add_duplicate device_id st wrapper ev mode ae x Hx).
Qed.

(** X7.  Each decorator registers the forwarding wrapper under the
    declared name of the decorated callback, for the event built from
    its arguments: [axis], [button] and [hat] for the event of their
    kind with the ids that [extract_ids] gives and the element id,
    [keyboard] for the event of the key named.  Where the bucket already
    holds that name, the wrapper is handed back but not registered. *)
Theorem decorators_register_wrapper (element device key_name : Value)
    (mode : string) (always_execute : bool) (callback : Callback World) :
  let hid := fst (extract_ids device) in
  let wid := snd (extract_ids device) in
  registers_wrapper device_id
    (axis device_id extract_ids Event_new element device mode always_execute callback)
    callback (Event_new JoystickAxis hid wid element) mode always_execute
  /\ registers_wrapper device_id
       (button device_id extract_ids Event_new element device mode always_execute callback)
       callback (Event_new JoystickButton hid wid element) mode always_execute
  /\ registers_wrapper device_id
       (hat device_id extract_ids Event_new element device mode always_execute callback)
       callback (Event_new JoystickHat hid wid element) mode always_execute
  /\ registers_wrapper device_id
       (keyboard device_id key_from_name Event_from_key key_name mode always_execute
          callback)
       callback (Event_from_key (key_from_name key_name)) mode always_execute.
Proof.
  intros hid wid. subst hid wid.
  unfold axis, button, hat, keyboard.
  destruct (extract_ids device) as [hid wid]. cbn [fst snd].
  split; [|split; [|split]]; apply add_registers_wrapper.
Qed.

(** X8.  [clear] empties the registry, so that a name registered before
    can be registered again: after [clear], [add] enters the callback
    under its key and logs no warning, whatever the registry held. *)
Theorem clear_then_add (st : State) (callback : Callback World) (event : Event)
    (mode : string) (always_execute : bool) :
  let cleared := snd (clear st) in
  let added := snd (add device_id callback event mode always_execute cleared) in
  fst (clear st) = Return tt
  /\ (forall d m e n, entry (_registry cleared) d m e n = None)
  /\ entry (_registry added) (device_id event) mode event (__name__ callback)
     = Some (callback, always_execute)
  /\ warnings added = warnings st.
Proof.
  intros cleared added.
  assert (Hempty : forall d m e n, entry (_registry cleared) d m e n = None).
  { intros d m e n. unfold cleared, clear, modify. cbn [snd _registry].
    unfold entry, at_event, at_mode, at_device, CallbackRegistry.Registry,
      CallbackRegistry.Bucket.
    rewrite lookup_empty. cbn [default from_option id].
    rewrite lookup_empty. cbn [default from_option id].
    rewrite lookup_empty. cbn [default from_option id].
    apply lookup_empty. }
  split; [reflexivity|]. split; [exact Hempty|].
  destruct (add_fresh device_id cleared callback event mode always_execute
              (Hempty _ _ _ _)) as (_ & Hw & Hent).
  split; [exact Hent|]. unfold added. now rewrite Hw.
Qed.

End DecoratorRegistration.

(** The theorem at the [axis] decorator applied once to an empty registry. *)
Lemma decorators_register_wrapper_witness :
  CallbackRegistry.entry
    (CallbackRegistry._registry
       (snd (input_devices.axis (fun e : Z => e) (fun d => (d, d)) (fun _ _ _ _ => 0%Z)
               (VInt 1) (VInt 2) "global" false set_throttle empty_seen_registry)))
    0%Z "global" 0%Z "set_throttle"
  = Some (wraps set_throttle (input_devices.wrapper_fn set_throttle), false).
Proof.
  pose proof (decorators_register_wrapper (World := Seen) (Key := Z)
                (fun e : Z => e) (fun d => (d, d)) (fun _ _ _ _ => 0%Z)
                (fun _ => 0%Z) (fun k => k) (VInt 1) (VInt 2) (VStr "A")
                "global" false set_throttle) as [Haxis _].
  destruct (Haxis empty_seen_registry) as (_ & _ & Hfresh & _).
  apply Hfresh. reflexivity.
Defined.

(** ** Keyboard state *)

Section KeyboardProperties.
Import Keyboard.
Context {Key : Type} `{Countable Key}.
Variable key_from_code : Value -> Value -> Key.
Variable key_from_name : string -> Key.

Local Abbreviation State := (State (Key := Key)).

Lemma deliver_returns (events : list KeyEvent) (st : State) :
  fst (deliver key_from_code events st) = Return tt.
Proof.
  revert st. induction events as [|e events IH]; intros st; [reflexivity|].
  unfold deliver. rewrite (for_each_cons_return e events _ st _ eq_refl). apply IH.
Qed.

Lemma deliver_snoc (events : list KeyEvent) (e : KeyEvent) (st : State) :
  snd (deliver key_from_code (events ++ [e]) st)
  = {| _keyboard_state :=
         <[event_key key_from_code e := event_is_pressed e]>
           (_keyboard_state (snd (deliver key_from_code events st))) |}.
Proof.
  unfold deliver.
  pose proof (deliver_returns events st) as Hret. unfold deliver in Hret.
  destruct (for_each events (keyboard_event key_from_code) st) as [out st1] eqn:Hrun.
  cbn [fst snd] in *. subst out.
  rewrite (for_each_app events [e] _ st st1 Hrun). reflexivity.
Qed.

(** X9.  After any run of keyboard events, a key reads as the pressed
    state of the latest event about it, as it read before when no event
    was about it, and as not pressed when it was never seen; asking by
    name is asking for the key of that name. *)
Theorem keyboard_latest_event_wins (events : list KeyEvent) (st : State) (key : Key)
    (name : string) :
  fst (deliver key_from_code events st) = Return tt
  /\ is_pressed key_from_name (ByKey key) (snd (deliver key_from_code events st))
     = match find (fun e => bool_decide (event_key key_from_code e = key)) (rev events) with
       | Some e => event_is_pressed e
       | None => is_pressed key_from_name (ByKey key) st
       end
  /\ is_pressed key_from_name (ByKey key) __init__ = false
  /\ is_pressed key_from_name (ByName name) (snd (deliver key_from_code events st))
     = is_pressed key_from_name (ByKey (key_from_name name))
         (snd (deliver key_from_code events st)).
Proof.
  split; [apply deliver_returns|]. split; [|split; reflexivity].
  induction events as [|e events IH] using rev_ind; [reflexivity|].
  rewrite deliver_snoc, rev_app_distr. cbn [rev app find].
  unfold is_pressed at 1. cbn [_keyboard_state].
  case_bool_decide as Hkey.
  - rewrite Hkey, lookup_insert_eq. reflexivity.
  - rewrite lookup_insert_ne by exact Hkey. exact IH.
Qed.

End KeyboardProperties.

(** ** One instance only *)

Section SingletonProperties.
Import SingletonDecorator.
Context {World Args Instance : Type}.
Variable klass : Args -> M World Instance.

(** X10.  Once a call of the singleton wrapper has returned an
    instance, every later call returns that same instance, whatever
    arguments it is given, and constructs nothing; a construction that
    raises stores nothing, so the next call constructs again. *)
Theorem singleton_returns_first_instance (args : Args) (self : State) :
  (forall x self1,
     __call__ klass args self = (Return x, self1) ->
     instance self1 = Some x
     /\ forall args' : Args, __call__ klass args' self1 = (Return x, self1))
  /\ (forall e self1,
        __call__ klass args self = (Raise e, self1) ->
        instance self = None /\ instance self1 = None
        /\ forall args' : Args,
             __call__ klass args' self1
             = match klass args' (world self1) with
               | (Return x, w) => (Return x, {| instance := Some x; world := w |})
               | (Raise e', w) => (Raise e', {| instance := None; world := w |})
               end).
Proof.
  unfold __call__. split.
  - intros x self1 Hcall.
    destruct (instance self) as [y|] eqn:Hinst.
    + injection Hcall as <- <-. split; [exact Hinst|].
      intros args'. now rewrite Hinst.
    + destruct (klass args (world self)) as [[y|e] w]; [|discriminate Hcall].
      injection Hcall as <- <-. cbn [instance]. split; [reflexivity|].
      intros args'. reflexivity.
  - intros e self1 Hcall.
    destruct (instance self) as [y|] eqn:Hinst; [discriminate Hcall|].
    destruct (klass args (world self)) as [[y|e'] w]; [discriminate Hcall|].
    injection Hcall as <- <-. cbn [instance world]. repeat split; reflexivity.
Qed.

End SingletonProperties.

(** The theorem at a class constructed with 5 and then called with 7. *)
Lemma singleton_returns_first_instance_witness :
  SingletonDecorator.__call__ counting_class 7%Z
    (snd (SingletonDecorator.__call__ counting_class 5%Z (SingletonDecorator.__init__ 0%nat)))
  = (Return 5%Z,
     {| SingletonDecorator.instance := Some 5%Z; SingletonDecorator.world := 1%nat |}).
Proof.
  destruct (singleton_returns_first_instance counting_class 5%Z
              (SingletonDecorator.__init__ 0%nat)) as [Hfirst _].
  destruct (Hfirst 5%Z {| SingletonDecorator.instance := Some 5%Z;
                          SingletonDecorator.world := 1%nat |} eq_refl) as [_ Hlater].
  exact (Hlater 7%Z).
Defined.

(** ** Device enumeration *)

Section Enumeration.
Import devices.

Lemma remove_dups_length_le {A : Type} `{EqDecision A} (l : list A) :
  (length (remove_dups l) <= length l)%nat.
Proof.
  induction l as [|x l IH]; [reflexivity|].
  cbn [remove_dups]. destruct (decide_rel elem_of x l); cbn [length]; lia.
Qed.

(** [len(names) != len(set(names))] says that a name occurs twice. *)
Lemma remove_dups_length_NoDup {A : Type} `{EqDecision A} (l : list A) :
  length (remove_dups l) = length l <-> NoDup l.
Proof.
  induction l as [|x l IH]; [split; [constructor | reflexivity]|].
  cbn [remove_dups]. pose proof (remove_dups_length_le l) as Hle.
  destruct (decide_rel elem_of x l) as [Hin|Hnot]; cbn [length].
  - split; [lia|]. intros Hnd. apply NoDup_cons in Hnd as [Hx _]. contradiction.
  - split.
    + intros Hlen. apply NoDup_cons. split; [exact Hnot|]. apply IH. lia.
    + intros Hnd. apply NoDup_cons in Hnd as [_ Hnd]. apply IH in Hnd. lia.
Qed.

Lemma init_fields (joy : SDLJoystick) (d : JoystickDeviceData) :
  __init__ joy = Return d ->
  _name d = SDL_JoystickName joy
  /\ _system_id d = SDL_JoystickInstanceID joy
  /\ _is_virtual d = bool_decide (SDL_JoystickName joy = "vJoy Device")
  /\ util.guid_to_number (SDL_JoystickGetGUID joy) = Return (_hardware_id d).
Proof.
  unfold __init__.
  destruct (util.guid_to_number (SDL_JoystickGetGUID joy)) as [h|e]; cbn [and_then];
    [|discriminate].
  intros Hd. injection Hd as <-. repeat split.
Qed.

Lemma init_succeeds (joy : SDLJoystick) :
  length (SDL_JoystickGetGUID joy) = 16%nat -> exists d, __init__ joy = Return d.
Proof.
  intros Hlen.
  destruct (guid_split _ Hlen) as (b0 & b1 & b2 & b3 & rest & Hg & Hrest).
  unfold __init__. rewrite Hg, (guid_to_number_cons4 _ _ _ _ _ Hrest).
  cbn [and_then]. eauto.
Qed.

Lemma open_each_all (connected : list SDLJoystick) :
  Forall (fun j => length (SDL_JoystickGetGUID j) = 16%nat) connected ->
  forall acc, exists ds,
    open_each connected acc = Return (acc ++ ds)
    /\ Forall2 (fun j d => __init__ j = Return d) connected ds.
Proof.
  induction 1 as [|joy rest Hjoy Hrest IH]; intros acc.
  - exists []. cbn. rewrite app_nil_r. split; [reflexivity | constructor].
  - destruct (init_succeeds joy Hjoy) as [d Hd].
    destruct (IH (acc ++ [d])) as (ds & Hrun & Hall).
    exists (d :: ds). cbn [open_each]. rewrite Hd. cbn [and_then].
    rewrite Hrun, <- app_assoc. split; [reflexivity|].
    constructor; assumption.
Qed.

Lemma physical_names_of_records (connected : list SDLJoystick)
    (ds : list JoystickDeviceData) :
  Forall2 (fun j d => __init__ j = Return d) connected ds ->
  _name <$> filter (fun v => _is_virtual v = false) ds = physical_names connected.
Proof.
  unfold physical_names.
  induction 1 as [|joy d connected ds Hd Hall IH]; [reflexivity|].
  destruct (init_fields joy d Hd) as (Hname & _ & Hvirt & _).
  rewrite !filter_cons.
  destruct (decide (SDL_JoystickName joy = "vJoy Device")) as [Hv|Hv].
  - rewrite bool_decide_eq_true_2 in Hvirt by exact Hv.
    rewrite decide_False by (rewrite Hvirt; discriminate).
    rewrite decide_False by (intros Hc; contradiction).
    exact IH.
  - rewrite bool_decide_eq_false_2 in Hvirt by exact Hv.
    rewrite decide_True by exact Hvirt.
    rewrite decide_True by exact Hv.
    cbn [fmap list_fmap]. rewrite Hname. f_equal. exact IH.
Qed.

(** X11.  When every connected joystick reports a 16 byte GUID,
    [joystick_devices] returns one record per joystick, in index order,
    each with the joystick's name and instance id and with the leading
    word of its GUID as hardware id; and it leaves the duplicate flag set
    exactly when it was set before or two joysticks other than the
    virtual device share a name.  It never clears the flag. *)
Theorem joystick_devices_enumeration (connected : list SDLJoystick) (flag : bool) :
  Forall (fun j => length (SDL_JoystickGetGUID j) = 16%nat) connected ->
  exists (records : list JoystickDeviceData) (flag' : bool),
    joystick_devices connected flag = (Return records, flag')
    /\ Forall2 (fun j d =>
                  _name d = SDL_JoystickName j
                  /\ _system_id d = SDL_JoystickInstanceID j
                  /\ _is_virtual d = bool_decide (SDL_JoystickName j = "vJoy Device")
                  /\ util.guid_to_number (SDL_JoystickGetGUID j) = Return (_hardware_id d))
         connected records
    /\ (flag' = true <-> flag = true \/ ~ NoDup (physical_names connected)).
Proof.
  intros Hguid.
  destruct (open_each_all connected Hguid []) as (ds & Hrun & Hall).
  cbn [app] in Hrun.
  unfold joystick_devices. rewrite Hrun.
  rewrite (physical_names_of_records connected ds Hall).
  eexists. eexists. split; [reflexivity|]. split.
  - eapply Forall2_impl; [exact Hall|]. intros j d Hd. now apply init_fields.
  - pose proof (remove_dups_length_NoDup (physical_names connected)) as Hnd.
    destruct (Nat.eqb_spec (length (physical_names connected))
                (length (remove_dups (physical_names connected)))) as [Heq|Hne];
      cbn [negb].
    + split; [auto|]. intros [Hf|Hdup]; [exact Hf|].
      exfalso. apply Hdup. apply Hnd. now symmetry.
    + split; [|reflexivity]. intros _. right. intros Hc.
      apply Hnd in Hc. congruence.
Qed.

End Enumeration.

(** ** Formatting names *)

Section FormatName.
Import names.

Lemma format_char_accepted (c : ascii) :
  identifier_char (format_char c) = accepted_char c.
Proof. destruct c as [[] [] [] [] [] [] [] []]; vm_compute; reflexivity. Qed.

Lemma format_char_formatted (c : ascii) :
  identifier_char (format_char c) = true ->
  formatted_char (format_char c) = true /\ format_char (format_char c) = format_char c.
Proof.
  destruct c as [[] [] [] [] [] [] [] []]; vm_compute; intros Hc;
    try discriminate Hc; split; reflexivity.
Qed.

Lemma sub_lower_map (s : string) : sub_separators (lower s) = map_chars format_char s.
Proof.
  unfold sub_separators, lower.
  induction s as [|c s IH]; [reflexivity|]. cbn [map_chars]. now rewrite IH.
Qed.

Lemma map_chars_length (f : ascii -> ascii) (s : string) :
  String.length (map_chars f s) = String.length s.
Proof. induction s as [|c s IH]; [reflexivity|]. cbn. now rewrite IH. Qed.

Lemma all_chars_format (s : string) :
  all_chars identifier_char (map_chars format_char s) = all_chars accepted_char s.
Proof.
  induction s as [|c s IH]; [reflexivity|].
  cbn [map_chars all_chars]. now rewrite format_char_accepted, IH.
Qed.

Lemma all_chars_formatted (s : string) :
  all_chars identifier_char (map_chars format_char s) = true ->
  all_chars formatted_char (map_chars format_char s) = true
  /\ map_chars format_char (map_chars format_char s) = map_chars format_char s.
Proof.
  induction s as [|c s IH]; [split; reflexivity|].
  cbn [map_chars all_chars]. intros Hall.
  apply andb_prop in Hall as [Hc Hs].
  destruct (format_char_formatted c Hc) as [Hf Hi].
  destruct (IH Hs) as [Hfs His].
  rewrite Hf, Hfs, Hi, His. split; reflexivity.
Qed.

Lemma valid_identifier_format (s : string) :
  valid_identifier (map_chars format_char s)
  = match s with
    | EmptyString => false
    | String _ _ => all_chars accepted_char s
    end.
Proof.
  destruct s as [|c s]; [reflexivity|].
  change (valid_identifier (map_chars format_char (String c s)))
    with (all_chars identifier_char (map_chars format_char (String c s))).
  apply all_chars_format.
Qed.

(** X12.  [format_name] succeeds exactly on the names that are not
    empty and consist of letters A-Z and a-z, digits, spaces,
    underscores, periods, commas and colons; it fails with the domain
    error on every other name.  A result has the length of the name,
    consists of small letters, digits and underscores only, passes
    [valid_identifier], and is left as it is when formatted again. *)
Theorem format_name_result (name : string) :
  (forall r, format_name name = Return r ->
     String.length r = String.length name
     /\ all_chars formatted_char r = true
     /\ valid_identifier r = true
     /\ format_name r = Return r)
  /\ ((exists r, format_name name = Return r)
      <-> name <> EmptyString /\ all_chars accepted_char name = true)
  /\ (forall e, format_name name = Raise e -> exists msg, e = GremlinError msg).
Proof.
  unfold format_name. rewrite sub_lower_map.
  pose proof (valid_identifier_format name) as Hvalid.
  split; [|split].
  - intros r Hr.
    destruct (valid_identifier (map_chars format_char name)) eqn:Hv; [|discriminate Hr].
    injection Hr as <-.
    assert (Hall : all_chars identifier_char (map_chars format_char name) = true).
    { destruct name as [|c s]; [discriminate Hvalid|]. exact Hv. }
    destruct (all_chars_formatted name Hall) as [Hf Hi].
    split; [apply map_chars_length|]. split; [exact Hf|]. split; [exact Hv|].
    rewrite sub_lower_map, Hi, Hv. reflexivity.
  - rewrite Hvalid. destruct name as [|c s].
    + split; [intros [r Hr]; discriminate Hr | intros [Hne _]; contradiction].
    + destruct (all_chars accepted_char (String c s)).
      * split; [intros _; split; [discriminate | reflexivity] | eauto].
      * split; [intros [r Hr]; discriminate Hr | intros [_ Hc]; discriminate Hc].
  - intros e He.
    destruct (valid_identifier (map_chars format_char name)); [discriminate He|].
    injection He as <-. eauto.
Qed.

(** The theorem at the names [Button One] and [Bad!Name]. *)
Lemma format_name_result_witness :
  format_name "Button One" = Return "button_one"%string
  /\ format_name "button_one" = Return "button_one"%string
  /\ exists msg, format_name "Bad!Name" = Raise (GremlinError msg).
Proof.
  destruct (format_name_result "Button One") as (Hres & _ & _).
  destruct (format_name_result "Bad!Name") as (_ & _ & Hfail).
  split; [reflexivity|]. split.
  - apply (Hres "button_one"%string). reflexivity.
  - destruct (format_name "Bad!Name") as [r|e] eqn:Hf; [discriminate Hf|].
    destruct (Hfail e eq_refl) as [msg ->]. eauto.
Defined.

End FormatName.

(** ** Modes of a profile *)

Section ModeList.
Import modes.

Lemma ascii_compare_N (a b : ascii) :
  Ascii.compare a b = N.compare (N_of_ascii a) (N_of_ascii b).
Proof. reflexivity. Qed.

Lemma ascii_compare_Eq (a b : ascii) : Ascii.compare a b = Eq -> a = b.
Proof.
  rewrite ascii_compare_N. intros Hc. apply N.compare_eq in Hc.
  rewrite <- (ascii_N_embedding a), <- (ascii_N_embedding b). now rewrite Hc.
Qed.

Lemma ascii_compare_refl (a : ascii) : Ascii.compare a a = Eq.
Proof. rewrite ascii_compare_N. apply N.compare_refl. Qed.

Lemma ascii_compare_Lt_trans (a b c : ascii) :
  Ascii.compare a b = Lt -> Ascii.compare b c = Lt -> Ascii.compare a c = Lt.
Proof.
  rewrite !ascii_compare_N, !N.compare_lt_iff. apply N.lt_trans.
Qed.

Lemma string_compare_refl (s : string) : String.compare s s = Eq.
Proof.
  induction s as [|c s IH]; [reflexivity|].
  cbn [String.compare]. now rewrite ascii_compare_refl.
Qed.

Lemma string_compare_Lt_trans (s1 : string) :
  forall s2 s3,
    String.compare s1 s2 = Lt -> String.compare s2 s3 = Lt -> String.compare s1 s3 = Lt.
Proof.
  induction s1 as [|a s1 IH]; intros [|b s2] [|c s3]; cbn [String.compare];
    try discriminate; try reflexivity.
  destruct (Ascii.compare a b) eqn:Hab; try discriminate;
    destruct (Ascii.compare b c) eqn:Hbc; try discriminate; intros H12 H23.
  - apply ascii_compare_Eq in Hab, Hbc. subst b c.
    rewrite ascii_compare_refl. now apply IH with s2.
  - apply ascii_compare_Eq in Hab. subst b. now rewrite Hbc.
  - apply ascii_compare_Eq in Hbc. subst c. now rewrite Hab.
  - now rewrite (ascii_compare_Lt_trans a b c Hab Hbc).
Qed.

Lemma string_le_cases (a b : string) :
  string_le a b <-> String.compare a b = Lt \/ a = b.
Proof.
  unfold string_le, String.leb. split.
  - destruct (String.compare a b) eqn:Hc; intros Hle; try discriminate Hle.
    + right. now apply String.compare_eq_iff.
    + now left.
  - intros [Hlt| ->]; [now rewrite Hlt | now rewrite string_compare_refl].
Qed.

#[local] Instance string_le_trans : Transitive string_le.
Proof.
  intros a b c Hab Hbc. apply string_le_cases in Hab, Hbc. apply string_le_cases.
  destruct Hab as [Hab| ->]; [|exact Hbc].
  destruct Hbc as [Hbc| <-]; [|now left].
  left. now apply string_compare_Lt_trans with b.
Qed.

#[local] Instance string_le_total : Total string_le.
Proof. intros a b. apply String.leb_total. Qed.

Lemma elem_of_concat {A : Type} (x : A) (ls : list (list A)) :
  x ∈ concat ls <-> exists l, l ∈ ls /\ x ∈ l.
Proof.
  induction ls as [|l ls IH]; cbn [concat].
  - split; [intros Hx; now apply elem_of_nil in Hx|].
    intros (l & Hl & _). now apply elem_of_nil in Hl.
  - rewrite elem_of_app, IH. split.
    + intros [Hx|(l' & Hl' & Hx)].
      * exists l. split; [apply elem_of_cons; now left | exact Hx].
      * exists l'. split; [apply elem_of_cons; now right | exact Hx].
    + intros (l' & Hl' & Hx). apply elem_of_cons in Hl' as [->|Hl'].
      * now left.
      * right. eauto.
Qed.

Lemma mode_list_child (node : Node) : mode_list (Child node) = mode_list node.
Proof. reflexivity. Qed.

(** X13.  From every node below a profile, [mode_list] returns the mode
    names of all devices of that profile, each name once, in the order of
    [sorted]: the list is sorted, has no duplicates, and holds a name
    exactly when some device has a mode of that name.  A node and its
    parent give the same list.  Under a root that is no profile the
    assertion fails. *)
Theorem mode_list_sorted_distinct (node : Node) :
  mode_list (Child node) = mode_list node
  /\ (forall devices, root node = Profile devices ->
        exists mode_names,
          mode_list node = Modes mode_names
          /\ StronglySorted string_le mode_names
          /\ NoDup mode_names
          /\ forall m, m ∈ mode_names <-> exists device, device ∈ devices /\ m ∈ device)
  /\ (root node = Detached -> mode_list node = AssertionError).
Proof.
  split; [apply mode_list_child|]. split.
  - intros devices Hroot. unfold mode_list. rewrite Hroot.
    eexists. split; [reflexivity|].
    pose proof (merge_sort_Permutation string_le (remove_dups (concat devices))) as Hperm.
    split; [apply (StronglySorted_merge_sort string_le)|]. split.
    + rewrite Hperm. apply NoDup_remove_dups.
    + intros m. rewrite Hperm, elem_of_remove_dups. apply elem_of_concat.
  - intros Hroot. unfold mode_list. now rewrite Hroot.
Qed.

End ModeList.

(** The theorem at a node two levels below a profile with two devices. *)
Lemma mode_list_sorted_distinct_witness :
  exists mode_names,
    modes.mode_list profile_node = modes.Modes mode_names
    /\ StronglySorted modes.string_le mode_names
    /\ NoDup mode_names
    /\ ("Landing"%string ∈ mode_names).
Proof.
  destruct (mode_list_sorted_distinct profile_node) as (_ & Hprofile & _).
  destruct (Hprofile _ eq_refl) as (mode_names & Hlist & Hsorted & Hnodup & Hmem).
  exists mode_names. repeat split; try assumption.
  apply Hmem. exists ["Combat"; "Landing"]%string. split.
  - apply elem_of_cons. right. apply elem_of_cons. now left.
  - apply elem_of_cons. right. apply elem_of_cons. now left.
Defined.

(** ** Cache keys of the proxies *)

Section ProxyKeys.

Lemma dict_get_key {A : Type} (d : gmap Z A) (key : Value) (n : Z) :
  int_key key = Some n -> dict_get d key = d !! n.
Proof. intros Hn. unfold dict_get. now rewrite Hn. Qed.

Lemma dict_get_Some_key {A : Type} (d : gmap Z A) (key : Value) (x : A) :
  dict_get d key = Some x -> exists n, int_key key = Some n /\ d !! n = Some x.
Proof.
  unfold dict_get. destruct (int_key key) as [n|]; [eauto | discriminate].
Qed.

Lemma open_all_keyed (sdl : SDL) (st st' : JoystickProxy.State) :
  keyed_by_instance_id sdl st ->
  for_each (seqZ 0 (SDL_NumJoysticks sdl)) (JoystickProxy.open_and_store sdl) st
  = (Return tt, st') ->
  keyed_by_instance_id sdl st'.
Proof.
  intros Hinv Hrun k joy Hk.
  destruct (open_all sdl _ (connected_indices_accepted sdl) st)
    as (st2 & Hrun2 & _ & Hother & Hids & _).
  rewrite Hrun in Hrun2. injection Hrun2 as <-.
  destruct (decide (Exists (fun i => SDL_JoystickInstanceID sdl i = k)
                      (seqZ 0 (SDL_NumJoysticks sdl)))) as [Hex|Hnone].
  - apply Exists_exists in Hex as (i & Hi & <-).
    destruct (Hids i Hi) as (joy' & Hjoy' & _ & Hwid).
    rewrite Hk in Hjoy'. injection Hjoy' as <-. exact Hwid.
  - apply (Hinv k joy). rewrite <- Hk. symmetry. apply Hother.
    intros i Hi Hc. apply Hnone. apply Exists_exists. eauto.
Qed.

(** X14.  While the platform stays as it is, the physical proxy keeps
    every cached wrapper under that wrapper's own instance id, whatever is
    looked up; so a lookup that returns a wrapper returns one whose
    instance id equals the key. *)
Theorem joystick_cache_keyed_by_instance_id (sdl : SDL) (key : Value)
    (st : JoystickProxy.State) :
  keyed_by_instance_id sdl st ->
  keyed_by_instance_id sdl (snd (JoystickProxy.__getitem__ sdl key st))
  /\ forall joy st' n,
       JoystickProxy.__getitem__ sdl key st = (Return joy, st') ->
       int_key key = Some n ->
       JoystickWrapper.windows_id sdl joy = n.
Proof.
  intros Hinv.
  destruct (dict_get (JoystickProxy.joystick_devices st) key) as [cached|] eqn:Hget.
  - rewrite (joystick_getitem_hit sdl key st cached Hget). cbn [snd].
    split; [exact Hinv|]. intros joy st' n Hret Hn. injection Hret as <- <-.
    apply Hinv. now rewrite <- (dict_get_key _ key n Hn).
  - destruct (type_is_int key) eqn:Htype.
    + destruct (Z.gtb_spec (int_value key) (SDL_NumJoysticks sdl)) as [Hgt|Hle].
      * assert (Hraise : JoystickProxy.__getitem__ sdl key st
                         = (Raise (GremlinError "No device with the provided ID exist"), st)).
        { unfold JoystickProxy.__getitem__. rewrite Hget, Htype. cbn [negb].
          destruct (Z.gtb_spec (int_value key) (SDL_NumJoysticks sdl)); [reflexivity|lia]. }
        rewrite Hraise. cbn [snd]. split; [exact Hinv|]. intros joy st' n Hret.
        discriminate Hret.
      * destruct (joystick_getitem_miss sdl key st Hget Htype Hle) as (st1 & Hrun & ->).
        cbn [snd].
        pose proof (open_all_keyed sdl st st1 Hinv Hrun) as Hinv1.
        split; [exact Hinv1|]. intros joy st' n Hret Hn.
        destruct (dict_get (JoystickProxy.joystick_devices st1) key) as [found|] eqn:Hfound;
          [|discriminate Hret].
        injection Hret as <- <-. apply Hinv1.
        now rewrite <- (dict_get_key _ key n Hn).
    + assert (Hraise : JoystickProxy.__getitem__ sdl key st
                       = (Raise (TypeError "Integer ID expected"), st)).
      { unfold JoystickProxy.__getitem__. now rewrite Hget, Htype. }
      rewrite Hraise. cbn [snd]. split; [exact Hinv|]. intros joy st' n Hret.
      discriminate Hret.
Qed.

(** The theorem at the empty cache with two joysticks connected. *)
Lemma joystick_cache_keyed_by_instance_id_witness :
  keyed_by_instance_id sdl_two
    (snd (JoystickProxy.__getitem__ sdl_two (VInt 1) JoystickProxy.initial)).
Proof.
  apply (joystick_cache_keyed_by_instance_id sdl_two (VInt 1) JoystickProxy.initial).
  intros k joy Hk. cbn in Hk. rewrite lookup_empty in Hk. discriminate Hk.
Defined.

(** X15.  The type check of both proxies applies on a miss only: a key
    that Python holds equal to a cached integer key (a [bool], or a float
    of integral value) is served from the cache.  On the virtual proxy a
    [bool] counts as an integer, so that a handle constructed for it is
    the handle of the key 0 or 1. *)
Theorem proxy_keys_equal_in_python (key key' : Value) (n : Z) :
  int_key key = Some n -> int_key key' = Some n ->
  (forall st : VJoyProxy.State,
     isinstance_int key = true ->
     exists device st1,
       VJoyProxy.__getitem__ key st = (Return device, st1)
       /\ VJoyProxy.__getitem__ key' st1 = (Return device, st1))
  /\ (forall (sdl : SDL) (st : JoystickProxy.State) joy st1,
        JoystickProxy.__getitem__ sdl key st = (Return joy, st1) ->
        forall sdl' : SDL, JoystickProxy.__getitem__ sdl' key' st1 = (Return joy, st1)).
Proof.
  intros Hn Hn'. split.
  - intros st Hint.
    destruct (VJoyProxy.vjoy_devices st !! n) as [device|] eqn:Hget.
    + exists device, st. split; apply getitem_hit;
        [rewrite (dict_get_key _ key n Hn) | rewrite (dict_get_key _ key' n Hn')];
        exact Hget.
    + rewrite (getitem_miss key n st Hn Hint Hget).
      eexists. eexists. split; [reflexivity|].
      apply getitem_hit. cbn [VJoyProxy.vjoy_devices].
      rewrite (dict_get_key _ key' n Hn'). apply lookup_insert_eq.
  - intros sdl st joy st1 Hret sdl'.
    apply joystick_getitem_hit. rewrite (dict_get_key _ key' n Hn').
    destruct (dict_get (JoystickProxy.joystick_devices st) key) as [cached|] eqn:Hget.
    + rewrite (joystick_getitem_hit sdl key st cached Hget) in Hret.
      injection Hret as <- <-. now rewrite <- (dict_get_key _ key n Hn).
    + destruct (type_is_int key) eqn:Htype.
      * destruct (Z.gtb_spec (int_value key) (SDL_NumJoysticks sdl)) as [Hgt|Hle].
        -- unfold JoystickProxy.__getitem__ in Hret. rewrite Hget, Htype in Hret.
           cbn [negb] in Hret.
           destruct (Z.gtb_spec (int_value key) (SDL_NumJoysticks sdl));
             [discriminate Hret | lia].
        -- destruct (joystick_getitem_miss sdl key st Hget Htype Hle)
             as (st2 & Hrun & Hres).
           rewrite Hres in Hret.
           destruct (dict_get (JoystickProxy.joystick_devices st2) key) as [found|] eqn:Hfound;
             [|discriminate Hret].
           injection Hret as <- <-. now rewrite <- (dict_get_key _ key n Hn).
      * unfold JoystickProxy.__getitem__ in Hret. rewrite Hget, Htype in Hret.
        discriminate Hret.
Qed.

(** The theorem at the keys [True] and [1] of the virtual proxy. *)
Lemma proxy_keys_equal_in_python_witness :
  exists device st1,
    VJoyProxy.__getitem__ (VBool true) VJoyProxy.initial = (Return device, st1)
    /\ VJoyProxy.__getitem__ (VInt 1) st1 = (Return device, st1)
    /\ VJoyProxy.vjoy_id device = VBool true.
Proof.
  destruct (proxy_keys_equal_in_python (VBool true) (VInt 1) 1%Z eq_refl eq_refl)
    as [Hvjoy _].
  destruct (Hvjoy VJoyProxy.initial eq_refl) as (device & st1 & Hfirst & Hsecond).
  exists device, st1. split; [exact Hfirst|]. split; [exact Hsecond|].
  vm_compute in Hfirst. injection Hfirst as <- _. reflexivity.
Defined.

End ProxyKeys.

(** The theorem at two sticks of one model beside two virtual devices. *)
Lemma joystick_devices_enumeration_witness :
  exists records,
    devices.joystick_devices connected_sticks false = (Return records, true)
    /\ length records = 4%nat.
Proof.
  destruct (joystick_devices_enumeration connected_sticks false)
    as (records & flag' & Hrun & Hall & Hflag).
  - repeat constructor.
  - assert (Hset : flag' = true).
    { apply Hflag. right. intros Hnd.
      change (physical_names connected_sticks) with ["T.16000M"; "T.16000M"]%string in Hnd.
      apply NoDup_cons in Hnd as [Hnot _]. apply Hnot. apply elem_of_cons. now left. }
    subst flag'. exists records. split; [exact Hrun|].
    apply Forall2_length in Hall. now rewrite <- Hall.
Defined.
